(** * Discord summarizer: the snowflake codec, the page fetcher, the window
      walk and the prompt formatter

    A shallow embedding of [src/discord/dateUtils.ts] (class [DateUtils]) and
    [src/discord/discord.ts] (class [Discord]).

    Conventions of the embedding.
    - A JavaScript string is a [string]; each character stands for one code
      unit below 256.
    - A JavaScript number that the code only ever uses as an integer or as
      NaN is an [option Z], [None] being NaN.  A [bigint] is a [Z].  The
      result of [parseInt], which has no bound, is a [Number]: NaN, an
      integral double or an infinity.
    - A function that can throw returns a [Completion]; [try]/[catch] is
      [try_catch].
    - Calls to [console] are not modelled. *)

From Stdlib Require Import ZArith List String Ascii Bool Lia.
From Stdlib Require Import DecimalString DecimalZ.
From Stdlib Require Import Permutation Sorted.
Import ListNotations.

Local Open Scope string_scope.
Local Open Scope Z_scope.

(** ** Host primitives *)

Module Js.

(** A number as [parseInt] returns it: NaN, a finite number, which is
    integral, or an infinity.  [Num 0] stands for both zeros, which the
    code does not tell apart. *)
Inductive Number : Type :=
| NaN
| Num (z : Z)
| Infinity (negative : bool).

(** What a [throw] carries.  [ErrorObject] is any instance of [Error]
    ([Error], [TypeError], [SyntaxError], [RangeError]); [RateLimitObject] is
    the plain object literal thrown by [handleResponse] on status 429. *)
Inductive Thrown : Type :=
| ErrorObject (name message : string)
| RateLimitObject (status : Z) (retryAfter : Number) (message : string).

Inductive Completion (A : Type) : Type :=
| Normal (a : A)
| Throw (e : Thrown).

Arguments Normal {A} a.
Arguments Throw {A} e.

Definition bind {A B} (c : Completion A) (k : A -> Completion B) : Completion B :=
  match c with
  | Normal a => k a
  | Throw e => Throw e
  end.

Definition try_catch {A} (body : Completion A) (handler : Thrown -> Completion A)
  : Completion A :=
  match body with
  | Normal a => Normal a
  | Throw e => handler e
  end.

Notation "x <- c ;; k" := (bind c (fun x => k))
  (at level 61, c at next level, right associativity).

(** [error instanceof Error] *)
Definition instanceofError (e : Thrown) : bool :=
  match e with
  | ErrorObject _ _ => true
  | RateLimitObject _ _ _ => false
  end.

(** A string is truthy when it is not empty. *)
Definition truthy (s : string) : bool :=
  match s with
  | EmptyString => false
  | String _ _ => true
  end.

(** ECMAScript WhiteSpace and LineTerminator among the code units below 256:
    TAB, LF, VT, FF, CR, SP and NBSP. *)
Definition isWhiteSpace (c : ascii) : bool :=
  let n := nat_of_ascii c in
  (Nat.eqb n 9 || Nat.eqb n 10 || Nat.eqb n 11 || Nat.eqb n 12
   || Nat.eqb n 13 || Nat.eqb n 32 || Nat.eqb n 160)%bool.

Fixpoint trimStart (s : string) : string :=
  match s with
  | EmptyString => EmptyString
  | String c s' => if isWhiteSpace c then trimStart s' else s
  end.

Fixpoint trimEnd (s : string) : string :=
  match s with
  | EmptyString => EmptyString
  | String c s' =>
      let r := trimEnd s' in
      if (isWhiteSpace c && negb (truthy r))%bool then EmptyString else String c r
  end.

(** [String.prototype.trim] *)
Definition trim (s : string) : string := trimEnd (trimStart s).

(** Value of a digit in radixes up to 36. *)
Definition digitValue (c : ascii) : option Z :=
  let n := Z.of_nat (nat_of_ascii c) in
  if (48 <=? n) && (n <=? 57) then Some (n - 48)
  else if (97 <=? n) && (n <=? 122) then Some (n - 87)
  else if (65 <=? n) && (n <=? 90) then Some (n - 55)
  else None.

Definition isDecimalDigit (c : ascii) : bool :=
  let n := Z.of_nat (nat_of_ascii c) in (48 <=? n) && (n <=? 57).

(** A non-empty run of digits of the radix, most significant first. *)
Fixpoint digitsValueAcc (radix : Z) (s : string) (acc : Z) : option Z :=
  match s with
  | EmptyString => Some acc
  | String c s' =>
      match digitValue c with
      | Some d => if d <? radix then digitsValueAcc radix s' (acc * radix + d) else None
      | None => None
      end
  end.

Definition digitsValue (radix : Z) (s : string) : option Z :=
  if truthy s then digitsValueAcc radix s 0 else None.

(** DecimalDigits: a non-empty run of decimal digits. *)
Definition decimalDigits (s : string) : option Z :=
  if truthy s then option_map Z.of_uint (NilEmpty.uint_of_string s) else None.

(** [BigInt.prototype.toString()] and the decimal rendering of an integral
    number in a template literal. *)
Definition toStringZ (z : Z) : string := NilEmpty.string_of_int (Z.to_int z).

(** StringToBigInt: surrounding white space is dropped; the empty string is
    [0n]; a literal is a signed run of decimal digits or an unsigned binary,
    octal or hexadecimal literal.  [None] is the SyntaxError case. *)
Definition StringToBigInt (s : string) : option Z :=
  match trim s with
  | EmptyString => Some 0
  | String "0" (String "x" r) | String "0" (String "X" r) => digitsValue 16 r
  | String "0" (String "o" r) | String "0" (String "O" r) => digitsValue 8 r
  | String "0" (String "b" r) | String "0" (String "B" r) => digitsValue 2 r
  | String "+" r => decimalDigits r
  | String "-" r => option_map Z.opp (decimalDigits r)
  | r => decimalDigits r
  end.

(** [BigInt(string)] *)
Definition BigInt_ofString (s : string) : Completion Z :=
  match StringToBigInt s with
  | Some z => Normal z
  | None => Throw (ErrorObject "SyntaxError" ("Cannot convert " ++ s ++ " to a BigInt"))
  end.

(** [BigInt(number)]: NumberToBigInt throws a RangeError unless the number is
    integral; the numbers of this development are integral or NaN. *)
Definition BigInt_ofNumber (n : option Z) : Completion Z :=
  match n with
  | Some z => Normal z
  | None => Throw (ErrorObject "RangeError" "The number NaN cannot be converted to a BigInt because it is not an integer")
  end.

(** Strings made of decimal digits only. *)
Fixpoint allDigits (s : string) : bool :=
  match s with
  | EmptyString => true
  | String c s' => isDecimalDigit c && allDigits s'
  end.

Fixpoint takeDecimalDigits (s : string) : string :=
  match s with
  | EmptyString => EmptyString
  | String c s' => if isDecimalDigit c then String c (takeDecimalDigits s') else EmptyString
  end.

(** The integer that [parseInt(s, 10)] reads: leading white space is
    skipped, a sign is read, then the longest prefix of decimal digits;
    [None] when that prefix is empty.  This is sign * mathInt of the
    standard, an exact integer. *)
Definition leadingInteger (s : string) : option Z :=
  let t := trimStart s in
  let '(neg, body) :=
    match t with
    | String "-" r => (true, r)
    | String "+" r => (false, r)
    | _ => (false, t)
    end in
  match decimalDigits (takeDecimalDigits body) with
  | Some v => Some (if neg then - v else v)
  | None => None
  end.

(** The Number value of an integer: the nearest double, ties to the even
    significand.  An integer of magnitude up to 2^53 is a double.  Beyond,
    the doubles between 2^e and 2^(e+1) are the multiples of 2^(e-52); a
    result of 2^1024 or more is an infinity. *)
Definition roundToDouble (n : Z) : Number :=
  let a := Z.abs n in
  if a <=? 2 ^ 53 then Num n
  else
    let ulp := 2 ^ (Z.log2 a - 52) in
    let q := a / ulp in
    let r := a mod ulp in
    let q' := if 2 * r <? ulp then q
              else if ulp <? 2 * r then q + 1
              else if Z.even q then q else q + 1 in
    if 2 ^ 1024 <=? q' * ulp then Infinity (n <? 0)
    else Num (Z.sgn n * (q' * ulp)).

(** [v] is the Number value of an integer [n] of magnitude above 2^53:
    the nearest multiple of the spacing of the doubles at [n], the even
    multiple when two are as near, with the sign of [n]; an infinity from
    2^1024 - 2^970 on, half a spacing below 2^1024. *)
Definition NearestDouble (n : Z) (v : Number) : Prop :=
  let a := Z.abs n in
  let ulp := 2 ^ (Z.log2 a - 52) in
  match v with
  | NaN => False
  | Num m =>
      exists q,
        m = Z.sgn n * (q * ulp)
        /\ 2 * Z.abs (q * ulp - a) <= ulp
        /\ (2 * Z.abs (q * ulp - a) = ulp -> Z.even q = true)
        /\ q * ulp < 2 ^ 1024
  | Infinity negative =>
      negative = (n <? 0) /\ 2 ^ 1024 - 2 ^ 970 <= a
  end.

(** [parseInt(s, 10)]: NaN without a leading integer, else the Number
    value of that integer, the digits being read exactly, as V8 does. *)
Definition parseInt10 (s : string) : Number :=
  match leadingInteger s with
  | Some n => roundToDouble n
  | None => NaN
  end.

(** [x || d] on a number: NaN and zero are falsy. *)
Definition numberOr (n d : Number) : Number :=
  match n with
  | NaN => d
  | Num v => if v =? 0 then d else n
  | Infinity _ => n
  end.

(** [a || d] on a [string | null]: [null] and the empty string are falsy. *)
Definition stringOr (a : option string) (d : string) : string :=
  match a with
  | Some s => if truthy s then s else d
  | None => d
  end.

(** Comparison of numbers; every comparison with NaN is false. *)
Definition num_lt (a b : option Z) : bool :=
  match a, b with
  | Some x, Some y => x <? y
  | _, _ => false
  end.

Definition num_le (a b : option Z) : bool :=
  match a, b with
  | Some x, Some y => x <=? y
  | _, _ => false
  end.

Definition num_ge (a b : option Z) : bool := num_le b a.

(** *** Date objects *)

(** A [Date] holds a time value: NaN (an invalid date) or an integral number
    of milliseconds of magnitude at most 8.64e15. *)
Inductive Date : Type :=
| InvalidDate
| TimeValue (t : Z).

Definition maxTimeValue : Z := 8640000000000000.

Definition getTime (d : Date) : option Z :=
  match d with
  | InvalidDate => None
  | TimeValue t => Some t
  end.

Definition TimeClip (t : Z) : Date :=
  if Z.abs t <=? maxTimeValue then TimeValue t else InvalidDate.

(** [new Date(Number(b))] for a bigint [b].  [Number] rounds to the nearest
    double; that is exact below 2^53 > 8.64e15 and keeps every larger
    magnitude above the limit, so the result is [TimeClip b]. *)
Definition Date_ofBigIntNumber (b : Z) : Date := TimeClip b.

Definition isNaN (n : option Z) : bool :=
  match n with
  | Some _ => false
  | None => true
  end.

End Js.

Import Js.

(** ** [DateUtils]: the snowflake codec *)

Module DateUtils.

Section WithHost.

(** [new Date(s).getTime()] of the host for a string [s]: the format accepted
    beyond the ECMAScript date-time format is the engine's own. *)
Variable Date_parse : string -> option Z.

(** [new Date(s)] *)
Definition Date_ofString (s : string) : Date :=
  match Date_parse s with
  | Some t => TimeClip t
  | None => InvalidDate
  end.

Definition DISCORD_EPOCH : Z := 1420070400000.

(** The argument of [dateToDiscordSnowflake]: [Date | string], or [null]. *)
Inductive DateArg : Type :=
| ArgNull
| ArgDate (d : Date)
| ArgString (s : string).

Definition argTruthy (a : DateArg) : bool :=
  match a with
  | ArgNull => false
  | ArgDate _ => true
  | ArgString s => truthy s
  end.

Definition snowflakeToDate (snowflake : string) : Completion (option Date) :=
  if negb (truthy snowflake) then Normal None
  else
    try_catch
      (b <- BigInt_ofString snowflake ;;
       let timestamp := Z.shiftr b 22 + DISCORD_EPOCH in
       let date := Date_ofBigIntNumber timestamp in
       if isNaN (getTime date)
       then Throw (ErrorObject "Error" "Invalid date from snowflake")
       else Normal (Some date))
      (fun _ => Normal None).

Definition dateToDiscordSnowflake (date : DateArg) : Completion (option string) :=
  if negb (argTruthy date) then Normal None
  else
    try_catch
      (timestamp <- BigInt_ofNumber
                      (match date with
                       | ArgDate d => getTime d
                       | ArgString s => getTime (Date_ofString s)
                       | ArgNull => None
                       end) ;;
       let snowflake := toStringZ (Z.shiftl (timestamp - DISCORD_EPOCH) 22) in
       verificationDate <- snowflakeToDate snowflake ;;
       match verificationDate with
       | None => Throw (ErrorObject "Error" "Verification failed for snowflake")
       | Some _ => Normal (Some snowflake)
       end)
      (fun _ => Normal None).

End WithHost.

End DateUtils.

(** ** [Discord]: the page fetcher, the window walk, the prompt formatter *)

Module Discord.

Record Author : Type := { username : string }.

(** A message of the API.  [author] and [content] may be missing in a value
    handed to [formatMessagesForPrompt] ([null] or absent). *)
Record Message : Type := {
  id : string;
  author : option Author;
  content : option string;
  timestamp : string
}.

(** The object built by [new Discord(apiBase, rateLimitDelay)]. *)
Record Client : Type := {
  apiBase : string;
  rateLimitDelay : Z
}.

(** *** The prompt formatter *)

Definition newline : string := String (ascii_of_nat 10) EmptyString.

(** The predicate of the [filter]: [msg && msg.author && msg.content].  A
    message of the array is an object, hence truthy. *)
Definition keepForPrompt (msg : Message) : bool :=
  match author msg, content msg with
  | Some _, Some c => truthy c
  | _, _ => false
  end.

(** The function of the [map], applied to messages that passed the filter. *)
Definition promptLine (msg : Message) : string :=
  match author msg, content msg with
  | Some a, Some c => username a ++ ": " ++ trim c
  | _, _ => EmptyString
  end.

Definition formatMessagesForPrompt (messages : list Message) : string :=
  String.concat newline (map promptLine (filter keepForPrompt messages)).

(** *** HTTP responses *)

(** What the code reads of a [Response]: the status, the [Retry-After]
    header and the outcome of [response.json()]. *)
Record Response (A : Type) : Type := {
  status : Z;
  retryAfterHeader : option string;
  json : Completion A
}.

Arguments status {A} r.
Arguments retryAfterHeader {A} r.
Arguments json {A} r.

(** [response.ok]: the status is in the range 200-299. *)
Definition ok {A} (response : Response A) : bool :=
  (200 <=? status response) && (status response <=? 299).

Definition handleResponse {A} (response : Response A) : Completion A :=
  if ok response then json response
  else
    let errorMessage := "HTTP error! status: " ++ toStringZ (status response) in
    if status response =? 401 then
      Throw (ErrorObject "Error" "Invalid Discord token. Please check your credentials.")
    else if status response =? 403 then
      Throw (ErrorObject "Error" "Access denied. Please ensure you have permission to view this channel.")
    else if status response =? 429 then
      let retryAfter := stringOr (retryAfterHeader response) "5" in
      Throw (RateLimitObject 429 (numberOr (parseInt10 retryAfter) (Num 5))
                             "Rate limited by Discord API")
    else if status response =? 404 then
      Throw (ErrorObject "Error" "Channel not found. Please check the channel ID.")
    else
      Throw (ErrorObject "Error" errorMessage).

(** *** The environment: the network and the timer *)

(** The outcome of one [fetch]: the promise rejects (a TypeError of the
    network layer) or resolves to a response. *)
Inductive Reply : Type :=
| NetworkError (message : string)
| Replied (response : Response (list Message)).

(** The remote side: the reply to the n-th request of a run (counting from
    0), given its URL and its [Authorization] header. *)
Definition Server : Type := nat -> string -> string -> Reply.

(** What a run does to the outside, in order. *)
Inductive Event : Type :=
| EvFetch (url authorization : string)
| EvDelay (ms : Z).

Definition Trace : Type := list Event.

Definition isFetch (e : Event) : bool :=
  match e with
  | EvFetch _ _ => true
  | EvDelay _ => false
  end.

Definition fetchCount (tr : Trace) : nat := List.length (filter isFetch tr).

(** An asynchronous computation, run to its end: from the trace so far to a
    completion and the extended trace.  [None] means that the loop of the
    model was given too little fuel. *)
Definition IO (A : Type) : Type := Trace -> option (Completion A * Trace).

Definition ret {A} (a : A) : IO A := fun tr => Some (Normal a, tr).

Definition throw {A} (e : Thrown) : IO A := fun tr => Some (Throw e, tr).

Definition lift {A} (c : Completion A) : IO A := fun tr => Some (c, tr).

Definition io_bind {A B} (m : IO A) (k : A -> IO B) : IO B :=
  fun tr =>
    match m tr with
    | Some (Normal a, tr') => k a tr'
    | Some (Throw e, tr') => Some (Throw e, tr')
    | None => None
    end.

Definition io_try_catch {A} (body : IO A) (handler : Thrown -> IO A) : IO A :=
  fun tr =>
    match body tr with
    | Some (Normal a, tr') => Some (Normal a, tr')
    | Some (Throw e, tr') => handler e tr'
    | None => None
    end.

Notation "x <~ m ;; k" := (io_bind m (fun x => k))
  (at level 61, m at next level, right associativity).

(** [await fetch(url, { headers: { Authorization: userToken, ... } })] *)
Definition fetch (server : Server) (url userToken : string)
  : IO (Response (list Message)) :=
  fun tr =>
    let tr' := (tr ++ [EvFetch url userToken])%list in
    match server (fetchCount tr) url userToken with
    | NetworkError m => Some (Throw (ErrorObject "TypeError" m), tr')
    | Replied r => Some (Normal r, tr')
    end.

(** [await this.delay(ms)] *)
Definition delay (ms : Z) : IO unit :=
  fun tr => Some (Normal tt, (tr ++ [EvDelay ms])%list).

(** The URL of a page request. *)
Definition pageUrl (c : Client) (channelId : string) (before after : option string)
  : string :=
  let url := apiBase c ++ "/channels/" ++ channelId ++ "/messages?limit=100" in
  let url := match before with
             | Some b => if truthy b then url ++ "&before=" ++ b else url
             | None => url
             end in
  match after with
  | Some a => if truthy a then url ++ "&after=" ++ a else url
  | None => url
  end.

(** The [catch] of [fetchMessagesPage] logs and rethrows. *)
Definition fetchMessagesPage (c : Client) (server : Server)
    (channelId userToken : string) (before after : option string)
  : IO (list Message) :=
  io_try_catch
    (response <~ fetch server (pageUrl c channelId before after) userToken ;;
     lift (handleResponse response))
    (fun error => throw error).

(** *** The accumulator: a [Map<string, Message>] *)

(** Entries in insertion order; [set] on a present key replaces the value in
    place, on an absent key appends. *)
Definition MessageMap : Type := list (string * Message).

Fixpoint Map_set (k : string) (v : Message) (m : MessageMap) : MessageMap :=
  match m with
  | [] => [(k, v)]
  | (k', v') :: r =>
      if String.eqb k' k then (k', v) :: r else (k', v') :: Map_set k v r
  end.

Fixpoint Map_get (k : string) (m : MessageMap) : option Message :=
  match m with
  | [] => None
  | (k', v') :: r => if String.eqb k' k then Some v' else Map_get k r
  end.

(** [Array.from(m.values())] *)
Definition Map_values (m : MessageMap) : list Message := map snd m.

(** *** [Array.prototype.sort] *)

(** The sort is stable.  On elements that the comparator orders
    consistently the result is the one stable sorted arrangement, which
    insertion from the right computes; a NaN from the comparator counts
    as 0. *)
Fixpoint insertSorted {A} (cmp : A -> A -> option Z) (x : A) (l : list A) : list A :=
  match l with
  | [] => [x]
  | y :: r =>
      if (match cmp x y with Some v => v | None => 0 end) <=? 0
      then x :: l
      else y :: insertSorted cmp x r
  end.

Definition Array_sort {A} (cmp : A -> A -> option Z) (l : list A) : list A :=
  fold_right (insertSorted cmp) [] l.

Section WithHost.

Variable Date_parse : string -> option Z.

(** [new Date(msg.timestamp).getTime()] *)
Definition msgTimeOf (msg : Message) : option Z :=
  getTime (DateUtils.Date_ofString Date_parse (timestamp msg)).

(** The comparator of the final sort: a difference of times, NaN when one
    of them is.  The sort looks only at the sign of the difference, which
    the rounding of a large difference to a double keeps. *)
Definition compareByTimestamp (a b : Message) : option Z :=
  match msgTimeOf a, msgTimeOf b with
  | Some x, Some y => Some (x - y)
  | _, _ => None
  end.

(** *** The window walk *)

(** The variables of the [while] loop. *)
Record WalkState : Type := {
  allMessages : MessageMap;
  currentBefore : option string;
  pageCount : Z;
  hasMore : bool;
  hitOldMessage : bool
}.

(** The [for (const msg of messages)] loop with its [break]: the map and the
    flag [hitOldMessage] after it. *)
Fixpoint scanPage (fromDate effectiveToDate : Date) (messages : list Message)
    (all : MessageMap) (hit : bool) : MessageMap * bool :=
  match messages with
  | [] => (all, hit)
  | msg :: rest =>
      let msgTime := msgTimeOf msg in
      if num_lt msgTime (getTime fromDate) then (all, true)
      else if num_ge msgTime (getTime fromDate)
              && num_le msgTime (getTime effectiveToDate)
      then scanPage fromDate effectiveToDate rest (Map_set (id msg) msg all) hit
      else scanPage fromDate effectiveToDate rest all hit
  end.

(** [messages[messages.length - 1].id] of a non-empty page. *)
Definition lastId (messages : list Message) : option string :=
  match rev messages with
  | [] => None
  | m :: _ => Some (id m)
  end.

Section Walk.

Variable c : Client.
Variable server : Server.
Variables channelId userToken : string.
Variables fromDate effectiveToDate : Date.
Variable maxPages : Z.

Definition walkCond (st : WalkState) : bool :=
  hasMore st && (pageCount st <? maxPages) && negb (hitOldMessage st).

(** The rest of an iteration once the page has arrived: the test for an
    empty page, the scan, and the choice between going on and stopping. *)
Definition afterPage (st : WalkState) (messages : list Message) : WalkState :=
  if (List.length messages =? 0)%nat then
    {| allMessages := allMessages st;
       currentBefore := currentBefore st;
       pageCount := pageCount st;
       hasMore := false;
       hitOldMessage := hitOldMessage st |}
  else
    let '(all, hit) :=
      scanPage fromDate effectiveToDate messages (allMessages st) (hitOldMessage st) in
    if negb hit && (List.length messages =? 100)%nat then
      {| allMessages := all;
         currentBefore := lastId messages;
         pageCount := pageCount st + 1;
         hasMore := hasMore st;
         hitOldMessage := hit |}
    else
      {| allMessages := all;
         currentBefore := currentBefore st;
         pageCount := pageCount st;
         hasMore := false;
         hitOldMessage := hit |}.

(** One iteration of the [while] loop. *)
Definition walkBody (st : WalkState) : IO WalkState :=
  _ <~ (if 0 <? pageCount st then delay (rateLimitDelay c) else ret tt) ;;
  messages <~ fetchMessagesPage c server channelId userToken (currentBefore st) None ;;
  ret (afterPage st messages).

(** The [while] loop; the fuel bounds the number of iterations. *)
Fixpoint walk (fuel : nat) (st : WalkState) : IO WalkState :=
  if walkCond st then
    match fuel with
    | O => fun _ => None
    | S fuel' => st' <~ walkBody st ;; walk fuel' st'
    end
  else ret st.

End Walk.

(** [toDate || new Date()], with [now] the reading of the clock. *)
Definition effectiveTo (toDate : option Date) (now : Z) : Date :=
  match toDate with
  | Some d => d
  | None => TimeClip now
  end.

(** [error.message] *)
Definition messageOf (error : Thrown) : string :=
  match error with
  | ErrorObject _ message => message
  | RateLimitObject _ _ message => message
  end.

(** The error built in the [catch] of [getAllMessagesBetweenDates]. *)
Definition wrapFetchError (error : Thrown) : Thrown :=
  ErrorObject "Error"
    ("Failed to fetch messages: " ++
     (if instanceofError error then messageOf error else "Unknown error")).

(** The loop variables as declared before the [while]. *)
Definition initialState (beforeSnowflake : option string) : WalkState :=
  {| allMessages := [];
     currentBefore := beforeSnowflake;
     pageCount := 0;
     hasMore := true;
     hitOldMessage := false |}.

(** The walk of [getAllMessagesBetweenDates] with an explicit fuel. *)
Definition getAllMessagesBetweenDatesFuel (fuel : nat) (c : Client) (server : Server)
    (channelId userToken : string) (fromDate : Date) (toDate : option Date)
    (now : Z) (maxPages : Z) : IO (list Message) :=
  io_try_catch
    (let effectiveToDate := effectiveTo toDate now in
     beforeSnowflake <~
       lift (DateUtils.dateToDiscordSnowflake Date_parse
               (DateUtils.ArgDate effectiveToDate)) ;;
     st <~ walk c server channelId userToken fromDate effectiveToDate maxPages fuel
             (initialState beforeSnowflake) ;;
     ret (Array_sort compareByTimestamp (Map_values (allMessages st))))
    (fun error => throw (wrapFetchError error)).

(** [getAllMessagesBetweenDates].  [maxPages] is a count of pages, an
    integer.  Each iteration that does not end the loop adds one to
    [pageCount], so [maxPages] iterations of fuel are enough
    ([WalkFacts.walk_total], [RunFacts.run_fuel_irrelevant]). *)
Definition getAllMessagesBetweenDates (c : Client) (server : Server)
    (channelId userToken : string) (fromDate : Date) (toDate : option Date)
    (now : Z) (maxPages : Z) : IO (list Message) :=
  getAllMessagesBetweenDatesFuel (Z.to_nat maxPages) c server channelId userToken
    fromDate toDate now maxPages.

(** *** Observations on a run, in which its properties are stated *)

(** The requests of a trace, in order: URL and [Authorization] header. *)
Fixpoint fetches (tr : Trace) : list (string * string) :=
  match tr with
  | [] => []
  | EvFetch u t :: r => (u, t) :: fetches r
  | EvDelay _ :: r => fetches r
  end.

(** The page that a reply delivers to the loop, when it delivers one: the
    response is [ok] and its body parses. *)
Definition pageOf (r : Reply) : option (list Message) :=
  match r with
  | Replied resp =>
      if ok resp
      then match json resp with
           | Normal p => Some p
           | Throw _ => None
           end
      else None
  | NetworkError _ => None
  end.

(** The page delivered to the k-th request of a trace. *)
Definition pageAt (server : Server) (tr : Trace) (k : nat) : option (list Message) :=
  match nth_error (fetches tr) k with
  | Some (u, t) => pageOf (server k u t)
  | None => None
  end.

(** [msgTime < fromDate.getTime()] *)
Definition isOld (fromDate : Date) (msg : Message) : bool :=
  num_lt (msgTimeOf msg) (getTime fromDate).

(** [msgTime >= fromDate.getTime() && msgTime <= effectiveToDate.getTime()] *)
Definition inWindow (fromDate effectiveToDate : Date) (msg : Message) : bool :=
  num_ge (msgTimeOf msg) (getTime fromDate)
  && num_le (msgTimeOf msg) (getTime effectiveToDate).

(** The messages of a page that the scan hands to [allMessages.set], in
    order: those in the window that come before the first old message. *)
Fixpoint pageWrites (fromDate effectiveToDate : Date) (messages : list Message)
  : list Message :=
  match messages with
  | [] => []
  | msg :: rest =>
      if isOld fromDate msg then []
      else if inWindow fromDate effectiveToDate msg
      then msg :: pageWrites fromDate effectiveToDate rest
      else pageWrites fromDate effectiveToDate rest
  end.

(** The pages delivered to the requests [reqs], the first of which is the
    k-th of the run; a request that delivers no page counts as empty. *)
Fixpoint pagesFrom (server : Server) (k : nat) (reqs : list (string * string))
  : list (list Message) :=
  match reqs with
  | [] => []
  | (u, t) :: r =>
      match pageOf (server k u t) with
      | Some p => p
      | None => []
      end :: pagesFrom server (S k) r
  end.

(** Every message written to the accumulator during a run, in order. *)
Definition runWrites (server : Server) (fromDate effectiveToDate : Date) (tr : Trace)
  : list Message :=
  List.concat (map (pageWrites fromDate effectiveToDate)
              (pagesFrom server 0 (fetches tr))).

(** The accumulator after a sequence of writes. *)
Definition writeAll (ws : list Message) (m : MessageMap) : MessageMap :=
  fold_left (fun acc msg => Map_set (id msg) msg acc) ws m.

(** The last message of a sequence that has a given id. *)
Definition lastWithId (i : string) (ws : list Message) : option Message :=
  find (fun m => String.eqb (id m) i) (rev ws).

(** What [await this.fetchMessagesPage(...)] makes of a reply. *)
Definition pageOutcome (r : Reply) : Completion (list Message) :=
  match r with
  | NetworkError m => Throw (ErrorObject "TypeError" m)
  | Replied resp => handleResponse resp
  end.

(** A page that holds a message older than [fromDate] is the last one
    requested. *)
Definition OldPageIsLast (server : Server) (fromDate : Date) (tr : Trace) : Prop :=
  forall k p,
    pageAt server tr k = Some p ->
    existsb (isOld fromDate) p = true ->
    S k = List.length (fetches tr).

(** The invariant of the [while] loop, on its variables and the trace. *)
Definition WalkInv (server : Server) (fromDate effectiveToDate : Date) (maxPages : Z)
    (st : WalkState) (tr : Trace) : Prop :=
  allMessages st = writeAll (runWrites server fromDate effectiveToDate tr) []
  /\ (hitOldMessage st = false ->
      forall k p, pageAt server tr k = Some p -> existsb (isOld fromDate) p = false)
  /\ OldPageIsLast server fromDate tr
  /\ (forall k, (k < List.length (fetches tr))%nat -> pageAt server tr k <> None)
  /\ 0 <= pageCount st
  /\ (fetchCount tr <= Z.to_nat maxPages)%nat
  /\ (hasMore st = true -> fetchCount tr = Z.to_nat (pageCount st)).

(** What holds of the trace when an iteration throws. *)
Definition WalkFail (server : Server) (fromDate : Date) (maxPages : Z)
    (tr : Trace) : Prop :=
  OldPageIsLast server fromDate tr
  /\ (fetchCount tr <= Z.to_nat maxPages)%nat
  /\ exists k, (k < List.length (fetches tr))%nat /\ pageAt server tr k = None.

(** The trace once the pause before a request is over. *)
Definition paused (c : Client) (st : WalkState) (tr : Trace) : Trace :=
  if 0 <? pageCount st then (tr ++ [EvDelay (rateLimitDelay c)])%list else tr.

(** The request of an iteration and the reply to it. *)
Definition requestOf (c : Client) (channelId userToken : string) (st : WalkState)
  : Event :=
  EvFetch (pageUrl c channelId (currentBefore st) None) userToken.

Definition replyTo (c : Client) (server : Server) (channelId userToken : string)
    (st : WalkState) (tr : Trace) : Reply :=
  server (fetchCount tr) (pageUrl c channelId (currentBefore st) None) userToken.

(** Every entry of the accumulator is filed under the id of its message. *)
Definition KeyedById (m : MessageMap) : Prop :=
  forall k v, In (k, v) m -> k = id v.

(** The time of a message is a number, not NaN. *)
Definition HasTime (msg : Message) : Prop := exists t, msgTimeOf msg = Some t.

(** The time of a message is known and lies in the closed window. *)
Definition InWindow (fromDate effectiveToDate : Date) (msg : Message) : Prop :=
  exists t f e,
    msgTimeOf msg = Some t /\ getTime fromDate = Some f
    /\ getTime effectiveToDate = Some e /\ f <= t <= e.

(** Non-decreasing times, all of them known. *)
Definition timeLe (a b : Message) : Prop :=
  exists x y, msgTimeOf a = Some x /\ msgTimeOf b = Some y /\ x <= y.

End WithHost.

End Discord.

(** ** A host for the examples *)

Module Samples.

(** One admissible [Date_parse]: the ECMAScript date-time string format with
    the UTC designator, [YYYY-MM-DDTHH:mm:ss.sssZ]; every other string is an
    invalid date. *)
Definition digitsAt (s : string) (pos len : nat) : option Z :=
  let d := substring pos len s in
  if Nat.eqb (String.length d) len then decimalDigits d else None.

Definition charAt (s : string) (n : nat) (c : ascii) : bool :=
  match String.get n s with
  | Some x => Ascii.eqb x c
  | None => false
  end.

Definition isLeapYear (y : Z) : bool :=
  ((y mod 4 =? 0) && negb (y mod 100 =? 0)) || (y mod 400 =? 0).

Definition daysInMonth (y m : Z) : Z :=
  if m =? 2 then (if isLeapYear y then 29 else 28)
  else if (m =? 4) || (m =? 6) || (m =? 9) || (m =? 11) then 30
  else 31.

(** Days from 1970-01-01 to a date of the proleptic Gregorian calendar. *)
Definition daysFromCivil (y m d : Z) : Z :=
  let y' := if m <=? 2 then y - 1 else y in
  let mp := (m + 9) mod 12 in
  365 * y' + y' / 4 - y' / 100 + y' / 400 + (153 * mp + 2) / 5 + (d - 1) - 719468.

Definition Date_parse_iso (s : string) : option Z :=
  if Nat.eqb (String.length s) 24
     && charAt s 4 "-" && charAt s 7 "-" && charAt s 10 "T"
     && charAt s 13 ":" && charAt s 16 ":" && charAt s 19 "." && charAt s 23 "Z"
  then
    match digitsAt s 0 4, digitsAt s 5 2, digitsAt s 8 2,
          digitsAt s 11 2, digitsAt s 14 2, digitsAt s 17 2, digitsAt s 20 3 with
    | Some y, Some mo, Some d, Some h, Some mi, Some sec, Some ms =>
        if (1 <=? mo) && (mo <=? 12) && (1 <=? d) && (d <=? daysInMonth y mo)
           && (h <=? 23) && (mi <=? 59) && (sec <=? 59)
        then Some ((((daysFromCivil y mo d * 24 + h) * 60 + mi) * 60 + sec) * 1000 + ms)
        else None
    | _, _, _, _, _, _, _ => None
    end
  else None.

(** *** A sample channel *)

Definition client : Discord.Client :=
  {| Discord.apiBase := "https://discord.com/api/v9"; Discord.rateLimitDelay := 500 |}.

Definition pad2 (n : Z) : string :=
  if n <? 10 then "0" ++ toStringZ n else toStringZ n.

(** The time of the i-th newest message: one message a minute, the newest
    at 11:59 on 2024-03-10 (UTC). *)
Definition sampleTime (i : nat) : Z := 1710071940000 - 60000 * Z.of_nat i.

(** The i-th newest message, for i up to 719; its id is the snowflake of
    its time. *)
Definition sampleMessage (i : nat) : Discord.Message :=
  let minute := 719 - Z.of_nat i in
  {| Discord.id := toStringZ (Z.shiftl (sampleTime i - DateUtils.DISCORD_EPOCH) 22);
     Discord.author := Some {| Discord.username := "user" ++ toStringZ (Z.of_nat i mod 3) |};
     Discord.content := Some ("message " ++ toStringZ (Z.of_nat i));
     Discord.timestamp :=
       "2024-03-10T" ++ pad2 (minute / 60) ++ ":" ++ pad2 (minute mod 60) ++ ":00.000Z" |}.

Definition okPage (p : list Discord.Message) : Discord.Reply :=
  Discord.Replied {| Discord.status := 200;
                     Discord.retryAfterHeader := None;
                     Discord.json := Normal p |}.

(** A server that pages through the channel, 100 messages a page. *)
Definition pagingServer : Discord.Server :=
  fun n _ _ => okPage (map sampleMessage (seq (100 * n) 100)).

(** A server whose consecutive pages share their boundary message. *)
Definition overlappingServer : Discord.Server :=
  fun n _ _ => okPage (map sampleMessage (seq (99 * n) 100)).

(** A server that replies with the same three messages, newest first. *)
Definition shortServer : Discord.Server :=
  fun _ _ _ => okPage [sampleMessage 0; sampleMessage 1; sampleMessage 2].

(** The same three messages in another order, the middle one twice. *)
Definition shuffledServer : Discord.Server :=
  fun _ _ _ => okPage [sampleMessage 1; sampleMessage 2; sampleMessage 1; sampleMessage 0].

(** A server that rejects every request with a given status. *)
Definition failingServer (status : Z) (retryAfter : option string) : Discord.Server :=
  fun _ _ _ =>
    Discord.Replied {| Discord.status := status;
                       Discord.retryAfterHeader := retryAfter;
                       Discord.json := Normal [] |}.

(** The two messages of the formatting example. *)
Definition promptSample : list Discord.Message :=
  [ {| Discord.id := "1"; Discord.author := Some {| Discord.username := "a" |};
       Discord.content := Some " hi "; Discord.timestamp := "2024-03-10T11:59:00.000Z" |};
    {| Discord.id := "2"; Discord.author := None;
       Discord.content := Some "x"; Discord.timestamp := "2024-03-10T11:58:00.000Z" |} ].

(** A rate-limited response with a given [Retry-After] header. *)
Definition rateLimited (retryAfter : option string) : Discord.Response (list Discord.Message) :=
  {| Discord.status := 429;
     Discord.retryAfterHeader := retryAfter;
     Discord.json := Normal [] |}.

(** A [Date] from its ISO string. *)
Definition dateOf (s : string) : Date := DateUtils.Date_ofString Date_parse_iso s.

End Samples.

(** ** [DateUtils]: the checks on dates *)

Module DateUtilsMore.

Section WithHost.

Variable Date_parse : string -> option Z.

(** [localStringToUTC]: the string is handed to [new Date]; nothing is
    converted. *)
Definition localStringToUTC (dateString : string) : Completion (option Date) :=
  if negb (truthy dateString) then Normal None
  else
    try_catch
      (let localDate := DateUtils.Date_ofString Date_parse dateString in
       if isNaN (getTime localDate)
       then Throw (ErrorObject "Error" "Invalid date string")
       else Normal (Some localDate))
      (fun _ => Normal None).

(** [new Date(null)] is the date of time value 0. *)
Definition Date_ofArg (date : DateUtils.DateArg) : Date :=
  match date with
  | DateUtils.ArgDate d => d
  | DateUtils.ArgString s => DateUtils.Date_ofString Date_parse s
  | DateUtils.ArgNull => TimeClip 0
  end.

(** [isValidDate]: nothing in its [try] throws, so its [catch] is never
    entered. *)
Definition isValidDate (date : DateUtils.DateArg) : bool :=
  let dateObj := Date_ofArg date in
  negb (isNaN (getTime dateObj)).

End WithHost.

(** A [Date] object holds NaN or a time value within the limit. *)
Definition validDateObject (d : Date) : Prop :=
  match d with
  | InvalidDate => True
  | TimeValue t => - maxTimeValue <= t <= maxTimeValue
  end.

End DateUtilsMore.

(** ** [Discord]: the prompt and the lookups of guilds and channels *)

Module DiscordMore.

Import Discord.

(** The template literal of [createPrompt], line by line. *)
Definition createPrompt (messageText : string) : string :=
  "Please summarize the following Discord chat messages in a blog post style with paragraphs and bullet points where appropriate. "
  ++ newline
  ++ "        Focus on the key discussions, decisions, and new information shared.  "
  ++ newline
  ++ "        Include a list of any stocks mentioned with a sentence for each describing its importance and the directional sentiment."
  ++ newline
  ++ "        This is very important: Ensure that any time a PRICE or LEVEL is mentioned, you include the corresponding stock, ETF, or index."
  ++ newline
  ++ "        Organize the content logically and highlight important points:"
  ++ newline ++ newline ++ messageText.

(** The outcome of a [fetch] whose body is of any type. *)
Inductive ReplyOf (A : Type) : Type :=
| NetworkErrorOf (message : string)
| RepliedOf (response : Response A).

Arguments NetworkErrorOf {A} message.
Arguments RepliedOf {A} response.

Definition ServerOf (A : Type) : Type := nat -> string -> string -> ReplyOf A.

Definition fetchOf {A} (server : ServerOf A) (url userToken : string)
  : IO (Response A) :=
  fun tr =>
    let tr' := (tr ++ [EvFetch url userToken])%list in
    match server (fetchCount tr) url userToken with
    | NetworkErrorOf m => Some (Throw (ErrorObject "TypeError" m), tr')
    | RepliedOf r => Some (Normal r, tr')
    end.

(** The body that a reply delivers, when the response is [ok] and its body
    parses. *)
Definition bodyOf {A} (r : ReplyOf A) : option A :=
  match r with
  | RepliedOf resp =>
      if ok resp
      then match json resp with
           | Normal b => Some b
           | Throw _ => None
           end
      else None
  | NetworkErrorOf _ => None
  end.

(** The error built in the [catch] of the guild lookups. *)
Definition wrapLookupError (what : string) (error : Thrown) : Thrown :=
  ErrorObject "Error"
    (what ++ (if instanceofError error then messageOf error else "Unknown error")).

(** [fetchGuildChannels].  The [try] awaits the [fetch] only: the promise of
    [handleResponse] is returned as it is and settles the call after the
    [try] is left, so its rejection does not pass through the [catch]. *)
Definition fetchGuildChannels {A} (c : Client) (server : ServerOf A)
    (guildId userToken : string) : IO A :=
  promise <~
    io_try_catch
      (response <~ fetchOf server (apiBase c ++ "/guilds/" ++ guildId ++ "/channels")
                           userToken ;;
       ret (handleResponse response))
      (fun error => throw (wrapLookupError "Failed to fetch guild channels: " error)) ;;
  lift promise.

(** [fetchUserGuilds], of the same shape. *)
Definition fetchUserGuilds {A} (c : Client) (server : ServerOf A)
    (userToken : string) : IO A :=
  promise <~
    io_try_catch
      (response <~ fetchOf server (apiBase c ++ "/users/@me/guilds") userToken ;;
       ret (handleResponse response))
      (fun error => throw (wrapLookupError "Failed to fetch user guilds: " error)) ;;
  lift promise.

(** What [fetchChannelInfo] reads of the body of a channel or of a guild;
    [None] is an absent property. *)
Record InfoBody : Type := {
  name : option string;
  guild_id : option string
}.

(** The result of [fetchChannelInfo]; [None] is [undefined], the value of
    an absent [name]. *)
Record ChannelInfo : Type := {
  channelName : option string;
  serverName : option string
}.

Definition unknownChannel : ChannelInfo :=
  {| channelName := Some "Unknown Channel"; serverName := Some "Unknown Server" |}.

(** [fetchChannelInfo]: both responses are awaited inside the [try]. *)
Definition fetchChannelInfo (c : Client) (server : ServerOf InfoBody)
    (channelId userToken : string) : IO ChannelInfo :=
  io_try_catch
    (channelResponse <~ fetchOf server (apiBase c ++ "/channels/" ++ channelId)
                                userToken ;;
     channelInfo <~ lift (handleResponse channelResponse) ;;
     match guild_id channelInfo with
     | Some g =>
         if truthy g then
           _ <~ delay (rateLimitDelay c) ;;
           guildResponse <~ fetchOf server (apiBase c ++ "/guilds/" ++ g) userToken ;;
           guildInfo <~ lift (handleResponse guildResponse) ;;
           ret {| channelName := name channelInfo; serverName := name guildInfo |}
         else
           ret {| channelName := Some (stringOr (name channelInfo) "Direct Message");
                  serverName := Some "Private" |}
     | None =>
         ret {| channelName := Some (stringOr (name channelInfo) "Direct Message");
                serverName := Some "Private" |}
     end)
    (fun _ => ret unknownChannel).

(** The first reply to [fetchChannelInfo] and, when the channel belongs to
    a guild, the second. *)
Definition channelReply (c : Client) (server : ServerOf InfoBody)
    (channelId userToken : string) : ReplyOf InfoBody :=
  server 0%nat (apiBase c ++ "/channels/" ++ channelId)%string userToken.

Definition guildReply (c : Client) (server : ServerOf InfoBody)
    (g userToken : string) : ReplyOf InfoBody :=
  server 1%nat (apiBase c ++ "/guilds/" ++ g)%string userToken.

End DiscordMore.

(** ** More sample data *)

Module MoreSamples.

Import Discord DiscordMore.

Definition infoReply (status : Z) (b : InfoBody) : ReplyOf InfoBody :=
  RepliedOf {| Discord.status := status; retryAfterHeader := None; json := Normal b |}.

(** A server that knows the channel 42 of the guild 7, and nothing of the
    guild itself. *)
Definition channelOnlyServer : ServerOf InfoBody :=
  fun n _ _ =>
    match n with
    | O => infoReply 200 {| name := Some "general"; guild_id := Some "7" |}
    | S _ => infoReply 403 {| name := None; guild_id := None |}
    end.

(** A server that knows both. *)
Definition guildServer : ServerOf InfoBody :=
  fun n _ _ =>
    match n with
    | O => infoReply 200 {| name := Some "general"; guild_id := Some "7" |}
    | S _ => infoReply 200 {| name := Some "Traders"; guild_id := None |}
    end.

(** A server that rate-limits every request of a list of guilds. *)
Definition busyServer : ServerOf (list string) :=
  fun _ _ _ =>
    RepliedOf {| Discord.status := 429; retryAfterHeader := Some "3"; json := Normal [] |}.

End MoreSamples.

(** ** The shape of a walk *)

Module WalkShape.

Import Discord.

(** The trace that makes the requests [reqs] with a pause of [d] ms before
    each of them but the first. *)
Definition pacedTrace (d : Z) (reqs : list (string * string)) : Trace :=
  match reqs with
  | [] => []
  | (u, t) :: r =>
      EvFetch u t :: flat_map (fun q => [EvDelay d; EvFetch (fst q) (snd q)]) r
  end.

Section WithHost.

Variable Date_parse : string -> option Z.

(** The first request carries the initial cursor; every later one carries
    the id of the last message of the page before it, a page of 100
    messages none of which is old.  All carry the token. *)
Definition CursorChain (c : Client) (server : Server) (channelId userToken : string)
    (fromDate : Date) (sf : option string) (tr : Trace) : Prop :=
  (forall u t, nth_error (fetches tr) 0 = Some (u, t) ->
     u = pageUrl c channelId sf None /\ t = userToken)
  /\ (forall k u t, nth_error (fetches tr) (S k) = Some (u, t) ->
        exists p,
          pageAt server tr k = Some p
          /\ List.length p = 100%nat
          /\ existsb (isOld Date_parse fromDate) p = false
          /\ u = pageUrl c channelId (lastId p) None /\ t = userToken).

(** While the loop may go on, [currentBefore] is the cursor of the next
    request. *)
Definition NextCursor (server : Server) (fromDate : Date) (sf : option string)
    (st : WalkState) (tr : Trace) : Prop :=
  hasMore st = true ->
  match List.length (fetches tr) with
  | O => currentBefore st = sf
  | S n =>
      exists p,
        pageAt server tr n = Some p
        /\ List.length p = 100%nat
        /\ existsb (isOld Date_parse fromDate) p = false
        /\ currentBefore st = lastId p
  end.

(** Once [hasMore] is false the last page was not full or held an old
    message. *)
Definition StoppedAt (server : Server) (fromDate : Date)
    (st : WalkState) (tr : Trace) : Prop :=
  hasMore st = false ->
  exists n p,
    List.length (fetches tr) = S n
    /\ pageAt server tr n = Some p
    /\ (List.length p <> 100%nat \/ existsb (isOld Date_parse fromDate) p = true).

(** The invariant of the loop, with the shape of the trace. *)
Definition WalkShapeInv (c : Client) (server : Server) (channelId userToken : string)
    (fromDate effectiveToDate : Date) (maxPages : Z) (sf : option string)
    (st : WalkState) (tr : Trace) : Prop :=
  WalkInv Date_parse server fromDate effectiveToDate maxPages st tr
  /\ tr = pacedTrace (rateLimitDelay c) (fetches tr)
  /\ CursorChain c server channelId userToken fromDate sf tr
  /\ NextCursor server fromDate sf st tr
  /\ StoppedAt server fromDate st tr
  /\ (hitOldMessage st = true -> hasMore st = false).

(** The last request failed with [e]; the requests before it delivered
    pages. *)
Definition FailedLast (server : Server) (e : Thrown) (tr : Trace) : Prop :=
  exists n u t,
    List.length (fetches tr) = S n
    /\ nth_error (fetches tr) n = Some (u, t)
    /\ pageOutcome (server n u t) = Throw e
    /\ forall k, (k < n)%nat -> pageAt server tr k <> None.

(** What holds of the trace when an iteration throws [e]. *)
Definition WalkShapeFail (c : Client) (server : Server) (channelId userToken : string)
    (fromDate : Date) (maxPages : Z) (sf : option string) (e : Thrown) (tr : Trace)
  : Prop :=
  tr = pacedTrace (rateLimitDelay c) (fetches tr)
  /\ CursorChain c server channelId userToken fromDate sf tr
  /\ FailedLast server e tr
  /\ (fetchCount tr <= Z.to_nat maxPages)%nat.

End WithHost.

End WalkShape.

(** ** The plugin: [settings.ts], [ai/openai.ts] and [main.ts] *)

Module Plugin.

Import Discord DiscordMore.

Record Settings : Type := {
  discordApiBase : string;
  discordRateLimitDelay : Z;
  discordChannelId : string;
  discordServerId : string;
  discordToken : string;
  openAIKey : string;
  openAIEndpoint : string
}.

Definition DEFAULT_SETTINGS : Settings :=
  {| discordApiBase := "https://discord.com/api/v9";
     discordRateLimitDelay := 500;
     discordChannelId := "";
     discordServerId := "";
     discordToken := "";
     openAIKey := "";
     openAIEndpoint := "https://api.openai.com/v1/chat/completions" |}.

(** *** [getCompletion] *)

(** What [getCompletion] hands to the OpenAI client: the key that the
    client is built with, and the model and the messages (role, content) of
    the call of [chat.completions.create]. *)
Record ChatRequest : Type := {
  apiKey : string;
  model : string;
  messages : list (string * string)
}.

(** A choice of the response; an absent [message] and an absent or [null]
    [content] are [None]. *)
Record ChoiceMessage : Type := { choiceContent : option string }.

Record Choice : Type := { message : option ChoiceMessage }.

(** The OpenAI client: the choices of its response, or what it throws. *)
Definition ChatApi : Type := ChatRequest -> Completion (list Choice).

(** [response.choices[0]?.message?.content] *)
Definition firstContent (choices : list Choice) : option string :=
  match choices with
  | [] => None
  | ch :: _ =>
      match message ch with
      | Some msg => choiceContent msg
      | None => None
      end
  end.

Definition chatRequestOf (prompt key model : string) : ChatRequest :=
  {| apiKey := key; model := model; messages := [("user", prompt)] |}.

(** [getCompletion(prompt, key, model)]; its [catch] logs and rethrows. *)
Definition getCompletion (api : ChatApi) (prompt key model : string)
  : Completion (option string) :=
  try_catch
    (choices <- api (chatRequestOf prompt key model) ;;
     Normal (firstContent choices))
    (fun error => Throw error).

(** The default of the parameter [model]. *)
Definition defaultModel : string := "gpt-4o".

(** *** The callback of [getDiscordSummary] *)

(** What the callback does to the outside, in order. *)
Inductive PluginEvent : Type :=
| PNotice (text : string)
| PDiscord (e : Event)
| PCompletion (request : ChatRequest)
| PReplaceSelection (text : string).

Definition isCompletion (e : PluginEvent) : bool :=
  match e with
  | PCompletion _ => true
  | _ => false
  end.

Definition isReplaceSelection (e : PluginEvent) : bool :=
  match e with
  | PReplaceSelection _ => true
  | _ => false
  end.

Definition isDiscordFetch (e : PluginEvent) : bool :=
  match e with
  | PDiscord ev => isFetch ev
  | _ => false
  end.

(** A [string | null | undefined] is truthy when it is a non-empty string. *)
Definition truthyResult (r : option string) : bool :=
  match r with
  | Some s => truthy s
  | None => false
  end.

Section WithHost.

Variable Date_parse : string -> option Z.

(** [d.toLocaleDateString()] of the host. *)
Variable toLocaleDateString : Date -> string.

(** The callback given to the modal, run to its end; the settings do not
    change while it runs.  [maxPages] has its default, 50. *)
Definition onDatesSelected (settings : Settings) (server : Server) (api : ChatApi)
    (now : Z) (startDate endDate : Date)
  : option (Completion unit * list PluginEvent) :=
  let notice :=
    PNotice ("Fetching messages from " ++ toLocaleDateString startDate
             ++ " to " ++ toLocaleDateString endDate) in
  let client := {| apiBase := discordApiBase settings;
                   rateLimitDelay := discordRateLimitDelay settings |} in
  match getAllMessagesBetweenDates Date_parse client server
          (discordChannelId settings) (discordToken settings)
          startDate (Some endDate) now 50 [] with
  | None => None
  | Some (Throw e, tr) => Some (Throw e, notice :: map PDiscord tr)
  | Some (Normal msgs, tr) =>
      let events := notice :: map PDiscord tr in
      if (0 <? List.length msgs)%nat then
        let formattedMessages := formatMessagesForPrompt msgs in
        let prompt := createPrompt formattedMessages in
        let events :=
          (events ++ [PCompletion (chatRequestOf prompt (openAIKey settings) defaultModel)])%list in
        match getCompletion api prompt (openAIKey settings) defaultModel with
        | Throw e => Some (Throw e, events)
        | Normal result =>
            match result with
            | Some text =>
                if truthy text
                then Some (Normal tt, (events ++ [PReplaceSelection text])%list)
                else Some (Normal tt, events)
            | None => Some (Normal tt, events)
            end
        end
      else Some (Normal tt, events)
  end.

(** *** The confirm button of the modal *)

Inductive ConfirmOutcome : Type :=
| ConfirmNotice (text : string)
| ConfirmSelect (start finish : Date).

(** [end.getTime() - start.getTime()], NaN when one of them is. *)
Definition spanMs (start finish : Date) : option Z :=
  match getTime finish, getTime start with
  | Some e, Some s => Some (e - s)
  | _, _ => None
  end.

Definition msPerDay : Z := 1000 * 60 * 60 * 24.

(** The click handler.  [timeSpan] is the span in ms divided by [msPerDay];
    the division is exact enough on integers for [timeSpan < 0] to be
    [span < 0] and [timeSpan > 7] to be [span > 7 * msPerDay]. *)
Definition confirmDates (startDate endDate : string) : ConfirmOutcome :=
  if negb (truthy startDate) || negb (truthy endDate) then
    ConfirmNotice "Please select both a start and an end date."
  else
    let start := DateUtils.Date_ofString Date_parse startDate in
    let finish := DateUtils.Date_ofString Date_parse endDate in
    let span := spanMs start finish in
    if num_lt span (Some 0) then
      ConfirmNotice "End date must be after start date."
    else if num_lt (Some (7 * msPerDay)) span then
      ConfirmNotice "Please select a time span of 7 days or less."
    else ConfirmSelect start finish.

End WithHost.

End Plugin.

(** ** Sample data of the plugin *)

Module PluginSamples.

Import Plugin.

Definition settings : Settings :=
  {| discordApiBase := "https://discord.com/api/v9";
     discordRateLimitDelay := 500;
     discordChannelId := "42";
     discordServerId := "7";
     discordToken := "token";
     openAIKey := "sk-test";
     openAIEndpoint := "https://api.openai.com/v1/chat/completions" |}.

(** An API that answers every prompt with the same text. *)
Definition echoApi : ChatApi :=
  fun _ => Normal [ {| message := Some {| choiceContent := Some "Summary." |} |} ].

(** A date as month/day/year of its time in ms, here only its time. *)
Definition showDate (d : Date) : string :=
  match d with
  | InvalidDate => "Invalid Date"
  | TimeValue t => toStringZ t
  end.

End PluginSamples.

(** * Properties *)

Local Open Scope list_scope.

(** ** The codec *)

Module CodecFacts.

Import DateUtils.

Lemma allDigits_string_of_uint (d : Decimal.uint) :
  allDigits (NilEmpty.string_of_uint d) = true.
Proof. induction d; simpl; auto. Qed.

Lemma digit_not_space (c : ascii) : isDecimalDigit c = true -> isWhiteSpace c = false.
Proof.
  unfold isDecimalDigit, isWhiteSpace. intros H.
  apply andb_true_iff in H as [H1 H2].
  apply Z.leb_le in H1, H2.
  repeat (apply orb_false_iff; split); apply Nat.eqb_neq; lia.
Qed.

Lemma trimStart_digits (s : string) : allDigits s = true -> trimStart s = s.
Proof.
  destruct s as [|c s]; simpl; auto.
  intros H. apply andb_true_iff in H as [H _].
  now rewrite (digit_not_space _ H).
Qed.

Lemma trimEnd_digits (s : string) : allDigits s = true -> trimEnd s = s.
Proof.
  induction s as [|c s IH]; simpl; auto.
  intros H. apply andb_true_iff in H as [Hc Hs].
  rewrite (IH Hs), (digit_not_space _ Hc). reflexivity.
Qed.

Lemma trim_digits (s : string) : allDigits s = true -> trim s = s.
Proof.
  intros H. unfold trim. rewrite (trimStart_digits _ H). now apply trimEnd_digits.
Qed.

Lemma trim_minus_digits (s : string) :
  allDigits s = true -> trim (String "-" s) = String "-" s.
Proof.
  intros H. unfold trim. cbn [trimStart].
  change (isWhiteSpace "-") with false. cbn [trimEnd].
  change (isWhiteSpace "-") with false. cbn [andb].
  now rewrite (trimEnd_digits _ H).
Qed.

Lemma decimalDigits_string_of_uint (d : Decimal.uint) :
  d <> Decimal.Nil ->
  decimalDigits (NilEmpty.string_of_uint d) = Some (Z.of_uint d).
Proof.
  intros Hd. unfold decimalDigits. rewrite NilEmpty.usu.
  destruct d; try reflexivity. now elim Hd.
Qed.

(** Parsing an unsigned decimal numeral as a BigInt gives its value. *)
Lemma StringToBigInt_uint (d : Decimal.uint) :
  d <> Decimal.Nil ->
  StringToBigInt (NilEmpty.string_of_uint d) = Some (Z.of_uint d).
Proof.
  intros Hd. unfold StringToBigInt.
  rewrite (trim_digits _ (allDigits_string_of_uint d)).
  rewrite <- (decimalDigits_string_of_uint d Hd).
  destruct d as [|d|d|d|d|d|d|d|d|d|d]; try reflexivity.
  - now elim Hd.
  - destruct d; reflexivity.
Qed.

Lemma StringToBigInt_neg_uint (d : Decimal.uint) :
  d <> Decimal.Nil ->
  StringToBigInt (String "-" (NilEmpty.string_of_uint d)) = Some (- Z.of_uint d).
Proof.
  intros Hd. unfold StringToBigInt.
  rewrite (trim_minus_digits _ (allDigits_string_of_uint d)).
  now rewrite (decimalDigits_string_of_uint d Hd).
Qed.

(** [BigInt(b.toString()) = b] *)
Lemma StringToBigInt_toStringZ (z : Z) : StringToBigInt (toStringZ z) = Some z.
Proof.
  unfold toStringZ. destruct z as [|p|p]; cbn [Z.to_int NilEmpty.string_of_int].
  - reflexivity.
  - rewrite StringToBigInt_uint by apply DecimalPos.Unsigned.to_uint_nonnil.
    unfold Z.of_uint. now rewrite DecimalPos.Unsigned.of_to.
  - rewrite StringToBigInt_neg_uint by apply DecimalPos.Unsigned.to_uint_nonnil.
    unfold Z.of_uint. now rewrite DecimalPos.Unsigned.of_to.
Qed.

Lemma truthy_toStringZ (z : Z) : truthy (toStringZ z) = true.
Proof.
  unfold toStringZ. destruct z as [|p|p]; cbn [Z.to_int NilEmpty.string_of_int]; auto.
  pose proof (DecimalPos.Unsigned.to_uint_nonnil p) as H.
  destruct (Pos.to_uint p); auto; now elim H.
Qed.

(** Decoding the rendering of a shifted offset gives the time back. *)
Lemma snowflakeToDate_encoded (t : Z) :
  snowflakeToDate (toStringZ (Z.shiftl (t - DISCORD_EPOCH) 22))
  = Normal (match TimeClip t with
            | InvalidDate => None
            | TimeValue t' => Some (TimeValue t')
            end).
Proof.
  unfold snowflakeToDate. rewrite truthy_toStringZ. cbn [negb].
  unfold BigInt_ofString. rewrite StringToBigInt_toStringZ. cbn [bind try_catch].
  rewrite Z.shiftr_shiftl_l by lia. rewrite Z.sub_diag, Z.shiftl_0_r.
  replace (t - DISCORD_EPOCH + DISCORD_EPOCH) with t by lia.
  unfold Date_ofBigIntNumber. destruct (TimeClip t); reflexivity.
Qed.

Lemma TimeClip_in_range (t : Z) :
  - maxTimeValue <= t <= maxTimeValue -> TimeClip t = TimeValue t.
Proof.
  intros H. unfold TimeClip.
  destruct (Z.abs t <=? maxTimeValue) eqn:E; auto.
  apply Z.leb_gt in E. lia.
Qed.

Lemma TimeClip_cases (t : Z) : TimeClip t = TimeValue t \/ TimeClip t = InvalidDate.
Proof. unfold TimeClip. destruct (Z.abs t <=? maxTimeValue); auto. Qed.

(** [snowflakeToDate] never throws. *)
Lemma snowflakeToDate_total (s : string) : exists r, snowflakeToDate s = Normal r.
Proof.
  unfold snowflakeToDate. destruct (truthy s); cbn [negb]; eauto.
  destruct (BigInt_ofString s) as [b|e]; cbn [bind try_catch]; eauto.
  destruct (isNaN _); cbn; eauto.
Qed.

Section WithHost.

Variable Date_parse : string -> option Z.

(** [dateToDiscordSnowflake] never throws. *)
Lemma dateToDiscordSnowflake_total (a : DateArg) :
  exists r, dateToDiscordSnowflake Date_parse a = Normal r.
Proof.
  unfold dateToDiscordSnowflake. destruct (argTruthy a); cbn [negb]; eauto.
  destruct (BigInt_ofNumber _) as [b|e]; cbn [bind try_catch]; eauto.
  destruct (snowflakeToDate_total (toStringZ (Z.shiftl (b - DISCORD_EPOCH) 22))) as [r ->].
  destruct r; cbn; eauto.
Qed.

(** The encoding of a date object: the sentinel exactly when the time is
    NaN (or, for a value that no [Date] holds, beyond the limit). *)
Lemma dateToDiscordSnowflake_date (d : Date) :
  dateToDiscordSnowflake Date_parse (ArgDate d)
  = Normal (match d with
            | InvalidDate => None
            | TimeValue t =>
                match TimeClip t with
                | InvalidDate => None
                | TimeValue _ => Some (toStringZ (Z.shiftl (t - DISCORD_EPOCH) 22))
                end
            end).
Proof.
  unfold dateToDiscordSnowflake. cbn [argTruthy negb].
  destruct d as [|t]; cbn [getTime BigInt_ofNumber bind try_catch]; auto.
  rewrite snowflakeToDate_encoded. destruct (TimeClip t); reflexivity.
Qed.

(** C2. For every valid date [d] in the representable range (a time value
    of magnitude at most 8.64e15 ms), [dateToDiscordSnowflake d] is a cursor
    and [snowflakeToDate] of that cursor is [d] itself, to the
    millisecond. *)
Theorem codec_round_trip (t : Z) :
  - maxTimeValue <= t <= maxTimeValue ->
  exists s,
    dateToDiscordSnowflake Date_parse (ArgDate (TimeValue t)) = Normal (Some s)
    /\ snowflakeToDate s = Normal (Some (TimeValue t)).
Proof.
  intros Ht. exists (toStringZ (Z.shiftl (t - DISCORD_EPOCH) 22)).
  rewrite dateToDiscordSnowflake_date, snowflakeToDate_encoded.
  rewrite (TimeClip_in_range t Ht). split; reflexivity.
Qed.

(** C9. Malformed input yields the null sentinel and nothing is thrown:
    [snowflakeToDate] of ["not-a-number"], of [""] and of any string that
    is not a BigInt literal is [null]; [dateToDiscordSnowflake] of [null],
    of an invalid [Date] and of a string that does not parse as a date is
    [null]; and both operations complete normally on every input. *)
Theorem codec_malformed_input_is_null :
  snowflakeToDate "not-a-number" = Normal None
  /\ snowflakeToDate "" = Normal None
  /\ (forall s, StringToBigInt s = None -> snowflakeToDate s = Normal None)
  /\ dateToDiscordSnowflake Date_parse ArgNull = Normal None
  /\ dateToDiscordSnowflake Date_parse (ArgDate InvalidDate) = Normal None
  /\ (forall s, Date_parse s = None ->
        dateToDiscordSnowflake Date_parse (ArgString s) = Normal None)
  /\ (forall s, exists r, snowflakeToDate s = Normal r)
  /\ (forall a, exists r, dateToDiscordSnowflake Date_parse a = Normal r).
Proof.
  repeat split.
  - intros s Hs. unfold snowflakeToDate, BigInt_ofString. rewrite Hs.
    destruct (truthy s); reflexivity.
  - intros s Hs. unfold dateToDiscordSnowflake, Date_ofString. rewrite Hs.
    destruct (argTruthy (ArgString s)); reflexivity.
  - apply snowflakeToDate_total.
  - apply dateToDiscordSnowflake_total.
Qed.

End WithHost.

(** The round trip at the Discord epoch and at a date of 2023. *)
Lemma codec_round_trip_witness :
  (- maxTimeValue <= 1700000000000 <= maxTimeValue)
  /\ exists s,
       dateToDiscordSnowflake Samples.Date_parse_iso (ArgDate (TimeValue 1700000000000))
       = Normal (Some s)
       /\ snowflakeToDate s = Normal (Some (TimeValue 1700000000000)).
Proof.
  assert (H : - maxTimeValue <= 1700000000000 <= maxTimeValue)
    by (unfold maxTimeValue; lia).
  split; [exact H | exact (codec_round_trip Samples.Date_parse_iso 1700000000000 H)].
Defined.

Lemma codec_malformed_input_is_null_witness :
  Samples.Date_parse_iso "yesterday" = None
  /\ StringToBigInt "12three" = None
  /\ dateToDiscordSnowflake Samples.Date_parse_iso (ArgString "yesterday") = Normal None
  /\ snowflakeToDate "12three" = Normal None.
Proof.
  pose proof (codec_malformed_input_is_null Samples.Date_parse_iso)
    as (_ & _ & Hs & _ & _ & Hd & _).
  assert (H1 : Samples.Date_parse_iso "yesterday" = None) by reflexivity.
  assert (H2 : StringToBigInt "12three" = None) by reflexivity.
  exact (conj H1 (conj H2 (conj (Hd "yesterday" H1) (Hs "12three" H2)))).
Defined.

End CodecFacts.

(** ** The accumulator and the sort *)

Module ContainerFacts.

Import Discord.

Lemma Map_set_In (k : string) (v : Message) (m : MessageMap) (k' : string) (v' : Message) :
  In (k', v') (Map_set k v m) -> (k', v') = (k, v) \/ In (k', v') m.
Proof.
  induction m as [|[k0 v0] r IH]; simpl.
  - intros [H|[]]; auto.
  - destruct (String.eqb k0 k) eqn:E; simpl.
    + apply String.eqb_eq in E. subst k0. intros [H|H]; auto.
    + intros [H|H]; auto. destruct (IH H); auto.
Qed.

Lemma Map_set_keys (k : string) (v : Message) (m : MessageMap) (k' : string) :
  In k' (map fst (Map_set k v m)) <-> k' = k \/ In k' (map fst m).
Proof.
  induction m as [|[k0 v0] r IH]; simpl.
  - intuition.
  - destruct (String.eqb k0 k) eqn:E; simpl.
    + apply String.eqb_eq in E. subst k0. intuition.
    + rewrite IH. intuition.
Qed.

Lemma Map_set_NoDup (k : string) (v : Message) (m : MessageMap) :
  NoDup (map fst m) -> NoDup (map fst (Map_set k v m)).
Proof.
  induction m as [|[k0 v0] r IH]; simpl; intros H.
  - constructor; [intros [] | constructor].
  - inversion H as [|? ? Hn Hr]; subst.
    destruct (String.eqb k0 k) eqn:E; simpl.
    + now constructor.
    + constructor; auto. rewrite Map_set_keys. intros [->|Hin]; auto.
      now rewrite String.eqb_refl in E.
Qed.

Lemma Map_set_keyed (v : Message) (m : MessageMap) :
  KeyedById m -> KeyedById (Map_set (id v) v m).
Proof.
  intros H k' v' Hin. apply Map_set_In in Hin as [E|Hin]; auto.
  now inversion E.
Qed.

Lemma Map_get_set_same (k : string) (v : Message) (m : MessageMap) :
  Map_get k (Map_set k v m) = Some v.
Proof.
  induction m as [|[k0 v0] r IH]; simpl.
  - now rewrite String.eqb_refl.
  - destruct (String.eqb k0 k) eqn:E; simpl; rewrite E; auto.
Qed.

Lemma Map_get_set_other (k k' : string) (v : Message) (m : MessageMap) :
  k <> k' -> Map_get k' (Map_set k v m) = Map_get k' m.
Proof.
  intros Hne. induction m as [|[k0 v0] r IH]; simpl.
  - destruct (String.eqb k k') eqn:E; auto. apply String.eqb_eq in E. contradiction.
  - destruct (String.eqb k0 k) eqn:E; simpl.
    + apply String.eqb_eq in E. subst k0.
      destruct (String.eqb k k') eqn:E'; auto.
      apply String.eqb_eq in E'. contradiction.
    + now rewrite IH.
Qed.

Lemma Map_get_In (k : string) (v : Message) (m : MessageMap) :
  Map_get k m = Some v -> In (k, v) m.
Proof.
  induction m as [|[k0 v0] r IH]; simpl; [discriminate|].
  destruct (String.eqb k0 k) eqn:E.
  - apply String.eqb_eq in E. intros [= ->]. subst. now left.
  - auto.
Qed.

Lemma In_Map_get (k : string) (v : Message) (m : MessageMap) :
  NoDup (map fst m) -> In (k, v) m -> Map_get k m = Some v.
Proof.
  induction m as [|[k0 v0] r IH]; simpl; [tauto|].
  intros Hnd [E|Hin].
  - inversion E; subst. now rewrite String.eqb_refl.
  - inversion Hnd as [|? ? Hn Hr]; subst.
    destruct (String.eqb k0 k) eqn:E.
    + apply String.eqb_eq in E. subst k0. elim Hn.
      change k with (fst (k, v)). now apply in_map.
    + auto.
Qed.

(** A sequence of writes keeps the keys distinct and filed by id. *)
Lemma writeAll_NoDup (ws : list Message) (m : MessageMap) :
  NoDup (map fst m) -> NoDup (map fst (writeAll ws m)).
Proof.
  revert m. induction ws as [|w ws IH]; simpl; auto.
  intros m H. apply IH. now apply Map_set_NoDup.
Qed.

Lemma writeAll_keyed (ws : list Message) (m : MessageMap) :
  KeyedById m -> KeyedById (writeAll ws m).
Proof.
  revert m. induction ws as [|w ws IH]; simpl; auto.
  intros m H. apply IH. now apply Map_set_keyed.
Qed.

Lemma writeAll_In (ws : list Message) (m : MessageMap) (k : string) (v : Message) :
  In (k, v) (writeAll ws m) -> In (k, v) m \/ In v ws.
Proof.
  revert m. induction ws as [|w ws IH]; simpl; auto.
  intros m H. apply IH in H as [H|H]; auto.
  apply Map_set_In in H as [E|H]; auto. inversion E; subst. auto.
Qed.

Lemma writeAll_app (ws1 ws2 : list Message) (m : MessageMap) :
  writeAll (ws1 ++ ws2) m = writeAll ws2 (writeAll ws1 m).
Proof. unfold writeAll. now rewrite fold_left_app. Qed.

Lemma lastWithId_cons (i : string) (w : Message) (ws : list Message) :
  lastWithId i (w :: ws)
  = match lastWithId i ws with
    | Some x => Some x
    | None => if String.eqb (id w) i then Some w else None
    end.
Proof.
  unfold lastWithId. simpl rev.
  induction (rev ws) as [|y r IH]; simpl; auto.
  destruct (String.eqb (id y) i); auto.
Qed.

(** Last write wins: after a sequence of writes the entry of an id is the
    last message written under it. *)
Lemma Map_get_writeAll (i : string) (ws : list Message) (m : MessageMap) :
  Map_get i (writeAll ws m)
  = match lastWithId i ws with
    | Some x => Some x
    | None => Map_get i m
    end.
Proof.
  revert m. induction ws as [|w ws IH]; intros m.
  - reflexivity.
  - change (writeAll (w :: ws) m) with (writeAll ws (Map_set (id w) w m)).
    rewrite IH, lastWithId_cons.
    destruct (lastWithId i ws); auto.
    destruct (String.eqb (id w) i) eqn:E.
    + apply String.eqb_eq in E. subst i. apply Map_get_set_same.
    + apply Map_get_set_other. intros Heq. rewrite Heq, String.eqb_refl in E.
      discriminate.
Qed.

(** *** [Array_sort] is a stable insertion: a permutation of its input *)

Lemma insertSorted_perm {A} (cmp : A -> A -> option Z) (x : A) (l : list A) :
  Permutation (insertSorted cmp x l) (x :: l).
Proof.
  induction l as [|y r IH]; simpl; auto.
  destruct (_ <=? 0); auto.
  eapply perm_trans; [apply perm_skip, IH | apply perm_swap].
Qed.

Lemma Array_sort_perm {A} (cmp : A -> A -> option Z) (l : list A) :
  Permutation (Array_sort cmp l) l.
Proof.
  induction l as [|x l IH]; simpl; auto.
  eapply perm_trans; [apply insertSorted_perm | now apply perm_skip].
Qed.

Lemma Array_sort_In {A} (cmp : A -> A -> option Z) (l : list A) (x : A) :
  In x (Array_sort cmp l) <-> In x l.
Proof.
  split; apply Permutation_in;
    [apply Array_sort_perm | apply Permutation_sym, Array_sort_perm].
Qed.

Section WithHost.

Variable Date_parse : string -> option Z.

Local Abbreviation msgTimeOf := (msgTimeOf Date_parse).
Local Abbreviation timeLe := (timeLe Date_parse).
Local Abbreviation compareByTimestamp := (compareByTimestamp Date_parse).

Local Abbreviation HasTime := (HasTime Date_parse).

Lemma timeLe_trans (a b c : Message) : timeLe a b -> timeLe b c -> timeLe a c.
Proof.
  intros (x & y & Hx & Hy & Hxy) (y' & z & Hy' & Hz & Hyz).
  rewrite Hy in Hy'. injection Hy' as <-.
  exists x, z. repeat split; auto. lia.
Qed.

Lemma insertSorted_sorted (x : Message) (l : list Message) :
  HasTime x -> Forall HasTime l ->
  StronglySorted timeLe l ->
  StronglySorted timeLe (insertSorted compareByTimestamp x l).
Proof.
  intros [tx Hx] Hall Hs. induction Hs as [|y r Hr IH Hy]; simpl.
  - constructor; constructor.
  - inversion Hall as [|? ? [ty Hty] Hall']; subst.
    unfold Discord.compareByTimestamp at 1. rewrite Hx, Hty.
    destruct (tx - ty <=? 0) eqn:E.
    + apply Z.leb_le in E.
      assert (Hxy : timeLe x y) by (exists tx, ty; repeat split; auto; lia).
      constructor; [now constructor|].
      constructor; auto.
      eapply Forall_impl; [|exact Hy]. intros z Hz. eapply timeLe_trans; eauto.
    + apply Z.leb_gt in E.
      constructor; [now apply IH|].
      apply Forall_forall. intros z Hz.
      apply (Permutation_in _ (insertSorted_perm _ _ _)) in Hz as [<-|Hz].
      * exists ty, tx. repeat split; auto. lia.
      * rewrite Forall_forall in Hy. auto.
Qed.

(** On messages whose times are all known the final sort yields
    non-decreasing times. *)
Lemma Array_sort_sorted (l : list Message) :
  Forall HasTime l -> StronglySorted timeLe (Array_sort compareByTimestamp l).
Proof.
  induction l as [|x l IH]; simpl; intros H.
  - constructor.
  - inversion H; subst. apply insertSorted_sorted; auto.
    apply Forall_forall. intros z Hz. apply Array_sort_In in Hz.
    rewrite Forall_forall in H3. auto.
Qed.

(** *** The scan of a page *)

Lemma scanPage_writes (fromDate toDate : Date) (messages : list Message)
    (all : MessageMap) (hit : bool) :
  scanPage Date_parse fromDate toDate messages all hit
  = (writeAll (pageWrites Date_parse fromDate toDate messages) all,
     hit || existsb (isOld Date_parse fromDate) messages).
Proof.
  revert all. induction messages as [|msg rest IH]; intros all; simpl.
  - now rewrite orb_false_r.
  - unfold isOld at 1 2, inWindow at 1.
    destruct (num_lt _ _); simpl.
    + now rewrite orb_true_r.
    + destruct (num_ge _ _ && num_le _ _); simpl; now rewrite IH.
Qed.

Lemma inWindow_InWindow (fromDate toDate : Date) (msg : Message) :
  inWindow Date_parse fromDate toDate msg = true ->
  InWindow Date_parse fromDate toDate msg.
Proof.
  unfold inWindow, InWindow, num_ge, num_le. intros H.
  destruct (Discord.msgTimeOf Date_parse msg) as [t|],
           (getTime fromDate) as [f|], (getTime toDate) as [e|];
    simpl in H; try discriminate; try (rewrite andb_false_r in H; discriminate).
  apply andb_true_iff in H as [H1 H2]. apply Z.leb_le in H1, H2.
  exists t, f, e. repeat split; auto.
Qed.

Lemma pageWrites_In (fromDate toDate : Date) (messages : list Message) (m : Message) :
  In m (pageWrites Date_parse fromDate toDate messages) ->
  In m messages /\ inWindow Date_parse fromDate toDate m = true.
Proof.
  induction messages as [|msg rest IH]; simpl; [tauto|].
  destruct (isOld _ _ _); [intros []|].
  destruct (inWindow _ _ _ msg) eqn:E.
  - intros [<-|H]; auto. destruct (IH H); auto.
  - intros H. destruct (IH H); auto.
Qed.

(** A page without an old message writes exactly its messages in the
    window. *)
Lemma pageWrites_no_old (fromDate toDate : Date) (messages : list Message) :
  existsb (isOld Date_parse fromDate) messages = false ->
  pageWrites Date_parse fromDate toDate messages
  = filter (inWindow Date_parse fromDate toDate) messages.
Proof.
  induction messages as [|msg rest IH]; simpl; auto.
  intros H. apply orb_false_iff in H as [H1 H2]. rewrite H1.
  destruct (inWindow _ _ _ msg); rewrite IH; auto.
Qed.

(** After the first old message nothing of the page is looked at. *)
Lemma scanPage_stops_at_old (fromDate toDate : Date)
    (pre post : list Message) (m : Message) (all : MessageMap) (hit : bool) :
  existsb (isOld Date_parse fromDate) pre = false ->
  isOld Date_parse fromDate m = true ->
  scanPage Date_parse fromDate toDate (pre ++ m :: post) all hit
  = (fst (scanPage Date_parse fromDate toDate pre all hit), true).
Proof.
  intros Hpre Hm. rewrite !scanPage_writes. cbn [fst]. f_equal.
  - f_equal. clear Hpre. induction pre as [|x pre IH]; simpl.
    + now rewrite Hm.
    + destruct (isOld _ _ x); auto. destruct (inWindow _ _ _ x); now rewrite IH.
  - rewrite existsb_app. simpl. rewrite Hm. now rewrite !orb_true_r.
Qed.

End WithHost.

End ContainerFacts.

(** ** The window walk *)

Module WalkFacts.

Import Discord ContainerFacts.

(** *** Traces *)

Lemma fetches_app (a b : Trace) : fetches (a ++ b) = (fetches a ++ fetches b).
Proof.
  induction a as [|[u t|ms] a IH]; simpl; auto. now rewrite IH.
Qed.

Lemma fetchCount_fetches (tr : Trace) : fetchCount tr = List.length (fetches tr).
Proof.
  unfold fetchCount. induction tr as [|[u t|ms] tr IH]; simpl; auto.
Qed.

Lemma pagesFrom_snoc (server : Server) (k : nat) (reqs : list (string * string))
    (u t : string) :
  pagesFrom server k (reqs ++ [(u, t)])
  = (pagesFrom server k reqs
     ++ [match pageOf (server (k + List.length reqs)%nat u t) with
         | Some p => p
         | None => []
         end]).
Proof.
  revert k. induction reqs as [|[u0 t0] r IH]; intros k; simpl.
  - now rewrite Nat.add_0_r.
  - rewrite IH. now rewrite Nat.add_succ_r.
Qed.

(** *** One request *)

Lemma handleResponse_not_ok {A} (r : Response A) :
  ok r = false -> exists e, handleResponse r = Throw e.
Proof.
  intros H. unfold handleResponse. rewrite H.
  repeat match goal with |- context [if ?b then _ else _] => destruct b end; eauto.
Qed.

Lemma pageOutcome_pageOf (r : Reply) :
  match pageOf r with
  | Some p => pageOutcome r = Normal p
  | None => exists e, pageOutcome r = Throw e
  end.
Proof.
  destruct r as [m|resp]; simpl; eauto.
  destruct (ok resp) eqn:E.
  - unfold handleResponse. rewrite E. destruct (json resp); eauto.
  - now apply handleResponse_not_ok.
Qed.

Lemma pageOutcome_Normal (r : Reply) (p : list Message) :
  pageOutcome r = Normal p <-> pageOf r = Some p.
Proof.
  pose proof (pageOutcome_pageOf r) as H. destruct (pageOf r) as [q|].
  - rewrite H. split; intros [= ->]; reflexivity.
  - destruct H as [e ->]. split; discriminate.
Qed.

Lemma fetchMessagesPage_eq (c : Client) (server : Server) (channelId userToken : string)
    (before : option string) (tr : Trace) :
  fetchMessagesPage c server channelId userToken before None tr
  = Some (pageOutcome (server (fetchCount tr) (pageUrl c channelId before None) userToken),
          (tr ++ [EvFetch (pageUrl c channelId before None) userToken])).
Proof.
  unfold fetchMessagesPage, io_try_catch, io_bind, fetch, lift, throw.
  destruct (server _ _ _) as [m|resp]; simpl; auto.
  destruct (handleResponse resp); reflexivity.
Qed.

Section Walk.

Variable Date_parse : string -> option Z.
Variable c : Client.
Variable server : Server.
Variables channelId userToken : string.
Variables fromDate effectiveToDate : Date.
Variable maxPages : Z.

Local Abbreviation walkCond := (walkCond maxPages).
Local Abbreviation afterPage := (afterPage Date_parse fromDate effectiveToDate).
Local Abbreviation walkBody :=
  (walkBody Date_parse c server channelId userToken fromDate effectiveToDate).
Local Abbreviation walk :=
  (walk Date_parse c server channelId userToken fromDate effectiveToDate maxPages).
Local Abbreviation isOld := (isOld Date_parse fromDate).
Local Abbreviation Inv := (WalkInv Date_parse server fromDate effectiveToDate maxPages).
Local Abbreviation Fail := (WalkFail Date_parse server fromDate maxPages).

Local Abbreviation paused := (paused c).
Local Abbreviation requestOf := (requestOf c channelId userToken).
Local Abbreviation replyTo := (replyTo c server channelId userToken).

Lemma fetches_paused (st : WalkState) (tr : Trace) :
  fetches (paused st tr) = fetches tr.
Proof.
  unfold Discord.paused. destruct (0 <? pageCount st); auto.
  rewrite fetches_app. simpl. now rewrite app_nil_r.
Qed.

Lemma fetches_step (st : WalkState) (tr : Trace) :
  fetches (paused st tr ++ [requestOf st])
  = (fetches tr ++ [(pageUrl c channelId (currentBefore st) None, userToken)]).
Proof. rewrite fetches_app, fetches_paused. reflexivity. Qed.

(** An iteration: an optional pause, one request, and the new variables if
    the reply delivers a page. *)
Lemma walkBody_eq (st : WalkState) (tr : Trace) :
  walkBody st tr
  = Some (match pageOutcome (replyTo st tr) with
          | Normal p => Normal (afterPage st p)
          | Throw e => Throw e
          end,
          (paused st tr ++ [requestOf st])).
Proof.
  unfold Discord.walkBody, io_bind, Discord.paused, Discord.requestOf, Discord.replyTo.
  destruct (0 <? pageCount st); unfold delay, ret;
    rewrite fetchMessagesPage_eq; rewrite ?fetchCount_fetches, ?fetches_app;
    simpl fetches; rewrite ?app_nil_r;
    destruct (pageOutcome _); reflexivity.
Qed.

Lemma walk_stop (fuel : nat) (st : WalkState) (tr : Trace) :
  walkCond st = false -> walk fuel st tr = Some (Normal st, tr).
Proof. intros H. destruct fuel; simpl; rewrite H; reflexivity. Qed.

Lemma walk_step (fuel : nat) (st : WalkState) (tr : Trace) :
  walkCond st = true ->
  walk (S fuel) st tr
  = match pageOutcome (replyTo st tr) with
    | Normal p => walk fuel (afterPage st p) (paused st tr ++ [requestOf st])
    | Throw e => Some (Throw e, (paused st tr ++ [requestOf st]))
    end.
Proof.
  intros H. simpl. rewrite H. unfold io_bind. rewrite walkBody_eq.
  destruct (pageOutcome _); reflexivity.
Qed.

(** The rule of the loop: an invariant [I] kept by every iteration that
    delivers a page, and a property [E] of the trace of an iteration that
    throws. *)
Lemma walk_rule (I : WalkState -> Trace -> Prop) (E : Trace -> Prop) :
  (forall st tr, I st tr -> walkCond st = true ->
     match pageOutcome (replyTo st tr) with
     | Normal p => I (afterPage st p) (paused st tr ++ [requestOf st])
     | Throw _ => E (paused st tr ++ [requestOf st])
     end) ->
  forall fuel st tr, I st tr ->
    match walk fuel st tr with
    | Some (Normal st', tr') => I st' tr' /\ walkCond st' = false
    | Some (Throw _, tr') => E tr'
    | None => True
    end.
Proof.
  intros Hstep. induction fuel as [|fuel IH]; intros st tr HI.
  - simpl. destruct (walkCond st) eqn:Hc; simpl; auto.
  - destruct (walkCond st) eqn:Hc.
    + rewrite (walk_step _ _ _ Hc). specialize (Hstep st tr HI Hc).
      destruct (pageOutcome _); [now apply IH | assumption].
    + rewrite (walk_stop _ _ _ Hc). auto.
Qed.

(** What an iteration leaves in the loop variables. *)
Lemma afterPage_cases (st : WalkState) (p : list Message) :
  hitOldMessage st = false ->
  allMessages (afterPage st p)
  = writeAll (pageWrites Date_parse fromDate effectiveToDate p) (allMessages st)
  /\ hitOldMessage (afterPage st p) = existsb isOld p
  /\ ((pageCount (afterPage st p) = pageCount st + 1
       /\ hasMore (afterPage st p) = hasMore st
       /\ existsb isOld p = false /\ List.length p = 100%nat
       /\ currentBefore (afterPage st p) = lastId p)
      \/ (pageCount (afterPage st p) = pageCount st
          /\ hasMore (afterPage st p) = false
          /\ currentBefore (afterPage st p) = currentBefore st
          /\ (existsb isOld p = true \/ List.length p <> 100%nat))).
Proof.
  intros Hhit. unfold Discord.afterPage.
  destruct p as [|m p'] eqn:Ep.
  - simpl. rewrite Hhit. repeat split; auto. right. repeat split; auto.
  - rewrite <- Ep. replace (List.length p =? 0)%nat with false
      by (subst p; reflexivity).
    rewrite scanPage_writes, Hhit. cbn [orb].
    destruct (existsb isOld p) eqn:Eold; cbn [negb andb].
    + repeat split; auto. right. repeat split; auto.
    + destruct (List.length p =? 100)%nat eqn:El.
      * apply Nat.eqb_eq in El. repeat split; auto. left. repeat split; auto.
      * apply Nat.eqb_neq in El. repeat split; auto. right. repeat split; auto.
Qed.

Lemma walkCond_true (st : WalkState) :
  walkCond st = true ->
  hasMore st = true /\ pageCount st < maxPages /\ hitOldMessage st = false.
Proof.
  unfold Discord.walkCond. intros H.
  apply andb_true_iff in H as [H H3]. apply andb_true_iff in H as [H1 H2].
  apply Z.ltb_lt in H2. apply negb_true_iff in H3. auto.
Qed.

(** The loop never needs more iterations than [maxPages - pageCount]. *)
Lemma walk_total (fuel : nat) (st : WalkState) (tr : Trace) :
  (Z.to_nat (maxPages - pageCount st) <= fuel)%nat ->
  exists r, walk fuel st tr = Some r.
Proof.
  revert st tr. induction fuel as [|fuel IH]; intros st tr Hf.
  - destruct (walkCond st) eqn:Hc.
    + apply walkCond_true in Hc as (_ & Hlt & _). lia.
    + rewrite (walk_stop _ _ _ Hc). eauto.
  - destruct (walkCond st) eqn:Hc.
    + rewrite (walk_step _ _ _ Hc). apply walkCond_true in Hc as (_ & Hlt & Hhit).
      destruct (pageOutcome _) as [p|e]; eauto.
      destruct (afterPage_cases st p Hhit) as (_ & _ & [(Hpc & _)|(_ & Hm & _)]).
      * apply IH. rewrite Hpc. lia.
      * rewrite walk_stop; eauto.
        unfold Discord.walkCond. now rewrite Hm.
    + rewrite (walk_stop _ _ _ Hc). eauto.
Qed.

(** More fuel does not change a run that ended. *)
Lemma walk_fuel_mono (fuel fuel' : nat) (st : WalkState) (tr : Trace) r :
  (fuel <= fuel')%nat -> walk fuel st tr = Some r -> walk fuel' st tr = Some r.
Proof.
  revert fuel' st tr. induction fuel as [|fuel IH]; intros fuel' st tr Hle H.
  - destruct (walkCond st) eqn:Hc.
    + simpl in H. rewrite Hc in H. discriminate.
    + rewrite walk_stop in H |- *; auto.
  - destruct fuel' as [|fuel']; [lia|].
    destruct (walkCond st) eqn:Hc.
    + rewrite (walk_step fuel _ _ Hc) in H. rewrite (walk_step fuel' _ _ Hc).
      destruct (pageOutcome _); auto. apply IH; auto. lia.
    + rewrite walk_stop in H |- *; auto.
Qed.

(** *** The invariant *)

Lemma pageAt_old_request (st : WalkState) (tr : Trace) (k : nat) :
  (k < List.length (fetches tr))%nat ->
  pageAt server (paused st tr ++ [requestOf st]) k = pageAt server tr k.
Proof.
  intros Hk. unfold pageAt. rewrite fetches_step.
  now rewrite nth_error_app1.
Qed.

Lemma pageAt_new_request (st : WalkState) (tr : Trace) :
  pageAt server (paused st tr ++ [requestOf st]) (List.length (fetches tr))
  = pageOf (replyTo st tr).
Proof.
  unfold pageAt, Discord.replyTo. rewrite fetches_step.
  rewrite nth_error_app2, Nat.sub_diag by lia. simpl.
  now rewrite fetchCount_fetches.
Qed.

Lemma pageAt_bound (tr : Trace) (k : nat) p :
  pageAt server tr k = Some p -> (k < List.length (fetches tr))%nat.
Proof.
  unfold pageAt. intros H. apply nth_error_Some. intros E. now rewrite E in H.
Qed.

Lemma length_fetches_step (st : WalkState) (tr : Trace) :
  List.length (fetches (paused st tr ++ [requestOf st]))
  = S (List.length (fetches tr)).
Proof. rewrite fetches_step, length_app. simpl. lia. Qed.

Lemma OldPageIsLast_step (st : WalkState) (tr : Trace) :
  (forall k p, pageAt server tr k = Some p -> existsb isOld p = false) ->
  OldPageIsLast Date_parse server fromDate (paused st tr ++ [requestOf st]).
Proof.
  intros Hno k p Hk Hold.
  pose proof (pageAt_bound _ _ _ Hk) as Hb. rewrite length_fetches_step in Hb |- *.
  destruct (Nat.eq_dec k (List.length (fetches tr))) as [->|Hne]; auto.
  rewrite pageAt_old_request in Hk by lia.
  rewrite (Hno _ _ Hk) in Hold. discriminate.
Qed.

Lemma runWrites_step (st : WalkState) (tr : Trace) :
  runWrites Date_parse server fromDate effectiveToDate (paused st tr ++ [requestOf st])
  = (runWrites Date_parse server fromDate effectiveToDate tr
     ++ pageWrites Date_parse fromDate effectiveToDate
          (match pageOf (replyTo st tr) with Some p => p | None => [] end)).
Proof.
  unfold runWrites, Discord.replyTo. rewrite fetches_step, pagesFrom_snoc.
  rewrite map_app, concat_app. simpl. rewrite app_nil_r.
  now rewrite fetchCount_fetches.
Qed.

Lemma Inv_step (st : WalkState) (tr : Trace) :
  Inv st tr -> walkCond st = true ->
  match pageOutcome (replyTo st tr) with
  | Normal p => Inv (afterPage st p) (paused st tr ++ [requestOf st])
  | Throw _ => Fail (paused st tr ++ [requestOf st])
  end.
Proof.
  intros (Hall & Hno & Hlast & Hdel & Hpc & Hcnt & Hmore) Hc.
  apply walkCond_true in Hc as (Hm & Hlt & Hhit).
  specialize (Hno Hhit). specialize (Hmore Hm).
  assert (Hcnt' : (fetchCount (paused st tr ++ [requestOf st]) <= Z.to_nat maxPages)%nat).
  { rewrite fetchCount_fetches, length_fetches_step, <- fetchCount_fetches. lia. }
  pose proof (pageOutcome_pageOf (replyTo st tr)) as Hout.
  destruct (pageOf (replyTo st tr)) as [p|] eqn:Hp.
  - rewrite Hout.
    destruct (afterPage_cases st p Hhit) as (Ha & Hh & Hcase).
    unfold WalkInv. repeat split.
    + rewrite Ha, Hall, runWrites_step, Hp. now rewrite writeAll_app.
    + rewrite Hh. intros Hold k q Hk.
      pose proof (pageAt_bound _ _ _ Hk) as Hb. rewrite length_fetches_step in Hb.
      destruct (Nat.eq_dec k (List.length (fetches tr))) as [->|Hne].
      * rewrite pageAt_new_request, Hp in Hk. now injection Hk as <-.
      * rewrite pageAt_old_request in Hk by lia. eauto.
    + now apply OldPageIsLast_step.
    + intros k Hk. rewrite length_fetches_step in Hk.
      destruct (Nat.eq_dec k (List.length (fetches tr))) as [->|Hne].
      * rewrite pageAt_new_request, Hp. discriminate.
      * rewrite pageAt_old_request by lia. apply Hdel. lia.
    + destruct Hcase as [(E & _)|(E & _)]; rewrite E; lia.
    + exact Hcnt'.
    + destruct Hcase as [(E & Em & _)|(E & Em & _)]; rewrite Em; [|discriminate].
      intros _. rewrite E, fetchCount_fetches, length_fetches_step, <- fetchCount_fetches.
      lia.
  - destruct Hout as [e ->]. split; [now apply OldPageIsLast_step|].
    split; [exact Hcnt'|].
    exists (List.length (fetches tr)). rewrite length_fetches_step.
    split; [lia|]. now rewrite pageAt_new_request.
Qed.

(** The invariant along the whole loop. *)
Lemma walk_Inv (fuel : nat) (st : WalkState) (tr : Trace) :
  Inv st tr ->
  match walk fuel st tr with
  | Some (Normal st', tr') => Inv st' tr' /\ walkCond st' = false
  | Some (Throw _, tr') => Fail tr'
  | None => True
  end.
Proof. apply walk_rule. exact Inv_step. Qed.

End Walk.

End WalkFacts.

(** ** Runs of [getAllMessagesBetweenDates] *)

Module RunFacts.

Import Discord ContainerFacts WalkFacts.

Lemma pagesFrom_In (server : Server) (W : list Message -> list Message)
    (m : Message) (reqs : list (string * string)) (j : nat) :
  W [] = [] ->
  In m (List.concat (map W (pagesFrom server j reqs))) <->
  exists k u t p,
    nth_error reqs k = Some (u, t)
    /\ pageOf (server (j + k)%nat u t) = Some p /\ In m (W p).
Proof.
  intros HW. revert j. induction reqs as [|[u0 t0] r IH]; intros j; simpl.
  - split; [tauto|]. intros (k & u & t & p & H & _). now destruct k.
  - rewrite in_app_iff, IH. split.
    + intros [H|(k & u & t & p & Hn & Hp & Hin)].
      * exists 0%nat, u0, t0. rewrite Nat.add_0_r.
        destruct (pageOf (server j u0 t0)) as [p|]; [eauto|].
        rewrite HW in H. destruct H.
      * exists (S k), u, t, p. rewrite Nat.add_succ_r. auto.
    + intros (k & u & t & p & Hn & Hp & Hin). destruct k as [|k]; simpl in Hn.
      * injection Hn as -> ->. rewrite Nat.add_0_r in Hp. rewrite Hp. auto.
      * right. exists k, u, t, p. rewrite Nat.add_succ_r in Hp. auto.
Qed.

Section Run.

Variable Date_parse : string -> option Z.
Variable c : Client.
Variable server : Server.
Variables channelId userToken : string.
Variable fromDate : Date.
Variable toDate : option Date.
Variable now : Z.
Variable maxPages : Z.

Local Abbreviation eff := (effectiveTo toDate now).
Local Abbreviation walk :=
  (walk Date_parse c server channelId userToken fromDate eff maxPages).
Local Abbreviation Inv := (WalkInv Date_parse server fromDate eff maxPages).
Local Abbreviation Fail := (WalkFail Date_parse server fromDate maxPages).
Local Abbreviation run :=
  (getAllMessagesBetweenDates Date_parse c server channelId userToken
     fromDate toDate now maxPages).
Local Abbreviation sorted :=
  (fun st => Array_sort (compareByTimestamp Date_parse) (Map_values (allMessages st))).
Local Abbreviation encoded :=
  (DateUtils.dateToDiscordSnowflake Date_parse (DateUtils.ArgDate eff)).

(** Every message written during a run stands in a delivered page and lies
    in the window. *)
Lemma runWrites_In (tr : Trace) (m : Message) :
  In m (runWrites Date_parse server fromDate eff tr) <->
  exists k p, pageAt server tr k = Some p
              /\ In m (pageWrites Date_parse fromDate eff p).
Proof.
  unfold runWrites. rewrite pagesFrom_In by reflexivity. unfold pageAt. split.
  - intros (k & u & t & p & Hn & Hp & Hin). exists k, p. now rewrite Hn.
  - intros (k & p & Hk & Hin).
    destruct (nth_error (fetches tr) k) as [[u t]|] eqn:Hn; [|discriminate].
    exists k, u, t, p. auto.
Qed.

(** The function in terms of its loop. *)
Lemma run_eq (sf : option string) (tr0 : Trace) :
  encoded = Normal sf ->
  run tr0
  = match walk (Z.to_nat maxPages) (initialState sf) tr0 with
    | Some (Normal st, tr) => Some (Normal (sorted st), tr)
    | Some (Throw e, tr) => Some (Throw (wrapFetchError e), tr)
    | None => None
    end.
Proof.
  intros He. unfold getAllMessagesBetweenDates, getAllMessagesBetweenDatesFuel.
  unfold io_try_catch, io_bind, lift, ret, throw. rewrite He.
  destruct (walk _ _ _) as [[[st|e] tr]|]; reflexivity.
Qed.

Lemma Inv_init (sf : option string) : Inv (initialState sf) [].
Proof.
  assert (Hnone : forall k, pageAt server [] k = None) by (now intros [|k]).
  unfold WalkInv. simpl. split; [reflexivity|]. split.
  - intros _ k p H. now rewrite Hnone in H.
  - split; [|unfold fetchCount; simpl; repeat split; intros; lia].
    intros k p H. now rewrite Hnone in H.
Qed.

(** A run ends, in a result that the invariant describes or in a wrapped
    error. *)
Lemma run_cases :
  exists sf, encoded = Normal sf /\
    ((exists st tr,
         walk (Z.to_nat maxPages) (initialState sf) [] = Some (Normal st, tr)
         /\ run [] = Some (Normal (sorted st), tr)
         /\ Inv st tr /\ walkCond maxPages st = false)
     \/ (exists e tr,
           walk (Z.to_nat maxPages) (initialState sf) [] = Some (Throw e, tr)
           /\ run [] = Some (Throw (wrapFetchError e), tr) /\ Fail tr)).
Proof.
  destruct (CodecFacts.dateToDiscordSnowflake_total Date_parse (DateUtils.ArgDate eff))
    as [sf He].
  exists sf. split; auto. rewrite (run_eq sf [] He).
  destruct (walk_total Date_parse c server channelId userToken fromDate eff maxPages
              (Z.to_nat maxPages) (initialState sf) []) as [r Hr].
  { simpl. rewrite Z.sub_0_r. lia. }
  pose proof (walk_Inv Date_parse c server channelId userToken fromDate eff maxPages
                (Z.to_nat maxPages) (initialState sf) [] (Inv_init sf)) as H.
  rewrite Hr in H |- *. destruct r as [[st|e] tr].
  - left. exists st, tr. destruct H. auto.
  - right. exists e, tr. auto.
Qed.

(** The fuel that [getAllMessagesBetweenDates] gives its loop is enough:
    more of it changes nothing. *)
Lemma run_fuel_irrelevant (fuel : nat) (tr0 : Trace) :
  (Z.to_nat maxPages <= fuel)%nat ->
  getAllMessagesBetweenDatesFuel Date_parse fuel c server channelId userToken
    fromDate toDate now maxPages tr0
  = run tr0.
Proof.
  intros Hf. unfold getAllMessagesBetweenDates, getAllMessagesBetweenDatesFuel.
  unfold io_try_catch, io_bind, lift.
  destruct encoded as [sf|e]; [|reflexivity].
  destruct (walk_total Date_parse c server channelId userToken fromDate eff maxPages
              (Z.to_nat maxPages) (initialState sf) tr0) as [r Hr].
  { simpl. rewrite Z.sub_0_r. lia. }
  rewrite Hr.
  now rewrite (walk_fuel_mono Date_parse c server channelId userToken fromDate eff
                 maxPages _ fuel _ _ r Hf Hr).
Qed.

(** What the invariant says of the accumulated messages. *)
Lemma Inv_values (st : WalkState) (tr : Trace) (m : Message) :
  Inv st tr -> In m (Map_values (allMessages st)) ->
  exists k p, pageAt server tr k = Some p /\ In m p
              /\ inWindow Date_parse fromDate eff m = true.
Proof.
  intros (Hall & _) Hin. unfold Map_values in Hin.
  apply in_map_iff in Hin as ([k v] & <- & Hin). simpl.
  rewrite Hall in Hin. apply writeAll_In in Hin as [[]|Hin].
  apply runWrites_In in Hin as (j & p & Hj & Hw).
  apply pageWrites_In in Hw as [Hp Hw]. eauto.
Qed.

Lemma Inv_ids (st : WalkState) (tr : Trace) :
  Inv st tr ->
  NoDup (map fst (allMessages st)) /\ KeyedById (allMessages st).
Proof.
  intros (Hall & _). rewrite Hall. split.
  - apply writeAll_NoDup. constructor.
  - apply writeAll_keyed. intros k v [].
Qed.

(** The first event of a run that makes a request. *)
Lemma walk_extends (fuel : nat) (st : WalkState) (tr : Trace) out tr' :
  walk fuel st tr = Some (out, tr') -> exists ext, tr' = tr ++ ext.
Proof.
  revert st tr. induction fuel as [|fuel IH]; intros st tr H.
  - destruct (walkCond maxPages st) eqn:Hc.
    + simpl in H. rewrite Hc in H. discriminate.
    + rewrite walk_stop in H by auto. injection H as _ <-. exists []. now rewrite app_nil_r.
  - destruct (walkCond maxPages st) eqn:Hc.
    + rewrite walk_step in H by auto.
      destruct (pageOutcome _).
      * apply IH in H as [ext ->]. unfold paused.
        destruct (0 <? pageCount st); rewrite <- ?app_assoc; eauto.
      * injection H as _ <-. unfold paused.
        destruct (0 <? pageCount st); rewrite <- ?app_assoc; eauto.
    + rewrite walk_stop in H by auto. injection H as _ <-. exists []. now rewrite app_nil_r.
Qed.

End Run.

End RunFacts.

(** ** The result of [getAllMessagesBetweenDates] *)

Module WindowFacts.

Import Discord ContainerFacts WalkFacts RunFacts.

Lemma filter_none {A} (f : A -> bool) (l : list A) :
  (forall x, In x l -> f x = false) -> filter f l = [].
Proof.
  induction l as [|y l IH]; simpl; auto.
  intros H. rewrite (H y) by auto. apply IH. auto.
Qed.

Lemma NoDup_one_match {A} (f : A -> string) (l : list A) (x : A) :
  NoDup (map f l) -> In x l ->
  List.length (filter (fun y => String.eqb (f y) (f x)) l) = 1%nat.
Proof.
  induction l as [|y l IH]; simpl; [tauto|].
  intros Hnd Hin. inversion Hnd as [|? ? Hn Hl]; subst.
  destruct Hin as [->|Hin].
  - rewrite String.eqb_refl. simpl. f_equal.
    rewrite filter_none; auto.
    intros z Hz. destruct (String.eqb (f z) (f x)) eqn:E; auto.
    apply String.eqb_eq in E. elim Hn. rewrite <- E. now apply in_map.
  - destruct (String.eqb (f y) (f x)) eqn:E; auto.
    apply String.eqb_eq in E. elim Hn. rewrite E. now apply in_map.
Qed.

Lemma lastWithId_In (m : Message) (ws : list Message) :
  In m ws ->
  exists m', lastWithId (id m) ws = Some m' /\ id m' = id m /\ In m' ws.
Proof.
  intros Hin. unfold lastWithId.
  destruct (find (fun x => String.eqb (id x) (id m)) (rev ws)) as [m'|] eqn:E.
  - apply find_some in E as [H1 H2]. apply String.eqb_eq in H2.
    apply in_rev in H1. eauto.
  - apply in_rev in Hin. pose proof (find_none _ _ E m Hin) as H.
    simpl in H. now rewrite String.eqb_refl in H.
Qed.

(** A message handed to the accumulator leaves an entry under its id. *)
Lemma written_kept (m : Message) (ws : list Message) :
  In m ws ->
  exists m', In (id m, m') (writeAll ws []) /\ id m' = id m /\ In m' ws.
Proof.
  intros Hin. destruct (lastWithId_In m ws Hin) as (m' & Hl & Hid & Hin').
  exists m'. repeat split; auto.
  apply Map_get_In. now rewrite Map_get_writeAll, Hl.
Qed.

Lemma values_ids (m : MessageMap) :
  KeyedById m -> map id (Map_values m) = map fst m.
Proof.
  intros Hk. unfold Map_values. rewrite map_map.
  apply map_ext_in. intros [k v] Hin. simpl. symmetry. now apply Hk.
Qed.

Section Run.

Variable Date_parse : string -> option Z.
Variable c : Client.
Variable server : Server.
Variables channelId userToken : string.
Variable fromDate : Date.
Variable toDate : option Date.
Variable now : Z.
Variable maxPages : Z.

Local Abbreviation eff := (effectiveTo toDate now).
Local Abbreviation run :=
  (getAllMessagesBetweenDates Date_parse c server channelId userToken
     fromDate toDate now maxPages).
Local Abbreviation isOld := (isOld Date_parse fromDate).
Local Abbreviation inWindow := (inWindow Date_parse fromDate eff).
Local Abbreviation InWindow := (InWindow Date_parse fromDate eff).
Local Abbreviation Inv := (WalkInv Date_parse server fromDate eff maxPages).
Local Abbreviation sorted :=
  (fun st => Array_sort (compareByTimestamp Date_parse) (Map_values (allMessages st))).

Lemma InWindow_not_old (m : Message) : InWindow m -> isOld m = false.
Proof.
  intros (t & f & e & Ht & Hf & _ & Hle & _).
  unfold Discord.isOld. rewrite Ht, Hf. simpl. apply Z.ltb_ge. lia.
Qed.

Lemma InWindow_HasTime (m : Message) : InWindow m -> HasTime Date_parse m.
Proof. intros (t & _ & _ & Ht & _). now exists t. Qed.

Lemma result_In (st : WalkState) (tr : Trace) (m : Message) :
  Inv st tr -> In m (sorted st) ->
  exists k p, pageAt server tr k = Some p /\ In m p /\ InWindow m.
Proof.
  intros HI Hin. apply Array_sort_In in Hin.
  destruct (Inv_values Date_parse server fromDate toDate now maxPages st tr m HI Hin)
    as (k & p & Hk & Hp & Hw).
  exists k, p. repeat split; auto. now apply inWindow_InWindow.
Qed.

Lemma pageAt_server (tr : Trace) (k : nat) (p : list Message) :
  pageAt server tr k = Some p -> exists u t, pageOf (server k u t) = Some p.
Proof.
  unfold pageAt. destruct (nth_error (fetches tr) k) as [[u t]|]; [eauto|discriminate].
Qed.

Lemma pageAt_None (tr : Trace) (k : nat) :
  (k < List.length (fetches tr))%nat -> pageAt server tr k = None ->
  exists u t, pageOf (server k u t) = None.
Proof.
  unfold pageAt. intros Hk H.
  destruct (nth_error (fetches tr) k) as [[u t]|] eqn:E; [eauto|].
  apply nth_error_None in E. lia.
Qed.



(** C3. A run ends, and in the sequence it returns no two entries share an
    id; the entry of an id is the last message written under it (last
    write wins); an id that appears in two requested pages, with its
    earlier occurrence in the window, has exactly one entry; and an id
    whose occurrences in the requested pages all lie outside the window
    has no entry. *)
Theorem one_entry_per_id :
  exists out tr,
    getAllMessagesBetweenDates Date_parse c server channelId userToken
      fromDate toDate now maxPages [] = Some (out, tr)
    /\ forall res, out = Normal res ->
         NoDup (map id res)
         /\ (forall m, In m res ->
               lastWithId (id m)
                 (runWrites Date_parse server fromDate (effectiveTo toDate now) tr)
               = Some m)
         /\ (forall k1 k2 p1 p2 m1 m2,
               (k1 < k2)%nat ->
               pageAt server tr k1 = Some p1 -> pageAt server tr k2 = Some p2 ->
               In m1 p1 -> In m2 p2 -> id m1 = id m2 ->
               inWindow m1 = true ->
               List.length (filter (fun m => String.eqb (id m) (id m1)) res) = 1%nat)
         /\ (forall i,
               (forall k p m, pageAt server tr k = Some p -> In m p -> id m = i ->
                              Discord.inWindow Date_parse fromDate
                                (effectiveTo toDate now) m = false) ->
               filter (fun m => String.eqb (id m) i) res = []).
Proof.
  destruct (run_cases Date_parse c server channelId userToken fromDate toDate now maxPages)
    as (sf & He & [(st & tr & Hw & Hr & HI & Hc)|(e & tr & Hw & Hr & HF)]).
  2:{ exists (Throw (wrapFetchError e)), tr. split; [exact Hr|]. intros res [=]. }
  exists (Normal (sorted st)), tr. split; [exact Hr|]. intros res [= <-].
  destruct (Inv_ids Date_parse server fromDate toDate now maxPages st tr HI) as [Hnd Hkey].
  assert (Hids : NoDup (map id (sorted st))).
  { eapply Permutation_NoDup.
    - apply Permutation_sym, Permutation_map, Array_sort_perm.
    - now rewrite values_ids. }
  assert (Hnone : forall i,
             (forall k p m, pageAt server tr k = Some p -> In m p -> id m = i ->
                            inWindow m = false) ->
             filter (fun m => String.eqb (id m) i) (sorted st) = []).
  { intros i Hout. apply filter_none. intros x Hx.
    apply Array_sort_In in Hx.
    destruct (Inv_values Date_parse server fromDate toDate now maxPages st tr x HI Hx)
      as (k & p & Hk & Hp & Hwin).
    destruct (String.eqb (id x) i) eqn:E; [|reflexivity].
    apply String.eqb_eq in E. rewrite (Hout k p x Hk Hp E) in Hwin. discriminate. }
  destruct HI as (Hall & Hno & Hlast & _).
  split; [exact Hids|]. split; [|split; [|exact Hnone]].
  - intros m Hin. apply Array_sort_In in Hin.
    unfold Map_values in Hin. apply in_map_iff in Hin as ([k v] & <- & Hin). simpl.
    pose proof (Hkey _ _ Hin) as Hk. simpl in Hk. subst k.
    pose proof (In_Map_get _ _ _ Hnd Hin) as Hget.
    rewrite Hall, Map_get_writeAll in Hget.
    destruct (lastWithId _ _); [exact Hget | discriminate].
  - intros k1 k2 p1 p2 m1 m2 Hlt Hk1 Hk2 Hm1 Hm2 Hid Hwin.
    assert (Hnoold : existsb isOld p1 = false).
    { destruct (existsb isOld p1) eqn:E; auto.
      pose proof (Hlast _ _ Hk1 E). pose proof (pageAt_bound _ _ _ _ Hk2). lia. }
    assert (Hwr : In m1 (runWrites Date_parse server fromDate eff tr)).
    { apply runWrites_In. exists k1, p1. split; auto.
      rewrite pageWrites_no_old by auto. apply filter_In. auto. }
    destruct (written_kept m1 _ Hwr) as (m' & Hin & Hid' & _).
    rewrite <- Hall in Hin.
    assert (Hres : In m' (sorted st)).
    { apply Array_sort_In. unfold Map_values.
      apply in_map_iff. exists (id m1, m'). auto. }
    rewrite <- Hid'. now apply (NoDup_one_match id).
Qed.

Local Abbreviation encoded :=
  (DateUtils.dateToDiscordSnowflake Date_parse (DateUtils.ArgDate eff)).
Local Abbreviation walk :=
  (walk Date_parse c server channelId userToken fromDate eff maxPages).

(** The first iteration of a run. *)
Lemma first_step (fuel : nat) (sf : option string) :
  0 < maxPages ->
  walk (S fuel) (initialState sf) []
  = match pageOutcome (server 0%nat (pageUrl c channelId sf None) userToken) with
    | Normal p =>
        walk fuel (afterPage Date_parse fromDate eff (initialState sf) p)
             [EvFetch (pageUrl c channelId sf None) userToken]
    | Throw e => Some (Throw e, [EvFetch (pageUrl c channelId sf None) userToken])
    end.
Proof.
  intros Hmax. rewrite walk_step; [reflexivity|].
  unfold walkCond. simpl. apply Z.ltb_lt in Hmax. now rewrite Hmax.
Qed.

(** A run whose first request is answered by a page and whose loop stops
    after it. *)
Lemma single_page_run (sf : option string) (p : list Message) :
  encoded = Normal sf ->
  0 < maxPages ->
  pageOf (server 0%nat (pageUrl c channelId sf None) userToken) = Some p ->
  walkCond maxPages
    (afterPage Date_parse fromDate eff (initialState sf) p) = false ->
  run []
  = Some (Normal (sorted (afterPage Date_parse fromDate eff (initialState sf) p)),
          [EvFetch (pageUrl c channelId sf None) userToken]).
Proof.
  intros He Hmax Hp Hstop. rewrite (run_eq _ _ _ _ _ _ _ _ _ sf [] He).
  destruct (Z.to_nat maxPages) as [|n] eqn:En; [lia|].
  rewrite first_step by exact Hmax.
  apply pageOutcome_Normal in Hp. rewrite Hp.
  now rewrite walk_stop.
Qed.

(** C5. A run ends after at most [maxPages] requests, and in a result
    whenever no request fails.  With [maxPages = 1] and a first reply that
    is a page, exactly one request is made and the run returns normally:
    every message of the result is a message of that page within the
    window, and when the page holds no old message every one of its
    messages in the window is represented in the result. *)
Theorem max_pages_bounds_fetches :
  (exists out tr,
      getAllMessagesBetweenDates Date_parse c server channelId userToken
        fromDate toDate now maxPages [] = Some (out, tr)
      /\ (fetchCount tr <= Z.to_nat maxPages)%nat
      /\ ((forall k u t, pageOf (server k u t) <> None) ->
          exists res, out = Normal res))
  /\ (maxPages = 1 ->
      forall sf p,
        DateUtils.dateToDiscordSnowflake Date_parse
          (DateUtils.ArgDate (effectiveTo toDate now)) = Normal sf ->
        pageOf (server 0%nat (pageUrl c channelId sf None) userToken) = Some p ->
        exists res,
          getAllMessagesBetweenDates Date_parse c server channelId userToken
            fromDate toDate now maxPages []
          = Some (Normal res, [EvFetch (pageUrl c channelId sf None) userToken])
          /\ fetchCount [EvFetch (pageUrl c channelId sf None) userToken] = 1%nat
          /\ (forall m, In m res -> In m p /\ InWindow m)
          /\ (existsb isOld p = false ->
              forall m, In m p -> inWindow m = true ->
                        exists m', In m' res /\ id m' = id m)).
Proof.
  split.
  - destruct (run_cases Date_parse c server channelId userToken fromDate toDate now maxPages)
      as (sf & He & [(st & tr & Hw & Hr & HI & Hc)|(e & tr & Hw & Hr & HF)]).
    + exists (Normal (sorted st)), tr. split; [exact Hr|]. split; [apply HI | eauto].
    + exists (Throw (wrapFetchError e)), tr. split; [exact Hr|]. split; [apply HF|].
      intros Hsrv. exfalso. destruct HF as (_ & _ & k & Hk & Hnone).
      destruct (pageAt_None tr k Hk Hnone) as (u & t & Hn). now apply (Hsrv k u t).
  - intros Hmax sf p He Hp.
    destruct (afterPage_cases Date_parse fromDate eff (initialState sf) p eq_refl)
      as (Hall & Hhit & Hcase).
    exists (sorted (afterPage Date_parse fromDate eff (initialState sf) p)).
    split; [|split; [reflexivity|split]].
    + apply single_page_run; auto; [lia|].
      unfold walkCond. destruct Hcase as [(Hpc & _)|(_ & Hm & _)].
      * rewrite Hpc, Hmax. simpl. now rewrite andb_false_r.
      * now rewrite Hm.
    + intros m Hin. apply Array_sort_In in Hin.
      unfold Map_values in Hin. apply in_map_iff in Hin as ([k v] & <- & Hin).
      rewrite Hall in Hin. simpl in Hin |- *.
      apply writeAll_In in Hin as [[]|Hin].
      apply pageWrites_In in Hin as [Hin Hwin].
      split; [exact Hin | now apply inWindow_InWindow].
    + intros Hnoold m Hin Hwin.
      assert (Hwr : In m (pageWrites Date_parse fromDate eff p)).
      { rewrite pageWrites_no_old by auto. apply filter_In. auto. }
      destruct (written_kept m _ Hwr) as (m' & Hin' & Hid & _).
      exists m'. split; auto. apply Array_sort_In. unfold Map_values.
      apply in_map_iff. exists (id m, m'). split; auto.
      rewrite Hall. exact Hin'.
Qed.

(** C8, as the code has it.  When the effective end date is an invalid
    [Date], [dateToDiscordSnowflake] returns the null sentinel,
    [getAllMessagesBetweenDates] does not test for it and hands it to
    [fetchMessagesPage], and the first page request goes out without a
    [before] parameter; no message enters the accumulator, so a run that
    returns normally returns the empty sequence. *)
Theorem null_cursor_still_fetches :
  effectiveTo toDate now = InvalidDate ->
  0 < maxPages ->
  DateUtils.dateToDiscordSnowflake Date_parse
    (DateUtils.ArgDate (effectiveTo toDate now)) = Normal None
  /\ exists out rest,
       getAllMessagesBetweenDates Date_parse c server channelId userToken
         fromDate toDate now maxPages []
       = Some (out,
               EvFetch (apiBase c ++ "/channels/" ++ channelId ++ "/messages?limit=100")%string
                       userToken :: rest)
       /\ forall res, out = Normal res -> res = [].
Proof.
  intros Heff Hmax.
  assert (Henc : encoded = Normal None).
  { rewrite CodecFacts.dateToDiscordSnowflake_date, Heff. reflexivity. }
  split; [exact Henc|].
  assert (Hfirst : forall out tr,
             walk (Z.to_nat maxPages) (initialState None) [] = Some (out, tr) ->
             exists rest,
               tr = EvFetch (apiBase c ++ "/channels/" ++ channelId
                             ++ "/messages?limit=100")%string userToken :: rest).
  { intros out tr H.
    destruct (Z.to_nat maxPages) as [|n] eqn:En; [lia|].
    rewrite first_step in H by exact Hmax.
    change (pageUrl c channelId None None)
      with (apiBase c ++ "/channels/" ++ channelId ++ "/messages?limit=100")%string in H.
    destruct (pageOutcome _).
    - apply walk_extends in H as [ext ->]. now exists ext.
    - injection H as _ <-. now exists []. }
  destruct (run_cases Date_parse c server channelId userToken fromDate toDate now maxPages)
    as (sf & He & [(st & tr & Hw & Hr & HI & Hc)|(e & tr & Hw & Hr & HF)]);
    rewrite Henc in He; injection He as <-;
    destruct (Hfirst _ _ Hw) as [rest ->].
  - exists (Normal (sorted st)), rest. split; [exact Hr|].
    intros res [= <-]. destruct (sorted st) as [|m r] eqn:Es; auto. exfalso.
    assert (Hin : In m (sorted st)) by (rewrite Es; now left).
    destruct (result_In st _ m HI Hin) as (k & p & _ & _ & Hwin).
    destruct Hwin as (t & f & e & _ & _ & He & _).
    rewrite Heff in He. discriminate.
  - exists (Throw (wrapFetchError e)), rest. split; [exact Hr|]. intros res [=].
Qed.

End Run.

End WindowFacts.

(** ** The fetcher's errors and the prompt formatter *)

Module FetcherFacts.

Import Discord RunFacts.

(** An integer of magnitude up to 2^53 is its own Number value. *)
Lemma roundToDouble_small (n : Z) :
  Z.abs n <= 2 ^ 53 -> roundToDouble n = Num n.
Proof.
  intros H. unfold roundToDouble.
  destruct (Z.leb_spec (Z.abs n) (2 ^ 53)); [reflexivity | lia].
Qed.

(** [parseInt(h, 10) || 5] is the leading integer of [h] when that is not
    zero and of magnitude up to 2^53. *)
Lemma retryAfter_exact (h : string) (n : Z) :
  leadingInteger h = Some n -> n <> 0 -> Z.abs n <= 2 ^ 53 ->
  numberOr (parseInt10 h) (Num 5) = Num n.
Proof.
  intros Hp Hn Hle. unfold parseInt10. rewrite Hp, (roundToDouble_small n Hle).
  cbn [numberOr]. destruct (Z.eqb_spec n 0); [contradiction | reflexivity].
Qed.

(** Beyond 2^53 the Number value is the nearest double, ties to even. *)
Lemma roundToDouble_nearest (n : Z) :
  2 ^ 53 < Z.abs n -> NearestDouble n (roundToDouble n).
Proof.
  intros Hn. unfold roundToDouble, NearestDouble.
  destruct (Z.leb_spec (Z.abs n) (2 ^ 53)) as [H|_]; [lia|].
  remember (Z.abs n) as a eqn:Ea.
  assert (Ha : 0 < a) by lia.
  destruct (Z.log2_spec a Ha) as [Hlo Hhi].
  remember (Z.log2 a) as e eqn:Ee.
  assert (He : 53 <= e).
  { destruct (Z.lt_ge_cases e 53) as [Hlt|]; [exfalso|assumption].
    assert (2 ^ Z.succ e <= 2 ^ 53) by (apply Z.pow_le_mono_r; lia). lia. }
  remember (2 ^ (e - 52)) as u eqn:Eu.
  assert (Hu : 0 < u) by (subst u; apply Z.pow_pos_nonneg; lia).
  pose proof (Z.div_mod a u ltac:(lia)) as Hdm.
  pose proof (Z.mod_pos_bound a u Hu) as Hr.
  remember (a / u) as q eqn:Eq. remember (a mod u) as r eqn:Er.
  assert (Hbig : 1024 <= e -> 2 ^ 1024 <= a).
  { intros Hle. assert (2 ^ 1024 <= 2 ^ e) by (apply Z.pow_le_mono_r; lia). lia. }
  assert (Hsmall : e < 1024 -> u <= 2 ^ 971).
  { intros Hlt. subst u. apply Z.pow_le_mono_r; lia. }
  assert (Hinf : forall q', 2 * Z.abs (q' * u - a) <= u -> 2 ^ 1024 <= q' * u ->
                            2 ^ 1024 - 2 ^ 970 <= a).
  { intros q' Hn' Hq'. destruct (Z.lt_ge_cases e 1024) as [Hlt|Hge].
    - specialize (Hsmall Hlt). lia.
    - specialize (Hbig Hge). lia. }
  assert (Hcase : forall q', 2 * Z.abs (q' * u - a) <= u ->
            (2 * Z.abs (q' * u - a) = u -> Z.even q' = true) ->
            match (if 2 ^ 1024 <=? q' * u then Infinity (n <? 0)
                   else Num (Z.sgn n * (q' * u))) with
            | NaN => False
            | Num m => exists q0, m = Z.sgn n * (q0 * u)
                         /\ 2 * Z.abs (q0 * u - a) <= u
                         /\ (2 * Z.abs (q0 * u - a) = u -> Z.even q0 = true)
                         /\ q0 * u < 2 ^ 1024
            | Infinity negative => negative = (n <? 0) /\ 2 ^ 1024 - 2 ^ 970 <= a
            end).
  { intros q' Hn' Hev. destruct (Z.leb_spec (2 ^ 1024) (q' * u)) as [Hov|Hov].
    - split; [reflexivity | now apply (Hinf q')].
    - exists q'. auto. }
  destruct (Z.ltb_spec (2 * r) u) as [H1|H1].
  - apply Hcase; lia.
  - destruct (Z.ltb_spec u (2 * r)) as [H2|H2].
    + apply Hcase; lia.
    + destruct (Z.even q) eqn:Hq.
      * apply Hcase; [lia | auto].
      * apply Hcase; [lia|]. intros _.
        rewrite Z.even_add, Hq. reflexivity.
Qed.

(** From 2^1024 on the Number value is an infinity. *)
Lemma roundToDouble_infinite (n : Z) :
  2 ^ 1024 <= Z.abs n -> roundToDouble n = Infinity (n <? 0).
Proof.
  intros Hn. pose proof (roundToDouble_nearest n ltac:(lia)) as H.
  unfold NearestDouble in H.
  destruct (roundToDouble n) as [|m|negative]; [destruct H| |now destruct H as [-> _]].
  exfalso. destruct H as (q & _ & Hnear & _ & Hlt).
  remember (Z.abs n) as a eqn:Ea.
  assert (Ha : 0 < a) by lia.
  destruct (Z.log2_spec a Ha) as [Hlo Hhi].
  remember (Z.log2 a) as e eqn:Ee.
  assert (He : 1024 <= e).
  { destruct (Z.lt_ge_cases e 1024) as [Hlt'|]; [exfalso|assumption].
    assert (2 ^ Z.succ e <= 2 ^ 1024) by (apply Z.pow_le_mono_r; lia). lia. }
  assert (Hu : 0 < 2 ^ (e - 52)) by (apply Z.pow_pos_nonneg; lia).
  assert (Hsplit : 2 ^ e = 2 ^ 52 * 2 ^ (e - 52)).
  { rewrite <- Z.pow_add_r by lia. f_equal. lia. }
  assert (Hle : 2 ^ 1024 <= 2 ^ e) by (apply Z.pow_le_mono_r; lia).
  remember (2 ^ (e - 52)) as u eqn:Eu.
  assert (Hq : q < 2 ^ 52) by nia.
  assert (Hq' : (q + 1) * u <= 2 ^ 52 * u) by nia.
  lia.
Qed.

(** C6, as the code has it.  A response with status 429 makes the fetcher
    throw the rate-limit object, whose [retryAfter] is the Number that
    [parseInt] returns for the [Retry-After] header: 5 when the header is
    absent, empty or without a leading integer, and also when that integer
    is zero; else the leading integer itself when its magnitude is at most
    2^53, the double nearest to it beyond, an infinity from 2^1024 on.  The
    header [12] gives 12; the header [9007199254740993] gives
    9007199254740992. *)
Theorem rate_limit_retry_after {A} (r : Response A) :
  status r = 429 ->
  exists v,
    handleResponse r = Throw (RateLimitObject 429 v "Rate limited by Discord API")
    /\ (retryAfterHeader r = None -> v = Num 5)
    /\ (forall h, retryAfterHeader r = Some h -> leadingInteger h = None -> v = Num 5)
    /\ (forall h, retryAfterHeader r = Some h -> leadingInteger h = Some 0 -> v = Num 5)
    /\ (forall h n, retryAfterHeader r = Some h -> leadingInteger h = Some n ->
                    n <> 0 -> Z.abs n <= 2 ^ 53 -> v = Num n)
    /\ (forall h n, retryAfterHeader r = Some h -> leadingInteger h = Some n ->
                    2 ^ 53 < Z.abs n -> NearestDouble n v)
    /\ (forall h n, retryAfterHeader r = Some h -> leadingInteger h = Some n ->
                    2 ^ 1024 <= Z.abs n -> v = Infinity (n <? 0))
    /\ (retryAfterHeader r = Some "12"%string -> v = Num 12)
    /\ (retryAfterHeader r = Some "9007199254740993"%string ->
        v = Num 9007199254740992).
Proof.
  intros Hs.
  exists (numberOr (parseInt10 (stringOr (retryAfterHeader r) "5")) (Num 5)).
  split.
  - unfold handleResponse, ok. rewrite Hs. reflexivity.
  - assert (Hhdr : forall h n, leadingInteger h = Some n -> n <> 0 ->
               numberOr (parseInt10 (stringOr (Some h) "5")) (Num 5)
               = roundToDouble n
               /\ forall m, roundToDouble n = Num m -> m <> 0).
    { intros h n Hp Hn0. destruct h; [discriminate|].
      cbn [stringOr truthy]. unfold parseInt10. rewrite Hp.
      destruct (Z.le_gt_cases (Z.abs n) (2 ^ 53)) as [Hle|Hgt].
      - rewrite (roundToDouble_small n Hle). cbn [numberOr].
        destruct (Z.eqb_spec n 0); [contradiction|]. split; [reflexivity|].
        now intros m [= <-].
      - pose proof (roundToDouble_nearest n Hgt) as Hnear.
        destruct (roundToDouble n) as [|m|negative] eqn:E; [destruct Hnear| |auto].
        + assert (Hm : m <> 0).
          { destruct Hnear as (q & -> & Hq & _).
            assert (He : 53 <= Z.log2 (Z.abs n)).
            { change 53 with (Z.log2 (2 ^ 53)). apply Z.log2_le_mono. lia. }
            destruct (Z.log2_spec (Z.abs n)) as [Hlo _]; [lia|].
            assert (Hsplit : 2 ^ Z.log2 (Z.abs n)
                             = 2 ^ 52 * 2 ^ (Z.log2 (Z.abs n) - 52)).
            { rewrite <- Z.pow_add_r by lia. f_equal. lia. }
            remember (2 ^ (Z.log2 (Z.abs n) - 52)) as u eqn:Eu.
            assert (Hu : 0 < u) by (subst u; apply Z.pow_pos_nonneg; lia).
            assert (0 < q * u) by nia.
            destruct n; simpl Z.sgn; lia. }
          cbn [numberOr]. destruct (Z.eqb_spec m 0); [contradiction|].
          split; [reflexivity|]. now intros m' [= <-].
        + split; [reflexivity|]. intros m [=]. }
    repeat split.
    + intros ->. reflexivity.
    + intros h -> Hp. destruct h; [reflexivity|].
      cbn [stringOr truthy]. unfold parseInt10. now rewrite Hp.
    + intros h -> Hp. destruct h; [reflexivity|].
      cbn [stringOr truthy]. unfold parseInt10. now rewrite Hp.
    + intros h n -> Hp Hn Hle. rewrite (proj1 (Hhdr h n Hp Hn)).
      now apply roundToDouble_small.
    + intros h n -> Hp Hgt. rewrite (proj1 (Hhdr h n Hp ltac:(lia))).
      now apply roundToDouble_nearest.
    + intros h n -> Hp Hge. rewrite (proj1 (Hhdr h n Hp ltac:(lia))).
      now apply roundToDouble_infinite.
    + intros ->. reflexivity.
    + intros ->. vm_compute. reflexivity.
Qed.

Lemma rate_limit_retry_after_witness :
  status (Samples.rateLimited (Some "12"%string)) = 429
  /\ status (Samples.rateLimited (Some "9007199254740993"%string)) = 429
  /\ handleResponse (Samples.rateLimited (Some "12"%string))
     = Throw (RateLimitObject 429 (Num 12) "Rate limited by Discord API")
  /\ handleResponse (Samples.rateLimited (Some "9007199254740993"%string))
     = Throw (RateLimitObject 429 (Num 9007199254740992) "Rate limited by Discord API").
Proof.
  assert (Hs : status (Samples.rateLimited (Some "12"%string)) = 429) by reflexivity.
  assert (Hs' : status (Samples.rateLimited (Some "9007199254740993"%string)) = 429)
    by reflexivity.
  split; [exact Hs|]. split; [exact Hs'|].
  destruct (rate_limit_retry_after (Samples.rateLimited (Some "12"%string)) Hs)
    as (v & Hv & _ & _ & _ & _ & _ & _ & H12 & _).
  destruct (rate_limit_retry_after
              (Samples.rateLimited (Some "9007199254740993"%string)) Hs')
    as (v' & Hv' & _ & _ & _ & _ & _ & _ & _ & Hbig).
  split.
  - rewrite Hv. now rewrite (H12 eq_refl).
  - rewrite Hv'. now rewrite (Hbig eq_refl).
Defined.

(** The header [0] is present and [parseInt] reads the integer 0 from it,
    yet the rate-limit object carries 5: the value is not always the one
    parsed from the header. *)
Lemma rate_limit_zero_header_counterexample :
  ~ (forall r : Response (list Message),
       status r = 429 ->
       forall h n, retryAfterHeader r = Some h -> parseInt10 h = Num n ->
         handleResponse r
         = Throw (RateLimitObject 429 (Num n) "Rate limited by Discord API")).
Proof.
  intros H.
  specialize (H (Samples.rateLimited (Some "0"%string)) eq_refl "0"%string 0
                eq_refl eq_refl).
  vm_compute in H. discriminate.
Qed.

(** A failed run throws the wrapper built in the [catch], and every request
    of a run that returns delivered a page. *)
Lemma failure_is_wrapped (Date_parse : string -> option Z) (c : Client)
    (server : Server) (channelId userToken : string) (fromDate : Date)
    (toDate : option Date) (now maxPages : Z) :
  exists out tr,
    getAllMessagesBetweenDates Date_parse c server channelId userToken
      fromDate toDate now maxPages [] = Some (out, tr)
    /\ ((exists k, (k < List.length (fetches tr))%nat /\ pageAt server tr k = None) ->
        exists cause, out = Throw (wrapFetchError cause))
    /\ (forall e, out = Throw e -> exists cause, e = wrapFetchError cause).
Proof.
  destruct (run_cases Date_parse c server channelId userToken fromDate toDate now maxPages)
    as (sf & He & [(st & tr & Hw & Hr & HI & Hc)|(e & tr & Hw & Hr & HF)]).
  - eexists _, tr. split; [exact Hr|]. split.
    + intros (k & Hk & Hnone). destruct HI as (_ & _ & _ & Hdel & _).
      now elim (Hdel k Hk).
    + intros e [=].
  - eexists _, tr. split; [exact Hr|]. split; eauto.
    intros e' [= <-]. eauto.
Qed.

(** An error object keeps its message in the wrapper. *)
Lemma wrapFetchError_Error (name message : string) :
  wrapFetchError (ErrorObject name message)
  = ErrorObject "Error" ("Failed to fetch messages: " ++ message)%string.
Proof. reflexivity. Qed.

(** C7, at a rate-limited request.  [fetchMessagesPage] throws the
    rate-limit object with its [retryAfter] of 12, and
    [getAllMessagesBetweenDates] replaces it by an error whose message is
    "Failed to fetch messages: Unknown error": status, delay and message
    of the cause are gone.  At status 401 the message of the cause is kept
    in the wrapper. *)
Theorem rate_limit_cause_lost :
  fetchMessagesPage Samples.client (Samples.failingServer 429 (Some "12"%string))
    "42" "token" (Some "1216354870886400000"%string) None []
  = Some (Throw (RateLimitObject 429 (Num 12) "Rate limited by Discord API"),
          [EvFetch "https://discord.com/api/v9/channels/42/messages?limit=100&before=1216354870886400000"
                   "token"])
  /\ getAllMessagesBetweenDates Samples.Date_parse_iso Samples.client
       (Samples.failingServer 429 (Some "12"%string)) "42" "token"
       (Samples.dateOf "2024-03-10T00:00:00.000Z") None 1710072000000 50 []
     = Some (Throw (ErrorObject "Error" "Failed to fetch messages: Unknown error"),
             [EvFetch "https://discord.com/api/v9/channels/42/messages?limit=100&before=1216354870886400000"
                      "token"])
  /\ getAllMessagesBetweenDates Samples.Date_parse_iso Samples.client
       (Samples.failingServer 401 None) "42" "token"
       (Samples.dateOf "2024-03-10T00:00:00.000Z") None 1710072000000 50 []
     = Some (Throw (ErrorObject "Error"
                      "Failed to fetch messages: Invalid Discord token. Please check your credentials."),
             [EvFetch "https://discord.com/api/v9/channels/42/messages?limit=100&before=1216354870886400000"
                      "token"]).
Proof. repeat split; vm_compute; reflexivity. Qed.

Lemma append_nil_r (s : string) : (s ++ "")%string = s.
Proof. induction s as [|a s IH]; simpl; [reflexivity | now rewrite IH]. Qed.

Lemma append_assoc (s1 s2 s3 : string) :
  ((s1 ++ s2) ++ s3)%string = (s1 ++ (s2 ++ s3))%string.
Proof. induction s1 as [|a s1 IH]; simpl; [reflexivity | now rewrite IH]. Qed.

(** C10. [formatMessagesForPrompt] of no message is the empty string; a
    message without author, or without content or with empty content, is
    dropped; a message with both gives the line "username: content", the
    content trimmed, followed, when any of the messages after it is kept,
    by one line feed (the character of code 10) and the lines of those
    messages, in the order of the input; the example of two messages gives
    exactly "a: hi", and two kept messages give their two lines with one
    line feed between them. *)
Theorem formatMessagesForPrompt_spec :
  formatMessagesForPrompt [] = ""%string
  /\ (forall m l,
        author m = None \/ content m = None \/ content m = Some ""%string ->
        formatMessagesForPrompt (m :: l) = formatMessagesForPrompt l)
  /\ (forall m l a c,
        author m = Some a -> content m = Some c -> c <> ""%string ->
        formatMessagesForPrompt (m :: l)
        = (username a ++ ": " ++ trim c
           ++ match filter keepForPrompt l with
              | [] => ""
              | _ :: _ => String "010" (formatMessagesForPrompt l)
              end)%string)
  /\ formatMessagesForPrompt Samples.promptSample = "a: hi"%string
  /\ formatMessagesForPrompt [Samples.sampleMessage 1; Samples.sampleMessage 0]
     = ("user1: message 1" ++ String "010" "user0: message 0")%string.
Proof.
  split; [reflexivity|]. split; [|split; [|split; reflexivity]].
  - intros m l H. unfold formatMessagesForPrompt. simpl.
    replace (keepForPrompt m) with false; auto.
    unfold keepForPrompt. destruct H as [H|[H|H]]; rewrite H; auto;
      destruct (author m); auto.
  - intros m l a c Ha Hc Hne. unfold formatMessagesForPrompt. simpl.
    replace (keepForPrompt m) with true.
    2:{ unfold keepForPrompt. rewrite Ha, Hc. destruct c; auto. contradiction. }
    assert (Hline : promptLine m = (username a ++ ": " ++ trim c)%string)
      by (unfold promptLine; now rewrite Ha, Hc).
    simpl map. cbn [String.concat]. rewrite Hline.
    destruct (filter keepForPrompt l) as [|x r].
    + rewrite (append_nil_r (trim c)). reflexivity.
    + cbn [map]. rewrite !append_assoc. reflexivity.
Qed.

Lemma formatMessagesForPrompt_spec_witness :
  (author (nth 1 Samples.promptSample (Samples.sampleMessage 0)) = None
   /\ formatMessagesForPrompt (skipn 1 Samples.promptSample) = ""%string)
  /\ (author (Samples.sampleMessage 0) = Some {| username := "user0" |}
      /\ content (Samples.sampleMessage 0) = Some "message 0"%string
      /\ formatMessagesForPrompt [Samples.sampleMessage 0; Samples.sampleMessage 1]
         = ("user0: message 0" ++ String "010" "user1: message 1")%string).
Proof.
  destruct formatMessagesForPrompt_spec as (_ & Hdrop & Hkeep & _).
  split.
  - split; [reflexivity|].
    exact (Hdrop (nth 1 Samples.promptSample (Samples.sampleMessage 0)) []
                 (or_introl eq_refl)).
  - split; [reflexivity|]. split; [reflexivity|].
    rewrite (Hkeep (Samples.sampleMessage 0) [Samples.sampleMessage 1]
                   {| username := "user0" |} "message 0"%string eq_refl eq_refl)
      by discriminate.
    reflexivity.
Defined.

End FetcherFacts.

(** ** Runs on the sample channel *)

Module SampleRuns.

Import Discord Samples WindowFacts.

Local Abbreviation m0 := (sampleMessage 0).
Local Abbreviation m1 := (sampleMessage 1).
Local Abbreviation m2 := (sampleMessage 2).
Local Abbreviation midnight := (dateOf "2024-03-10T00:00:00.000Z").
Local Abbreviation noon := 1710072000000.
Local Abbreviation firstUrl :=
  "https://discord.com/api/v9/channels/42/messages?limit=100&before=1216354870886400000"%string.

(** The timestamps of the sample channel parse to the intended times. *)
Example sample_timestamps :
  map (msgTimeOf Date_parse_iso) [m0; m1; sampleMessage 220; sampleMessage 719]
  = map (fun i => Some (sampleTime i)) [0; 1; 220; 719]%nat.
Proof. reflexivity. Qed.

(** The walk over three pages: the third page holds the first message
    older than 08:19, the walk stops after it, and the 221 messages from
    08:19 on are returned, oldest first. *)
Example three_page_walk :
  match getAllMessagesBetweenDates Date_parse_iso client pagingServer "42" "token"
          (dateOf "2024-03-10T08:19:00.000Z") (Some (dateOf "2024-03-10T12:00:00.000Z"))
          noon 50 [] with
  | Some (Normal res, tr) =>
      fetchCount tr = 3%nat
      /\ res = rev (map sampleMessage (seq 0 221))
  | _ => False
  end.
Proof. vm_compute. split; reflexivity. Qed.



(** The requests of the walk over pages that overlap. *)
Lemma overlapping_walk_trace :
  exists res,
    getAllMessagesBetweenDates Date_parse_iso client overlappingServer "42" "token"
      (dateOf "2024-03-10T08:19:00.000Z") None noon 50 []
    = Some (Normal res,
            [EvFetch firstUrl "token";
             EvDelay 500;
             EvFetch (pageUrl client "42" (Some (id (sampleMessage 99))) None) "token";
             EvDelay 500;
             EvFetch (pageUrl client "42" (Some (id (sampleMessage 198))) None) "token"]).
Proof. eexists. vm_compute. reflexivity. Qed.

(** Two pages that share message 99: it has one entry in the result. *)
Lemma one_entry_per_id_witness :
  exists res tr,
    getAllMessagesBetweenDates Date_parse_iso client overlappingServer "42" "token"
      (dateOf "2024-03-10T08:19:00.000Z") None noon 50 [] = Some (Normal res, tr)
    /\ In (sampleMessage 99) (map sampleMessage (seq 0 100))
    /\ In (sampleMessage 99) (map sampleMessage (seq 99 100))
    /\ NoDup (map id res)
    /\ List.length (filter (fun m => String.eqb (id m) (id (sampleMessage 99))) res) = 1%nat.
Proof.
  destruct (one_entry_per_id Date_parse_iso client overlappingServer
              "42" "token" (dateOf "2024-03-10T08:19:00.000Z") None noon 50)
    as (out & tr & Hr & H).
  destruct overlapping_walk_trace as [res E].
  rewrite E in Hr. injection Hr as <- <-.
  destruct (H res eq_refl) as (Hnd & _ & Hone & _).
  assert (H1 : In (sampleMessage 99) (map sampleMessage (seq 0 100)))
    by (apply in_map, in_seq; lia).
  assert (H2 : In (sampleMessage 99) (map sampleMessage (seq 99 100)))
    by (apply in_map, in_seq; lia).
  exists res. eexists. split; [exact E|]. split; [exact H1|]. split; [exact H2|].
  split; [exact Hnd|].
  apply (Hone 0%nat 1%nat (map sampleMessage (seq 0 100))
              (map sampleMessage (seq 99 100)) (sampleMessage 99) (sampleMessage 99)).
  - lia.
  - reflexivity.
  - reflexivity.
  - exact H1.
  - exact H2.
  - reflexivity.
  - vm_compute. reflexivity.
Defined.

(** Message 99 stands in the first two pages delivered, but it is of
    10:20, after the end date 09:00: it is never written, and the result
    has no entry of its id, not one. *)
Lemma duplicate_outside_window_counterexample :
  exists res tr,
    getAllMessagesBetweenDates Date_parse_iso client overlappingServer "42" "token"
      (dateOf "2024-03-10T08:19:00.000Z") (Some (dateOf "2024-03-10T09:00:00.000Z"))
      noon 50 [] = Some (Normal res, tr)
    /\ pageAt overlappingServer tr 0 = Some (map sampleMessage (seq 0 100))
    /\ pageAt overlappingServer tr 1 = Some (map sampleMessage (seq 99 100))
    /\ In (sampleMessage 99) (map sampleMessage (seq 0 100))
    /\ In (sampleMessage 99) (map sampleMessage (seq 99 100))
    /\ List.length (filter (fun m => String.eqb (id m) (id (sampleMessage 99))) res)
       = 0%nat.
Proof.
  eexists. eexists. split; [vm_compute; reflexivity|].
  split; [reflexivity|]. split; [reflexivity|].
  split; [apply in_map, in_seq; lia|]. split; [apply in_map, in_seq; lia|].
  vm_compute. reflexivity.
Qed.

Lemma max_pages_bounds_fetches_witness :
  1 = 1
  /\ DateUtils.dateToDiscordSnowflake Date_parse_iso
       (DateUtils.ArgDate (effectiveTo None noon))
     = Normal (Some "1216354870886400000"%string)
  /\ pageOf (pagingServer 0%nat firstUrl "token") = Some (map sampleMessage (seq 0 100))
  /\ exists res,
       getAllMessagesBetweenDates Date_parse_iso client pagingServer "42" "token"
         midnight None noon 1 [] = Some (Normal res, [EvFetch firstUrl "token"])
       /\ forall m, In m res -> In m (map sampleMessage (seq 0 100)).
Proof.
  assert (He : DateUtils.dateToDiscordSnowflake Date_parse_iso
                 (DateUtils.ArgDate (effectiveTo None noon))
               = Normal (Some "1216354870886400000"%string))
    by (vm_compute; reflexivity).
  assert (Hp : pageOf (pagingServer 0%nat firstUrl "token")
               = Some (map sampleMessage (seq 0 100))) by reflexivity.
  split; [reflexivity|]. split; [exact He|]. split; [exact Hp|].
  destruct (proj2 (max_pages_bounds_fetches Date_parse_iso client pagingServer
                     "42" "token" midnight None noon 1)
                  eq_refl (Some "1216354870886400000"%string)
                  (map sampleMessage (seq 0 100)) He Hp)
    as (res & Hr & _ & Hin & _).
  exists res. split; [exact Hr|]. intros m Hm. exact (proj1 (Hin m Hm)).
Defined.

Lemma null_cursor_still_fetches_witness :
  effectiveTo (Some InvalidDate) noon = InvalidDate
  /\ 0 < 50
  /\ exists out rest,
       getAllMessagesBetweenDates Date_parse_iso client shortServer "42" "token"
         midnight (Some InvalidDate) noon 50 []
       = Some (out,
               EvFetch (apiBase client ++ "/channels/" ++ "42" ++ "/messages?limit=100")%string
                       "token" :: rest)
       /\ forall res, out = Normal res -> res = [].
Proof.
  assert (H1 : effectiveTo (Some InvalidDate) noon = InvalidDate) by reflexivity.
  assert (H2 : 0 < 50) by lia.
  split; [exact H1|]. split; [exact H2|].
  exact (proj2 (null_cursor_still_fetches Date_parse_iso client shortServer
                  "42" "token" midnight (Some InvalidDate) noon 50 H1 H2)).
Defined.

(** The end date is an invalid [Date]: the codec returns the sentinel, and
    the walk still requests three pages, the first one without a cursor. *)
Lemma null_cursor_not_checked_counterexample :
  DateUtils.dateToDiscordSnowflake Date_parse_iso
    (DateUtils.ArgDate (effectiveTo (Some InvalidDate) noon)) = Normal None
  /\ exists tr,
       getAllMessagesBetweenDates Date_parse_iso client pagingServer "42" "token"
         (dateOf "2024-03-10T08:19:00.000Z") (Some InvalidDate) noon 50 []
       = Some (Normal [], tr)
       /\ hd_error tr
          = Some (EvFetch "https://discord.com/api/v9/channels/42/messages?limit=100"
                          "token")
       /\ fetchCount tr = 3%nat.
Proof.
  split; [reflexivity|].
  eexists. split; [vm_compute; reflexivity|]. split; reflexivity.
Qed.

End SampleRuns.

(** * Further properties *)

(** ** The codec on arbitrary cursors, and the checks on dates *)

Module CodecMore.

Import DateUtils DateUtilsMore CodecFacts.

(** Decoding the decimal rendering of any integer. *)
Lemma snowflakeToDate_numeric (z : Z) :
  snowflakeToDate (toStringZ z)
  = Normal (match TimeClip (Z.shiftr z 22 + DISCORD_EPOCH) with
            | InvalidDate => None
            | TimeValue t => Some (TimeValue t)
            end).
Proof.
  unfold snowflakeToDate. rewrite truthy_toStringZ. cbn [negb].
  unfold BigInt_ofString. rewrite StringToBigInt_toStringZ. cbn [bind try_catch].
  unfold Date_ofBigIntNumber. destruct (TimeClip _); reflexivity.
Qed.

Lemma shiftr_shiftl_add (a w : Z) :
  0 <= w < 2 ^ 22 -> Z.shiftr (Z.shiftl a 22 + w) 22 = a.
Proof.
  intros Hw. rewrite Z.shiftr_div_pow2, Z.shiftl_mul_pow2 by lia.
  rewrite Z.div_add_l by lia. rewrite Z.div_small by lia. lia.
Qed.

(** X1. Every id minted in a millisecond decodes to that millisecond: the
    cursor of a date plus any value of the 22 low bits (worker, process and
    sequence numbers) is decoded to the date itself. *)
Theorem id_of_a_millisecond_decodes_to_it (t w : Z) :
  - maxTimeValue <= t <= maxTimeValue ->
  0 <= w < 2 ^ 22 ->
  snowflakeToDate (toStringZ (Z.shiftl (t - DISCORD_EPOCH) 22 + w))
  = Normal (Some (TimeValue t)).
Proof.
  intros Ht Hw. rewrite snowflakeToDate_numeric, (shiftr_shiftl_add _ _ Hw).
  replace (t - DISCORD_EPOCH + DISCORD_EPOCH) with t by lia.
  now rewrite (TimeClip_in_range t Ht).
Qed.

(** The id of a message of 2024 decodes to its creation time. *)
Lemma id_of_a_millisecond_decodes_to_it_witness :
  (- maxTimeValue <= 1710071940000 <= maxTimeValue)
  /\ (0 <= 1234567 < 2 ^ 22)
  /\ snowflakeToDate "1216354619229394567" = Normal (Some (TimeValue 1710071940000)).
Proof.
  assert (H1 : - maxTimeValue <= 1710071940000 <= maxTimeValue)
    by (unfold maxTimeValue; lia).
  assert (H2 : 0 <= 1234567 < 2 ^ 22) by lia.
  split; [exact H1|]. split; [exact H2|].
  exact (id_of_a_millisecond_decodes_to_it 1710071940000 1234567 H1 H2).
Defined.

(** X2. Every cursor that fits in 64 bits decodes to a date, never to the
    sentinel: a date from the Discord epoch on and less than 2^42 ms after
    it. *)
Theorem sixty_four_bit_cursor_decodes (z : Z) :
  0 <= z < 2 ^ 64 ->
  exists t,
    snowflakeToDate (toStringZ z) = Normal (Some (TimeValue t))
    /\ t = Z.shiftr z 22 + DISCORD_EPOCH
    /\ DISCORD_EPOCH <= t < DISCORD_EPOCH + 2 ^ 42.
Proof.
  intros Hz. exists (Z.shiftr z 22 + DISCORD_EPOCH).
  assert (Hs : 0 <= Z.shiftr z 22 < 2 ^ 42).
  { rewrite Z.shiftr_div_pow2 by lia. split.
    - apply Z.div_pos; lia.
    - apply Z.div_lt_upper_bound; lia. }
  rewrite snowflakeToDate_numeric, TimeClip_in_range.
  - repeat split; lia.
  - unfold maxTimeValue, DISCORD_EPOCH. lia.
Qed.

Lemma sixty_four_bit_cursor_decodes_witness :
  (0 <= 18446744073709551615 < 2 ^ 64)
  /\ exists t,
       snowflakeToDate "18446744073709551615" = Normal (Some (TimeValue t))
       /\ t = Z.shiftr 18446744073709551615 22 + DISCORD_EPOCH
       /\ DISCORD_EPOCH <= t < DISCORD_EPOCH + 2 ^ 42.
Proof.
  assert (H : 0 <= 18446744073709551615 < 2 ^ 64) by lia.
  split; [exact H|]. exact (sixty_four_bit_cursor_decodes 18446744073709551615 H).
Defined.

(** X3. A numeric cursor whose time lies beyond what a [Date] can hold is
    decoded to the sentinel. *)
Theorem cursor_beyond_date_range_is_null (z : Z) :
  maxTimeValue < Z.abs (Z.shiftr z 22 + DISCORD_EPOCH) ->
  snowflakeToDate (toStringZ z) = Normal None.
Proof.
  intros H. rewrite snowflakeToDate_numeric. unfold TimeClip.
  destruct (Z.abs _ <=? maxTimeValue) eqn:E; auto.
  apply Z.leb_le in E. lia.
Qed.

Lemma cursor_beyond_date_range_is_null_witness :
  maxTimeValue < Z.abs (Z.shiftr (2 ^ 80) 22 + DISCORD_EPOCH)
  /\ snowflakeToDate "1208925819614629174706176" = Normal None.
Proof.
  assert (H : maxTimeValue < Z.abs (Z.shiftr (2 ^ 80) 22 + DISCORD_EPOCH))
    by (vm_compute; reflexivity).
  split; [exact H|]. exact (cursor_beyond_date_range_is_null (2 ^ 80) H).
Defined.

Section WithHost.

Variable Date_parse : string -> option Z.

(** X4. The encoding follows time: a later date has a larger cursor, by at
    least 2^22 for every millisecond. *)
Theorem later_date_larger_cursor (t1 t2 : Z) :
  - maxTimeValue <= t1 -> t1 < t2 -> t2 <= maxTimeValue ->
  exists s1 s2 z1 z2,
    dateToDiscordSnowflake Date_parse (ArgDate (TimeValue t1)) = Normal (Some s1)
    /\ dateToDiscordSnowflake Date_parse (ArgDate (TimeValue t2)) = Normal (Some s2)
    /\ StringToBigInt s1 = Some z1 /\ StringToBigInt s2 = Some z2
    /\ z1 + (t2 - t1) * 2 ^ 22 = z2
    /\ z1 < z2.
Proof.
  intros H1 Hlt H2.
  exists (toStringZ (Z.shiftl (t1 - DISCORD_EPOCH) 22)),
         (toStringZ (Z.shiftl (t2 - DISCORD_EPOCH) 22)),
         (Z.shiftl (t1 - DISCORD_EPOCH) 22), (Z.shiftl (t2 - DISCORD_EPOCH) 22).
  rewrite !dateToDiscordSnowflake_date, !StringToBigInt_toStringZ.
  rewrite !TimeClip_in_range by lia.
  rewrite !Z.shiftl_mul_pow2 by lia.
  repeat split; lia.
Qed.

(** X5. The cursor of a date is a strict bound: whatever cursor is
    numerically below it decodes, when it decodes, to a time strictly
    before the date. *)
Theorem cursor_below_decodes_before (t z : Z) (c : string) (d : Date) :
  dateToDiscordSnowflake Date_parse (ArgDate (TimeValue t)) = Normal (Some c) ->
  StringToBigInt c = Some (Z.shiftl (t - DISCORD_EPOCH) 22)
  /\ (z < Z.shiftl (t - DISCORD_EPOCH) 22 ->
      snowflakeToDate (toStringZ z) = Normal (Some d) ->
      exists t', d = TimeValue t' /\ t' < t).
Proof.
  rewrite dateToDiscordSnowflake_date. intros Hc.
  destruct (TimeClip t); [discriminate|]. injection Hc as <-.
  split; [apply StringToBigInt_toStringZ|].
  intros Hz Hd. rewrite snowflakeToDate_numeric in Hd.
  assert (Hlt : Z.shiftr z 22 < t - DISCORD_EPOCH).
  { rewrite Z.shiftr_div_pow2 by lia. rewrite Z.shiftl_mul_pow2 in Hz by lia.
    apply Z.div_lt_upper_bound; lia. }
  unfold TimeClip in Hd. destruct (Z.abs _ <=? maxTimeValue); [|discriminate].
  injection Hd as <-. eexists. split; [reflexivity | lia].
Qed.

(** A non-empty string is encoded as the date that [new Date] makes of it. *)
Lemma encode_string_as_date (s : string) :
  truthy s = true ->
  dateToDiscordSnowflake Date_parse (ArgString s)
  = dateToDiscordSnowflake Date_parse (ArgDate (Date_ofString Date_parse s)).
Proof. intros H. unfold dateToDiscordSnowflake. simpl argTruthy. now rewrite H. Qed.

(** X6. On a [Date] object and on a string, [isValidDate] says exactly
    whether [dateToDiscordSnowflake] returns a cursor; on [null] the two
    differ, [isValidDate] being true of it. *)
Theorem isValidDate_iff_encodable (a : DateArg) :
  Date_parse EmptyString = None ->
  match a with
  | ArgNull =>
      isValidDate Date_parse a = true
      /\ dateToDiscordSnowflake Date_parse a = Normal None
  | ArgDate d =>
      validDateObject d ->
      (isValidDate Date_parse a = true
       <-> exists c, dateToDiscordSnowflake Date_parse a = Normal (Some c))
  | ArgString _ =>
      isValidDate Date_parse a = true
      <-> exists c, dateToDiscordSnowflake Date_parse a = Normal (Some c)
  end.
Proof.
  intros Hempty. destruct a as [|d|s].
  - split; reflexivity.
  - intros Hd. rewrite dateToDiscordSnowflake_date. unfold isValidDate. simpl.
    destruct d as [|t]; simpl.
    + split; [discriminate | intros [c [=]]].
    + simpl in Hd. rewrite (TimeClip_in_range t Hd). split; eauto.
  - destruct s as [|ch s].
    + unfold isValidDate, Date_ofArg, Date_ofString. rewrite Hempty.
      split; [discriminate | intros [c [=]]].
    + rewrite (encode_string_as_date (String ch s) eq_refl).
      rewrite dateToDiscordSnowflake_date.
      unfold isValidDate, Date_ofArg, Date_ofString.
      destruct (Date_parse (String ch s)) as [t|].
      * destruct (TimeClip_cases t) as [E|E]; rewrite E; simpl.
        -- rewrite E. split; eauto.
        -- split; [discriminate | intros [c [=]]].
      * split; [discriminate | intros [c [=]]].
Qed.

Lemma TimeClip_TimeValue (t t' : Z) :
  TimeClip t = TimeValue t' -> t' = t /\ - maxTimeValue <= t <= maxTimeValue.
Proof.
  unfold TimeClip. destruct (Z.abs t <=? maxTimeValue) eqn:E; [|discriminate].
  intros [= <-]. apply Z.leb_le in E. lia.
Qed.

(** X7. [localStringToUTC] completes normally on every string.  It returns
    [null] exactly for the empty string and for a string that [new Date]
    cannot read; otherwise it returns the date that [new Date] reads, which
    is a valid date, and [dateToDiscordSnowflake] gives the same cursor for
    the string and for the returned date. *)
Theorem localStringToUTC_spec (s : string) :
  exists r,
    localStringToUTC Date_parse s = Normal r
    /\ (r = None <-> s = EmptyString \/ Date_ofString Date_parse s = InvalidDate)
    /\ (forall d, r = Some d ->
          d = Date_ofString Date_parse s
          /\ (exists t, d = TimeValue t /\ - maxTimeValue <= t <= maxTimeValue)
          /\ exists c,
               dateToDiscordSnowflake Date_parse (ArgString s) = Normal (Some c)
               /\ dateToDiscordSnowflake Date_parse (ArgDate d) = Normal (Some c)).
Proof.
  unfold localStringToUTC. destruct s as [|ch s]; cbn [truthy negb].
  - exists None. split; [reflexivity|]. split; [tauto | discriminate].
  - destruct (Date_ofString Date_parse (String ch s)) as [|t] eqn:E;
      cbn [isNaN getTime try_catch].
    + exists None. split; [reflexivity|]. split; [tauto | discriminate].
    + exists (Some (TimeValue t)). split; [reflexivity|]. split.
      * split; [discriminate | intros [H|H]; discriminate].
      * intros d [= <-]. split; [reflexivity|].
        assert (Hr : - maxTimeValue <= t <= maxTimeValue).
        { unfold Date_ofString in E. destruct (Date_parse _); [|discriminate].
          apply TimeClip_TimeValue in E. lia. }
        split; [eauto|].
        rewrite (encode_string_as_date (String ch s) eq_refl), E.
        rewrite dateToDiscordSnowflake_date, (TimeClip_in_range t Hr). eauto.
Qed.

End WithHost.

Lemma localStringToUTC_spec_witness :
  localStringToUTC Samples.Date_parse_iso "2024-03-10T12:00:00.000Z"
  = Normal (Some (TimeValue 1710072000000))
  /\ dateToDiscordSnowflake Samples.Date_parse_iso (ArgString "2024-03-10T12:00:00.000Z")
     = dateToDiscordSnowflake Samples.Date_parse_iso (ArgDate (TimeValue 1710072000000))
  /\ localStringToUTC Samples.Date_parse_iso "next week" = Normal None.
Proof.
  destruct (localStringToUTC_spec Samples.Date_parse_iso "2024-03-10T12:00:00.000Z")
    as (r & Hr & _ & Hd).
  assert (E : localStringToUTC Samples.Date_parse_iso "2024-03-10T12:00:00.000Z"
              = Normal (Some (TimeValue 1710072000000))) by reflexivity.
  rewrite E in Hr. injection Hr as <-.
  destruct (Hd _ eq_refl) as (_ & _ & c & H1 & H2).
  split; [exact E|]. split; [now rewrite H1, H2|].
  destruct (localStringToUTC_spec Samples.Date_parse_iso "next week")
    as (r & Hr & Hnone & _).
  rewrite Hr. f_equal. apply Hnone. right. reflexivity.
Defined.

Lemma later_date_larger_cursor_witness :
  (- maxTimeValue <= 1710071940000) /\ (1710071940000 < 1710071940001)
  /\ (1710071940001 <= maxTimeValue)
  /\ exists s1 s2 z1 z2,
       dateToDiscordSnowflake Samples.Date_parse_iso (ArgDate (TimeValue 1710071940000))
       = Normal (Some s1)
       /\ dateToDiscordSnowflake Samples.Date_parse_iso (ArgDate (TimeValue 1710071940001))
          = Normal (Some s2)
       /\ StringToBigInt s1 = Some z1 /\ StringToBigInt s2 = Some z2
       /\ z1 + (1710071940001 - 1710071940000) * 2 ^ 22 = z2
       /\ z1 < z2.
Proof.
  assert (H1 : - maxTimeValue <= 1710071940000) by (unfold maxTimeValue; lia).
  assert (H2 : 1710071940000 < 1710071940001) by lia.
  assert (H3 : 1710071940001 <= maxTimeValue) by (unfold maxTimeValue; lia).
  split; [exact H1|]. split; [exact H2|]. split; [exact H3|].
  exact (later_date_larger_cursor Samples.Date_parse_iso
           1710071940000 1710071940001 H1 H2 H3).
Defined.

Lemma cursor_below_decodes_before_witness :
  dateToDiscordSnowflake Samples.Date_parse_iso (ArgDate (TimeValue 1710072000000))
  = Normal (Some "1216354870886400000"%string)
  /\ (1216354870886399999 < Z.shiftl (1710072000000 - DISCORD_EPOCH) 22)
  /\ snowflakeToDate (toStringZ 1216354870886399999)
     = Normal (Some (TimeValue 1710071999999))
  /\ exists t', TimeValue 1710071999999 = TimeValue t' /\ t' < 1710072000000.
Proof.
  assert (H1 : dateToDiscordSnowflake Samples.Date_parse_iso
                 (ArgDate (TimeValue 1710072000000))
               = Normal (Some "1216354870886400000"%string)) by (vm_compute; reflexivity).
  assert (H2 : 1216354870886399999 < Z.shiftl (1710072000000 - DISCORD_EPOCH) 22)
    by (vm_compute; reflexivity).
  assert (H3 : snowflakeToDate (toStringZ 1216354870886399999)
               = Normal (Some (TimeValue 1710071999999))) by (vm_compute; reflexivity).
  split; [exact H1|]. split; [exact H2|]. split; [exact H3|].
  exact (proj2 (cursor_below_decodes_before Samples.Date_parse_iso 1710072000000
                  1216354870886399999 _ _ H1) H2 H3).
Defined.

Lemma isValidDate_iff_encodable_witness :
  Samples.Date_parse_iso EmptyString = None
  /\ validDateObject (TimeValue 1710072000000)
  /\ (isValidDate Samples.Date_parse_iso (ArgDate (TimeValue 1710072000000)) = true
      <-> exists c,
            dateToDiscordSnowflake Samples.Date_parse_iso
              (ArgDate (TimeValue 1710072000000)) = Normal (Some c)).
Proof.
  assert (H1 : Samples.Date_parse_iso EmptyString = None) by reflexivity.
  assert (H2 : validDateObject (TimeValue 1710072000000))
    by (unfold validDateObject, maxTimeValue; lia).
  split; [exact H1|]. split; [exact H2|].
  exact (isValidDate_iff_encodable Samples.Date_parse_iso
           (ArgDate (TimeValue 1710072000000)) H1 H2).
Defined.

End CodecMore.

(** ** The responses and the lookups *)

Module FetcherMore.

Import Discord DiscordMore.

(** X8. [handleResponse] returns normally exactly when the response is [ok]
    and its body parses, and then returns the body.  On any other status it
    throws; what it throws is an instance of [Error] unless the status is
    429; outside 401, 403, 404 and 429 the message names the status in
    decimal. *)
Theorem handleResponse_outcomes {A} (r : Response A) :
  (forall a, handleResponse r = Normal a <-> ok r = true /\ json r = Normal a)
  /\ (ok r = false ->
      exists e,
        handleResponse r = Throw e
        /\ (instanceofError e = false <-> status r = 429)
        /\ (status r <> 401 -> status r <> 403 -> status r <> 404 -> status r <> 429 ->
            e = ErrorObject "Error"
                  ("HTTP error! status: " ++ toStringZ (status r))%string)).
Proof.
  split.
  - intros a. unfold handleResponse. destruct (ok r) eqn:Hok.
    + split; [auto | now intros [_ H]].
    + split; [|now intros [H _]].
      repeat match goal with |- context [if ?b then _ else _] => destruct b end;
        discriminate.
  - intros Hok. unfold handleResponse. rewrite Hok.
    destruct (status r =? 401) eqn:E1; [apply Z.eqb_eq in E1|apply Z.eqb_neq in E1].
    { eexists. split; [reflexivity|]. split; [split; [discriminate|lia] | contradiction]. }
    destruct (status r =? 403) eqn:E2; [apply Z.eqb_eq in E2|apply Z.eqb_neq in E2].
    { eexists. split; [reflexivity|]. split; [split; [discriminate|lia] | contradiction]. }
    destruct (status r =? 429) eqn:E3; [apply Z.eqb_eq in E3|apply Z.eqb_neq in E3].
    { eexists. split; [reflexivity|]. split; [split; auto | contradiction]. }
    destruct (status r =? 404) eqn:E4; [apply Z.eqb_eq in E4|apply Z.eqb_neq in E4].
    { eexists. split; [reflexivity|]. split; [split; [discriminate|lia] | contradiction]. }
    eexists. split; [reflexivity|]. split; [split; [discriminate|contradiction] | auto].
Qed.

Lemma handleResponse_outcomes_witness :
  ok (Samples.rateLimited (Some "3"%string)) = false
  /\ exists e,
       handleResponse (Samples.rateLimited (Some "3"%string)) = Throw e
       /\ instanceofError e = false.
Proof.
  assert (H : ok (Samples.rateLimited (Some "3"%string)) = false) by reflexivity.
  split; [exact H|].
  destruct (proj2 (handleResponse_outcomes (Samples.rateLimited (Some "3"%string))) H)
    as (e & He & Hi & _).
  exists e. split; [exact He | exact (proj2 Hi eq_refl)].
Defined.

Section Lookups.

Context {A : Type}.
Variable c : Client.
Variable server : ServerOf A.
Variable userToken : string.

(** A lookup that awaits the [fetch] in its [try] and returns the promise
    of [handleResponse]. *)
Lemma lookup_eq (url what : string) (tr : Trace) :
  (promise <~
     io_try_catch
       (response <~ fetchOf server url userToken ;; ret (handleResponse response))
       (fun error => throw (wrapLookupError what error)) ;;
   lift promise) tr
  = Some (match server (fetchCount tr) url userToken with
          | NetworkErrorOf m => Throw (ErrorObject "Error" (what ++ m)%string)
          | RepliedOf r => handleResponse r
          end,
          tr ++ [EvFetch url userToken]).
Proof.
  unfold io_bind, io_try_catch, fetchOf, ret, throw, lift.
  destruct (server _ _ _) as [m|r]; reflexivity.
Qed.

(** X9. [fetchUserGuilds] and [fetchGuildChannels] make one request.  A
    failure of the network is rethrown as an [Error] with the prefix of the
    function; the error of a response is not: a status 429 reaches the
    caller as the rate-limit object, with the delay that [parseInt] reads
    from the header or 5 (the leading integer itself when it is not zero
    and of magnitude up to 2^53), and any other failed status as the error
    of [handleResponse]; the body of an [ok] response is returned. *)
Theorem lookups_wrap_network_errors_only (guildId : string) :
  let guildsUrl := (apiBase c ++ "/users/@me/guilds")%string in
  let channelsUrl := (apiBase c ++ "/guilds/" ++ guildId ++ "/channels")%string in
  (forall m, server 0%nat guildsUrl userToken = NetworkErrorOf m ->
     fetchUserGuilds c server userToken []
     = Some (Throw (ErrorObject "Error" ("Failed to fetch user guilds: " ++ m)%string),
             [EvFetch guildsUrl userToken]))
  /\ (forall m, server 0%nat channelsUrl userToken = NetworkErrorOf m ->
        fetchGuildChannels c server guildId userToken []
        = Some (Throw (ErrorObject "Error" ("Failed to fetch guild channels: " ++ m)%string),
                [EvFetch channelsUrl userToken]))
  /\ (forall r, server 0%nat guildsUrl userToken = RepliedOf r ->
        fetchUserGuilds c server userToken []
        = Some (handleResponse r, [EvFetch guildsUrl userToken])
        /\ (status r = 429 ->
            exists v,
              fetchUserGuilds c server userToken []
              = Some (Throw (RateLimitObject 429 v "Rate limited by Discord API"),
                      [EvFetch guildsUrl userToken])
              /\ v = numberOr (parseInt10 (stringOr (retryAfterHeader r) "5")) (Num 5)
              /\ forall n,
                   leadingInteger (stringOr (retryAfterHeader r) "5") = Some n ->
                   n <> 0 -> Z.abs n <= 2 ^ 53 -> v = Num n))
  /\ (forall r, server 0%nat channelsUrl userToken = RepliedOf r ->
        fetchGuildChannels c server guildId userToken []
        = Some (handleResponse r, [EvFetch channelsUrl userToken])
        /\ (status r = 429 ->
            exists v,
              fetchGuildChannels c server guildId userToken []
              = Some (Throw (RateLimitObject 429 v "Rate limited by Discord API"),
                      [EvFetch channelsUrl userToken])
              /\ v = numberOr (parseInt10 (stringOr (retryAfterHeader r) "5")) (Num 5)
              /\ forall n,
                   leadingInteger (stringOr (retryAfterHeader r) "5") = Some n ->
                   n <> 0 -> Z.abs n <= 2 ^ 53 -> v = Num n)).
Proof.
  intros guildsUrl channelsUrl.
  assert (H429 : forall r : Response A, status r = 429 ->
            handleResponse r
            = Throw (RateLimitObject 429
                       (numberOr (parseInt10 (stringOr (retryAfterHeader r) "5"))
                                 (Num 5))
                       "Rate limited by Discord API")).
  { intros r Hs. unfold handleResponse, ok. rewrite Hs. reflexivity. }
  unfold fetchUserGuilds, fetchGuildChannels. fold guildsUrl channelsUrl.
  repeat split.
  - intros m Hm. rewrite lookup_eq. change (fetchCount []) with 0%nat. now rewrite Hm.
  - intros m Hm. rewrite lookup_eq. change (fetchCount []) with 0%nat. now rewrite Hm.
  - rewrite lookup_eq. change (fetchCount []) with 0%nat. now rewrite H.
  - intros Hs. eexists. split; [|split; [reflexivity|]].
    + rewrite lookup_eq. change (fetchCount []) with 0%nat. now rewrite H, (H429 r Hs).
    + intros n Hp Hn Hle. now apply FetcherFacts.retryAfter_exact.
  - rewrite lookup_eq. change (fetchCount []) with 0%nat. now rewrite H.
  - intros Hs. eexists. split; [|split; [reflexivity|]].
    + rewrite lookup_eq. change (fetchCount []) with 0%nat. now rewrite H, (H429 r Hs).
    + intros n Hp Hn Hle. now apply FetcherFacts.retryAfter_exact.
Qed.

End Lookups.

Lemma lookups_wrap_network_errors_only_witness :
  MoreSamples.busyServer 0%nat "https://discord.com/api/v9/users/@me/guilds" "token"
  = RepliedOf {| status := 429; retryAfterHeader := Some "3"%string; json := Normal [] |}
  /\ fetchUserGuilds Samples.client MoreSamples.busyServer "token" []
     = Some (Throw (RateLimitObject 429 (Num 3) "Rate limited by Discord API"),
             [EvFetch "https://discord.com/api/v9/users/@me/guilds" "token"]).
Proof.
  assert (H : MoreSamples.busyServer 0%nat
                (apiBase Samples.client ++ "/users/@me/guilds")%string "token"
              = RepliedOf {| status := 429; retryAfterHeader := Some "3"%string;
                             json := Normal [] |}) by reflexivity.
  split; [exact H|].
  destruct (lookups_wrap_network_errors_only Samples.client MoreSamples.busyServer
              "token" "7") as (_ & _ & Hg & _).
  destruct (Hg _ H) as (_ & H429).
  destruct (H429 eq_refl) as (v & Hv & _ & Hn).
  rewrite Hv. now rewrite (Hn 3 eq_refl ltac:(discriminate) ltac:(vm_compute; discriminate)).
Defined.

Lemma handleResponse_bodyOf {A} (r : Response A) :
  match bodyOf (RepliedOf r) with
  | Some b => handleResponse r = Normal b
  | None => exists e, handleResponse r = Throw e
  end.
Proof.
  simpl. destruct (ok r) eqn:E.
  - unfold handleResponse. rewrite E. destruct (json r); eauto.
  - now apply WalkFacts.handleResponse_not_ok.
Qed.

(** What awaiting [fetch] and then [handleResponse] gives, by the body that
    the reply delivers. *)
Lemma await_body {A B} (server : ServerOf A) (url userToken : string)
    (k : A -> IO B) (tr : Trace) :
  (response <~ fetchOf server url userToken ;;
   body <~ lift (handleResponse response) ;; k body) tr
  = match bodyOf (server (fetchCount tr) url userToken) with
    | Some b => k b (tr ++ [EvFetch url userToken])
    | None =>
        match (response <~ fetchOf server url userToken ;;
               body <~ lift (handleResponse response) ;; k body) tr with
        | Some (Throw e, _) => Some (Throw e, tr ++ [EvFetch url userToken])
        | _ => None
        end
    end
  /\ (bodyOf (server (fetchCount tr) url userToken) = None ->
      exists e,
        (response <~ fetchOf server url userToken ;;
         body <~ lift (handleResponse response) ;; k body) tr
        = Some (Throw e, tr ++ [EvFetch url userToken])).
Proof.
  unfold io_bind, fetchOf, lift.
  destruct (server (fetchCount tr) url userToken) as [m|r] eqn:Hs.
  - simpl. split; [reflexivity | eauto].
  - pose proof (handleResponse_bodyOf r) as H.
    destruct (bodyOf (RepliedOf r)) as [b|].
    + rewrite H. split; [reflexivity | discriminate].
    + destruct H as [e ->]. split; [reflexivity | eauto].
Qed.

(** X10. [fetchChannelInfo] never throws and makes one request, or two with
    one pause between them.  When the channel lookup delivers no body the
    result is the pair of placeholders; so it is when the channel belongs
    to a guild and the guild lookup delivers no body, the name of the
    channel, already known, being dropped.  With both bodies the two names
    are returned; without a guild the server is "Private" and the channel
    is its name or "Direct Message". *)
Theorem fetchChannelInfo_degrades (c : Client) (server : ServerOf InfoBody)
    (channelId userToken : string) :
  let url := (apiBase c ++ "/channels/" ++ channelId)%string in
  exists info tr,
    fetchChannelInfo c server channelId userToken [] = Some (Normal info, tr)
    /\ (1 <= fetchCount tr <= 2)%nat
    /\ (bodyOf (channelReply c server channelId userToken) = None ->
        info = unknownChannel /\ tr = [EvFetch url userToken])
    /\ (forall ch,
          bodyOf (channelReply c server channelId userToken) = Some ch ->
          (guild_id ch = None \/ guild_id ch = Some ""%string) ->
          info = {| channelName := Some (stringOr (name ch) "Direct Message");
                    serverName := Some "Private"%string |}
          /\ tr = [EvFetch url userToken])
    /\ (forall ch g,
          bodyOf (channelReply c server channelId userToken) = Some ch ->
          guild_id ch = Some g -> g <> ""%string ->
          tr = [EvFetch url userToken; EvDelay (rateLimitDelay c);
                EvFetch (apiBase c ++ "/guilds/" ++ g)%string userToken]
          /\ match bodyOf (guildReply c server g userToken) with
             | None => info = unknownChannel
             | Some gd => info = {| channelName := name ch; serverName := name gd |}
             end).
Proof.
  intros url. unfold fetchChannelInfo, io_try_catch, channelReply.
  match goal with
  | |- context [match ?m [] with _ => _ end] =>
      destruct (await_body server url userToken
                  (fun channelInfo =>
                     match guild_id channelInfo with
                     | Some g =>
                         if truthy g then
                           _ <~ delay (rateLimitDelay c) ;;
                           guildResponse <~ fetchOf server (apiBase c ++ "/guilds/" ++ g)%string
                                                    userToken ;;
                           guildInfo <~ lift (handleResponse guildResponse) ;;
                           ret {| channelName := name channelInfo;
                                  serverName := name guildInfo |}
                         else
                           ret {| channelName :=
                                    Some (stringOr (name channelInfo) "Direct Message");
                                  serverName := Some "Private"%string |}
                     | None =>
                         ret {| channelName :=
                                  Some (stringOr (name channelInfo) "Direct Message");
                                serverName := Some "Private"%string |}
                     end) []) as [Heq Hfail]
  end.
  change (fetchCount []) with 0%nat in Heq, Hfail. fold url.
  destruct (bodyOf (server 0%nat url userToken)) as [ch|] eqn:Hch.
  - rewrite Heq. clear Heq Hfail.
    destruct (guild_id ch) as [g|] eqn:Hg.
    + destruct g as [|a g'].
      * simpl. eexists _, _. split; [reflexivity|]. split; [unfold fetchCount; simpl; lia|].
        split; [discriminate|]. split.
        -- intros ch' [= <-] _. auto.
        -- intros ch' g [= <-] Hg' Hne. rewrite Hg in Hg'. now injection Hg' as <-.
      * cbn [truthy]. unfold io_bind at 1, delay.
        match goal with
        | |- context [match ?m ?t0 with _ => _ end] =>
            destruct (await_body server (apiBase c ++ "/guilds/" ++ String a g')%string
                        userToken
                        (fun guildInfo =>
                           ret {| channelName := name ch; serverName := name guildInfo |})
                        t0) as [Heq Hfail]
        end.
        unfold guildReply.
        cbn [app] in Heq, Hfail |- *.
        change (fetchCount [EvFetch url userToken; EvDelay (rateLimitDelay c)])
          with 1%nat in Heq, Hfail.
        destruct (bodyOf (server 1%nat (apiBase c ++ "/guilds/" ++ String a g')%string
                            userToken)) as [gd|] eqn:Hgd.
        -- rewrite Heq. unfold ret. eexists _, _. split; [reflexivity|].
           split; [unfold fetchCount; simpl; lia|]. split; [discriminate|]. split.
           ++ intros ch' [= <-] [H|H]; rewrite Hg in H; discriminate.
           ++ intros ch' g [= <-] Hg' _. rewrite Hg in Hg'. injection Hg' as <-.
              rewrite Hgd. auto.
        -- destruct (Hfail eq_refl) as [e He]. rewrite He. unfold ret.
           eexists _, _. split; [reflexivity|].
           split; [unfold fetchCount; simpl; lia|]. split; [discriminate|]. split.
           ++ intros ch' [= <-] [H|H]; rewrite Hg in H; discriminate.
           ++ intros ch' g [= <-] Hg' _. rewrite Hg in Hg'. injection Hg' as <-.
              rewrite Hgd. auto.
    + simpl. eexists _, _. split; [reflexivity|]. split; [unfold fetchCount; simpl; lia|].
      split; [discriminate|]. split.
      * intros ch' [= <-] _. auto.
      * intros ch' g [= <-] Hg'. rewrite Hg in Hg'. discriminate.
  - destruct (Hfail eq_refl) as [e He]. rewrite He. unfold ret.
    eexists _, _. split; [reflexivity|]. split; [unfold fetchCount; simpl; lia|].
    split; [auto|]. split; intros; discriminate.
Qed.

(** The guild lookup is refused: the name of the channel is lost too. *)
Lemma fetchChannelInfo_degrades_witness :
  bodyOf (channelReply Samples.client MoreSamples.channelOnlyServer "42" "token")
  = Some {| name := Some "general"%string; guild_id := Some "7"%string |}
  /\ bodyOf (guildReply Samples.client MoreSamples.channelOnlyServer "7" "token") = None
  /\ fetchChannelInfo Samples.client MoreSamples.channelOnlyServer "42" "token" []
     = Some (Normal unknownChannel,
             [EvFetch "https://discord.com/api/v9/channels/42" "token";
              EvDelay 500;
              EvFetch "https://discord.com/api/v9/guilds/7" "token"]).
Proof.
  assert (H1 : bodyOf (channelReply Samples.client MoreSamples.channelOnlyServer
                         "42" "token")
               = Some {| name := Some "general"%string; guild_id := Some "7"%string |})
    by reflexivity.
  assert (H2 : bodyOf (guildReply Samples.client MoreSamples.channelOnlyServer
                         "7" "token") = None) by reflexivity.
  split; [exact H1|]. split; [exact H2|].
  destruct (fetchChannelInfo_degrades Samples.client MoreSamples.channelOnlyServer
              "42" "token") as (info & tr & Hr & _ & _ & _ & Hg).
  assert (Hne : "7"%string <> ""%string) by discriminate.
  destruct (Hg _ "7"%string H1 eq_refl Hne) as [Htr Hinfo].
  rewrite H2 in Hinfo. rewrite Hr, Htr, Hinfo. reflexivity.
Defined.

End FetcherMore.

(** ** The shape of a walk *)

Module WalkMore.

Import Discord WalkShape ContainerFacts WalkFacts RunFacts WindowFacts.

Lemma pacedTrace_snoc (d : Z) (reqs : list (string * string)) (u t : string) :
  pacedTrace d (reqs ++ [(u, t)])
  = match reqs with
    | [] => [EvFetch u t]
    | _ :: _ => pacedTrace d reqs ++ [EvDelay d; EvFetch u t]
    end.
Proof.
  destruct reqs as [|[u0 t0] r]; [reflexivity|].
  simpl. now rewrite flat_map_app.
Qed.

Lemma fetches_pacedTrace (d : Z) (reqs : list (string * string)) :
  fetches (pacedTrace d reqs) = reqs.
Proof.
  destruct reqs as [|[u0 t0] r]; [reflexivity|]. simpl. f_equal.
  induction r as [|[u t] r IH]; simpl; [reflexivity | now rewrite IH].
Qed.

Section Walk.

Variable Date_parse : string -> option Z.
Variable c : Client.
Variable server : Server.
Variables channelId userToken : string.
Variables fromDate effectiveToDate : Date.
Variable maxPages : Z.
Variable sf : option string.

Local Abbreviation walk :=
  (walk Date_parse c server channelId userToken fromDate effectiveToDate maxPages).
Local Abbreviation afterPage := (afterPage Date_parse fromDate effectiveToDate).
Local Abbreviation paused := (paused c).
Local Abbreviation requestOf := (requestOf c channelId userToken).
Local Abbreviation replyTo := (replyTo c server channelId userToken).
Local Abbreviation Shape :=
  (WalkShapeInv Date_parse c server channelId userToken fromDate effectiveToDate
     maxPages sf).
Local Abbreviation ShapeFail :=
  (WalkShapeFail Date_parse c server channelId userToken fromDate maxPages sf).

(** The rule of the loop, with the thrown value in the property of a
    failed iteration. *)
Lemma walk_rule_thrown (I : WalkState -> Trace -> Prop) (E : Thrown -> Trace -> Prop) :
  (forall st tr, I st tr -> walkCond maxPages st = true ->
     match pageOutcome (replyTo st tr) with
     | Normal p => I (afterPage st p) (paused st tr ++ [requestOf st])
     | Throw e => E e (paused st tr ++ [requestOf st])
     end) ->
  forall fuel st tr, I st tr ->
    match walk fuel st tr with
    | Some (Normal st', tr') => I st' tr' /\ walkCond maxPages st' = false
    | Some (Throw e, tr') => E e tr'
    | None => True
    end.
Proof.
  intros Hstep. induction fuel as [|fuel IH]; intros st tr HI.
  - simpl. destruct (walkCond maxPages st) eqn:Hc; simpl; auto.
  - destruct (walkCond maxPages st) eqn:Hc.
    + rewrite (walk_step _ _ _ _ _ _ _ _ _ _ _ Hc). specialize (Hstep st tr HI Hc).
      destruct (pageOutcome _); [now apply IH | assumption].
    + rewrite (walk_stop _ _ _ _ _ _ _ _ _ _ _ Hc). auto.
Qed.

(** The pause of an iteration is there exactly when a request was made
    before. *)
Lemma paused_paced (st : WalkState) (tr : Trace) :
  WalkInv Date_parse server fromDate effectiveToDate maxPages st tr ->
  hasMore st = true ->
  tr = pacedTrace (rateLimitDelay c) (fetches tr) ->
  paused st tr ++ [requestOf st]
  = pacedTrace (rateLimitDelay c) (fetches (paused st tr ++ [requestOf st])).
Proof.
  intros (_ & _ & _ & _ & Hpc & _ & Hmore) Hm Htr.
  specialize (Hmore Hm). rewrite fetchCount_fetches in Hmore.
  rewrite fetches_step, pacedTrace_snoc. unfold Discord.paused, Discord.requestOf.
  destruct (fetches tr) as [|q r] eqn:Ef.
  - simpl in Hmore. replace (0 <? pageCount st) with false
      by (symmetry; apply Z.ltb_ge; lia).
    rewrite Htr. reflexivity.
  - simpl in Hmore. replace (0 <? pageCount st) with true
      by (symmetry; apply Z.ltb_lt; lia).
    rewrite <- Htr, <- app_assoc. reflexivity.
Qed.

Lemma CursorChain_step (st : WalkState) (tr : Trace) :
  hasMore st = true ->
  CursorChain Date_parse c server channelId userToken fromDate sf tr ->
  NextCursor Date_parse server fromDate sf st tr ->
  CursorChain Date_parse c server channelId userToken fromDate sf
    (paused st tr ++ [requestOf st]).
Proof.
  intros Hm [H0 HS] Hnext. specialize (Hnext Hm). split.
  - intros u t. rewrite fetches_step.
    destruct (fetches tr) as [|q r] eqn:Ef.
    + simpl in Hnext |- *. intros [= <- <-]. now rewrite Hnext.
    + simpl. intros Hq. apply H0. exact Hq.
  - intros k u t Hk. rewrite fetches_step in Hk.
    destruct (Nat.lt_ge_cases (S k) (List.length (fetches tr))) as [Hlt|Hge].
    + rewrite nth_error_app1 in Hk by exact Hlt.
      destruct (HS k u t Hk) as (p & Hp & Hrest).
      exists p. rewrite pageAt_old_request by lia. auto.
    + rewrite nth_error_app2 in Hk by exact Hge.
      destruct (S k - List.length (fetches tr))%nat as [|j] eqn:Ej.
      2:{ simpl in Hk. now destruct j. }
      simpl in Hk. injection Hk as <- <-.
      assert (El : List.length (fetches tr) = S k) by lia.
      rewrite El in Hnext. destruct Hnext as (p & Hp & Hlen & Hold & Hcur).
      exists p. rewrite pageAt_old_request by lia. rewrite Hcur. auto.
Qed.

Lemma Shape_step (st : WalkState) (tr : Trace) :
  Shape st tr -> walkCond maxPages st = true ->
  match pageOutcome (replyTo st tr) with
  | Normal p => Shape (afterPage st p) (paused st tr ++ [requestOf st])
  | Throw e => ShapeFail e (paused st tr ++ [requestOf st])
  end.
Proof.
  intros (HI & Hpaced & Hchain & Hnext & Hstop & _) Hc.
  pose proof (Inv_step Date_parse c server channelId userToken fromDate effectiveToDate
                maxPages st tr HI Hc) as Hstep.
  pose proof (walkCond_true _ _ Hc) as (Hm & Hlt & Hhit).
  pose proof (paused_paced st tr HI Hm Hpaced) as Hpaced'.
  pose proof (CursorChain_step st tr Hm Hchain Hnext) as Hchain'.
  pose proof (pageOutcome_pageOf (replyTo st tr)) as Hout.
  destruct (pageOf (replyTo st tr)) as [p|] eqn:Hp.
  - rewrite Hout in Hstep |- *.
    split; [exact Hstep|]. split; [exact Hpaced'|]. split; [exact Hchain'|].
    destruct (afterPage_cases Date_parse fromDate effectiveToDate st p Hhit)
      as (_ & Hhit' & Hcase).
    split; [|split].
    + intros Hm'. rewrite length_fetches_step.
      destruct Hcase as [(_ & _ & Hold & Hlen & Hcur)|(_ & Hf & _)].
      * exists p. rewrite pageAt_new_request. auto.
      * rewrite Hf in Hm'. discriminate.
    + intros Hm'. exists (List.length (fetches tr)), p.
      rewrite length_fetches_step, pageAt_new_request.
      split; [reflexivity|]. split; [exact Hp|].
      destruct Hcase as [(_ & Hsame & _)|(_ & _ & _ & [Hold|Hlen])]; auto.
      rewrite Hsame, Hm in Hm'. discriminate.
    + rewrite Hhit'. intros Hold.
      destruct Hcase as [(_ & _ & Hno & _)|(_ & Hf & _)]; [congruence | exact Hf].
  - destruct Hout as [e He]. rewrite He in Hstep |- *.
    split; [exact Hpaced'|]. split; [exact Hchain'|]. split; [|apply Hstep].
    exists (List.length (fetches tr)), (pageUrl c channelId (currentBefore st) None),
           userToken.
    rewrite length_fetches_step, fetches_step.
    split; [reflexivity|]. split.
    + rewrite nth_error_app2, Nat.sub_diag by lia. reflexivity.
    + split.
      * unfold Discord.replyTo in He. now rewrite fetchCount_fetches in He.
      * intros k Hk. rewrite pageAt_old_request by exact Hk.
        destruct HI as (_ & _ & _ & Hdel & _). now apply Hdel.
Qed.

Lemma walk_Shape (fuel : nat) (st : WalkState) (tr : Trace) :
  Shape st tr ->
  match walk fuel st tr with
  | Some (Normal st', tr') => Shape st' tr' /\ walkCond maxPages st' = false
  | Some (Throw e, tr') => ShapeFail e tr'
  | None => True
  end.
Proof. apply walk_rule_thrown. exact Shape_step. Qed.

End Walk.

Section Run.

Variable Date_parse : string -> option Z.
Variable c : Client.
Variable server : Server.
Variables channelId userToken : string.
Variable fromDate : Date.
Variable toDate : option Date.
Variable now : Z.
Variable maxPages : Z.

Local Abbreviation eff := (effectiveTo toDate now).
Local Abbreviation run :=
  (getAllMessagesBetweenDates Date_parse c server channelId userToken
     fromDate toDate now maxPages).
Local Abbreviation sorted :=
  (fun st => Array_sort (compareByTimestamp Date_parse) (Map_values (allMessages st))).
Local Abbreviation encoded :=
  (DateUtils.dateToDiscordSnowflake Date_parse (DateUtils.ArgDate eff)).
Local Abbreviation isOld := (isOld Date_parse fromDate).
Local Abbreviation inWindow := (inWindow Date_parse fromDate eff).

Lemma Shape_init (sf : option string) :
  WalkShapeInv Date_parse c server channelId userToken fromDate eff maxPages sf
    (initialState sf) [].
Proof.
  split; [apply Inv_init|]. split; [reflexivity|]. split; [|split; [|split]].
  - split.
    + intros u t H. discriminate H.
    + intros k u t H. discriminate H.
  - intros _. reflexivity.
  - intros H. discriminate H.
  - intros H. discriminate H.
Qed.

(** A run ends, in a result or in a wrapped error, and its trace has the
    shape of the walk. *)
Lemma run_shape_cases :
  exists sf, encoded = Normal sf /\
    ((exists st tr,
         run [] = Some (Normal (sorted st), tr)
         /\ WalkShapeInv Date_parse c server channelId userToken fromDate eff
              maxPages sf st tr
         /\ walkCond maxPages st = false)
     \/ (exists e tr,
           run [] = Some (Throw (wrapFetchError e), tr)
           /\ WalkShapeFail Date_parse c server channelId userToken fromDate
                maxPages sf e tr)).
Proof.
  destruct (CodecFacts.dateToDiscordSnowflake_total Date_parse (DateUtils.ArgDate eff))
    as [sf He].
  exists sf. split; auto. rewrite (run_eq _ _ _ _ _ _ _ _ _ sf [] He).
  destruct (walk_total Date_parse c server channelId userToken fromDate eff maxPages
              (Z.to_nat maxPages) (initialState sf) []) as [r Hr].
  { simpl. rewrite Z.sub_0_r. lia. }
  pose proof (walk_Shape Date_parse c server channelId userToken fromDate eff maxPages
                sf (Z.to_nat maxPages) (initialState sf) [] (Shape_init sf)) as H.
  rewrite Hr in H |- *. destruct r as [[st|e] tr].
  - left. exists st, tr. destruct H. auto.
  - right. exists e, tr. auto.
Qed.

(** One run, with what its result and its last page satisfy. *)
Lemma short_walk_is_exhaustive_aux :
  exists out tr,
    run [] = Some (out, tr)
    /\ (forall res, out = Normal res ->
          forall m, In m res -> InWindow Date_parse fromDate eff m)
    /\ (forall res, out = Normal res ->
          (fetchCount tr < Z.to_nat maxPages)%nat ->
          exists n p,
            List.length (fetches tr) = S n
            /\ pageAt server tr n = Some p
            /\ (List.length p <> 100%nat \/ existsb isOld p = true)).
Proof.
  destruct run_shape_cases
    as (sf & He & [(st & tr & Hr & HS & Hc)|(e & tr & Hr & HF)]).
  - eexists _, tr. split; [exact Hr|].
    destruct HS as (HI & _ & _ & _ & Hstop & Hhit). split.
    + intros res [= <-] m Hin.
      destruct (result_In Date_parse server fromDate toDate now maxPages st tr m HI Hin)
        as (k & p & _ & _ & Hw). exact Hw.
    + intros res _ Hlt.
      destruct (hasMore st) eqn:Hm; [exfalso | now apply Hstop].
      destruct HI as (_ & _ & _ & _ & Hpc & _ & Hmore). specialize (Hmore Hm).
      unfold walkCond in Hc. rewrite Hm in Hc. simpl in Hc.
      apply andb_false_iff in Hc as [Hc|Hc].
      * apply Z.ltb_ge in Hc. lia.
      * apply negb_false_iff in Hc. specialize (Hhit Hc). congruence.
  - eexists _, tr. split; [exact Hr|]. split; intros res [=].
Qed.

(** X11. The requests of a run are paced: the trace is its requests with
    one pause of [rateLimitDelay] ms before each request but the first, and
    nothing else. *)
Theorem requests_are_paced :
  exists out tr,
    getAllMessagesBetweenDates Date_parse c server channelId userToken
      fromDate toDate now maxPages [] = Some (out, tr)
    /\ tr = pacedTrace (rateLimitDelay c) (fetches tr).
Proof.
  destruct run_shape_cases
    as (sf & He & [(st & tr & Hr & HS & Hc)|(e & tr & Hr & HF)]).
  - eexists _, tr. split; [exact Hr | apply HS].
  - eexists _, tr. split; [exact Hr | apply HF].
Qed.

(** X12. The cursors of a run are chained: the first request carries the
    cursor encoded from the effective end date (none when the codec
    returned the sentinel), every later request carries as [before] the id
    of the last message of the page delivered just before it, which had 100
    messages, none of them older than [fromDate]; every request carries the
    token. *)
Theorem cursors_are_chained :
  exists sf out tr,
    DateUtils.dateToDiscordSnowflake Date_parse
      (DateUtils.ArgDate (effectiveTo toDate now)) = Normal sf
    /\ getAllMessagesBetweenDates Date_parse c server channelId userToken
         fromDate toDate now maxPages [] = Some (out, tr)
    /\ CursorChain Date_parse c server channelId userToken fromDate sf tr.
Proof.
  destruct run_shape_cases
    as (sf & He & [(st & tr & Hr & HS & Hc)|(e & tr & Hr & HF)]).
  - eexists sf, _, tr. split; [exact He|]. split; [exact Hr | apply HS].
  - eexists sf, _, tr. split; [exact He|]. split; [exact Hr | apply HF].
Qed.

(** X13. A run that returns after fewer requests than [maxPages] was not
    cut short by the bound: its last page was not full or held a message
    older than [fromDate]. *)
Theorem short_walk_is_exhaustive :
  exists out tr,
    getAllMessagesBetweenDates Date_parse c server channelId userToken
      fromDate toDate now maxPages [] = Some (out, tr)
    /\ forall res, out = Normal res ->
         (fetchCount tr < Z.to_nat maxPages)%nat ->
         exists n p,
           List.length (fetches tr) = S n
           /\ pageAt server tr n = Some p
           /\ (List.length p <> 100%nat \/ existsb isOld p = true).
Proof.
  destruct short_walk_is_exhaustive_aux as (out & tr & Hr & _ & H).
  exists out, tr. split; [exact Hr | exact H].
Qed.

(** X14. A run returns normally exactly when every request delivered a
    page.  Otherwise the request that failed is the last one, every request
    before it delivered a page, and what is thrown is the wrapper of the
    error of that last request. *)
Theorem run_fails_at_last_request :
  exists out tr,
    getAllMessagesBetweenDates Date_parse c server channelId userToken
      fromDate toDate now maxPages [] = Some (out, tr)
    /\ ((exists res, out = Normal res) <->
        (forall k, (k < List.length (fetches tr))%nat -> pageAt server tr k <> None))
    /\ (forall e, out = Throw e ->
          exists cause, e = wrapFetchError cause /\ FailedLast server cause tr).
Proof.
  destruct run_shape_cases
    as (sf & He & [(st & tr & Hr & HS & Hc)|(e & tr & Hr & HF)]).
  - eexists _, tr. split; [exact Hr|]. split.
    + split; [|eauto]. intros _. destruct HS as ((_ & _ & _ & Hdel & _) & _). exact Hdel.
    + intros e [=].
  - eexists _, tr. split; [exact Hr|]. split.
    + split; [intros [res [=]]|]. intros Hdel. exfalso.
      destruct HF as (_ & _ & (n & u & t & Hlen & Hn & Hout & _) & _).
      apply (Hdel n); [lia|]. unfold pageAt. rewrite Hn.
      destruct (pageOf (server n u t)) as [p|] eqn:Hp; [|reflexivity].
      apply pageOutcome_Normal in Hp. congruence.
    + intros e' [= <-]. exists e. split; [reflexivity | apply HF].
Qed.

(** X15. The result of a run is the window of the delivered pages: every
    message returned stands in a delivered page and passed the window test,
    and every message of a delivered page that the scan wrote (it lies in
    the window and no older message precedes it in its page) is represented
    in the result by a message of its id; in a page without an old message
    that is every message in the window. *)
Theorem result_is_the_window_of_the_pages :
  exists out tr,
    getAllMessagesBetweenDates Date_parse c server channelId userToken
      fromDate toDate now maxPages [] = Some (out, tr)
    /\ forall res, out = Normal res ->
         (forall m, In m res ->
            exists k p, pageAt server tr k = Some p /\ In m p /\ inWindow m = true)
         /\ (forall k p m,
               pageAt server tr k = Some p ->
               In m (pageWrites Date_parse fromDate (effectiveTo toDate now) p) ->
               exists m', In m' res /\ id m' = id m)
         /\ (forall k p m,
               pageAt server tr k = Some p -> existsb isOld p = false ->
               In m p -> inWindow m = true ->
               exists m', In m' res /\ id m' = id m).
Proof.
  destruct run_shape_cases
    as (sf & He & [(st & tr & Hr & HS & Hc)|(e & tr & Hr & HF)]).
  2:{ eexists _, tr. split; [exact Hr|]. intros res [=]. }
  eexists _, tr. split; [exact Hr|]. intros res [= <-].
  destruct HS as (HI & _).
  assert (Hkept : forall k p m,
             pageAt server tr k = Some p ->
             In m (pageWrites Date_parse fromDate eff p) ->
             exists m', In m' (sorted st) /\ id m' = id m).
  { intros k p m Hk Hw.
    assert (Hrw : In m (runWrites Date_parse server fromDate eff tr))
      by (apply runWrites_In; eauto).
    destruct (written_kept m _ Hrw) as (m' & Hin & Hid & _).
    destruct HI as (Hall & _). rewrite <- Hall in Hin.
    exists m'. split; [|exact Hid]. apply Array_sort_In. unfold Map_values.
    apply in_map_iff. exists (id m, m'). auto. }
  split; [|split].
  - intros m Hin. apply Array_sort_In in Hin.
    exact (Inv_values Date_parse server fromDate toDate now maxPages st tr m HI Hin).
  - exact Hkept.
  - intros k p m Hk Hold Hin Hwin. apply (Hkept k p m Hk).
    rewrite pageWrites_no_old by exact Hold. apply filter_In. auto.
Qed.

(** X16. With a bound of no page, [maxPages <= 0], no request is made and
    the result is the empty sequence. *)
Theorem no_page_allowed_no_request :
  maxPages <= 0 ->
  getAllMessagesBetweenDates Date_parse c server channelId userToken
    fromDate toDate now maxPages [] = Some (Normal [], []).
Proof.
  intros Hmax.
  destruct (CodecFacts.dateToDiscordSnowflake_total Date_parse (DateUtils.ArgDate eff))
    as [sf He].
  rewrite (run_eq _ _ _ _ _ _ _ _ _ sf [] He), walk_stop; [reflexivity|].
  unfold walkCond. simpl. replace (0 <? maxPages) with false; [reflexivity|].
  symmetry. apply Z.ltb_ge. lia.
Qed.

(** X17. With an invalid [fromDate] no message is old and none is in the
    window: a run that returns, returns the empty sequence, and it has gone
    on until a page was not full or the bound was reached. *)
Theorem invalid_from_date_gives_nothing :
  fromDate = InvalidDate ->
  exists out tr,
    getAllMessagesBetweenDates Date_parse c server channelId userToken
      fromDate toDate now maxPages [] = Some (out, tr)
    /\ forall res, out = Normal res ->
         res = []
         /\ ((fetchCount tr < Z.to_nat maxPages)%nat ->
             exists n p,
               List.length (fetches tr) = S n
               /\ pageAt server tr n = Some p /\ List.length p <> 100%nat).
Proof.
  intros Hfrom.
  assert (Hnever : forall p, existsb isOld p = false).
  { intros p. induction p as [|m p IH]; [reflexivity|]. simpl. rewrite IH.
    unfold Discord.isOld. rewrite Hfrom. simpl.
    destruct (msgTimeOf Date_parse m); reflexivity. }
  destruct short_walk_is_exhaustive_aux as (out & tr & Hr & HI & Hshort).
  exists out, tr. split; [exact Hr|]. intros res Hres. split.
  - destruct res as [|m r]; [reflexivity|]. exfalso.
    destruct (HI _ Hres m (or_introl eq_refl)) as (t & f & e & _ & Hf & _).
    rewrite Hfrom in Hf. discriminate.
  - intros Hlt. destruct (Hshort res Hres Hlt) as (n & p & Hlen & Hp & [H|H]).
    + eauto.
    + rewrite Hnever in H. discriminate.
Qed.

End Run.

(** *** On the sample channel *)

Local Abbreviation m0 := (Samples.sampleMessage 0).
Local Abbreviation m1 := (Samples.sampleMessage 1).
Local Abbreviation m2 := (Samples.sampleMessage 2).
Local Abbreviation midnight := (Samples.dateOf "2024-03-10T00:00:00.000Z").
Local Abbreviation noon := 1710072000000.
Local Abbreviation firstUrl :=
  "https://discord.com/api/v9/channels/42/messages?limit=100&before=1216354870886400000"%string.
Local Abbreviation secondUrl :=
  (pageUrl Samples.client "42" (Some (id (Samples.sampleMessage 99))) None).
Local Abbreviation thirdUrl :=
  (pageUrl Samples.client "42" (Some (id (Samples.sampleMessage 199))) None).

(** The requests of the walk over three pages. *)
Lemma paging_walk_trace :
  exists res,
    getAllMessagesBetweenDates Samples.Date_parse_iso Samples.client Samples.pagingServer
      "42" "token" (Samples.dateOf "2024-03-10T08:19:00.000Z") None noon 50 []
    = Some (Normal res,
            [EvFetch firstUrl "token"; EvDelay 500;
             EvFetch secondUrl "token"; EvDelay 500;
             EvFetch thirdUrl "token"]).
Proof. eexists. vm_compute. reflexivity. Qed.

Lemma short_walk_run :
  getAllMessagesBetweenDates Samples.Date_parse_iso Samples.client Samples.shortServer
    "42" "token" midnight None noon 50 []
  = Some (Normal [m2; m1; m0], [EvFetch firstUrl "token"]).
Proof. vm_compute. reflexivity. Qed.

Lemma requests_are_paced_witness :
  exists res tr,
    getAllMessagesBetweenDates Samples.Date_parse_iso Samples.client Samples.pagingServer
      "42" "token" (Samples.dateOf "2024-03-10T08:19:00.000Z") None noon 50 []
    = Some (Normal res, tr)
    /\ tr = pacedTrace 500 [(firstUrl, "token"%string); (secondUrl, "token"%string);
                            (thirdUrl, "token"%string)].
Proof.
  destruct (requests_are_paced Samples.Date_parse_iso Samples.client Samples.pagingServer
              "42" "token" (Samples.dateOf "2024-03-10T08:19:00.000Z") None noon 50)
    as (out & tr & Hr & Hp).
  destruct paging_walk_trace as [res E].
  rewrite E in Hr. injection Hr as <- <-.
  exists res. eexists. split; [exact E | exact Hp].
Defined.

Lemma cursors_are_chained_witness :
  exists res tr p,
    getAllMessagesBetweenDates Samples.Date_parse_iso Samples.client Samples.pagingServer
      "42" "token" (Samples.dateOf "2024-03-10T08:19:00.000Z") None noon 50 []
    = Some (Normal res, tr)
    /\ nth_error (fetches tr) 1 = Some (secondUrl, "token"%string)
    /\ pageAt Samples.pagingServer tr 0 = Some p
    /\ List.length p = 100%nat
    /\ secondUrl = pageUrl Samples.client "42" (lastId p) None.
Proof.
  destruct (cursors_are_chained Samples.Date_parse_iso Samples.client Samples.pagingServer
              "42" "token" (Samples.dateOf "2024-03-10T08:19:00.000Z") None noon 50)
    as (sf & out & tr & _ & Hr & _ & Hchain).
  destruct paging_walk_trace as [res E].
  rewrite E in Hr. injection Hr as <- <-.
  destruct (Hchain 0%nat secondUrl "token"%string eq_refl)
    as (p & Hp & Hlen & _ & Hu & _).
  exists res. eexists. exists p. split; [exact E|]. split; [reflexivity|]. auto.
Defined.

Lemma short_walk_is_exhaustive_witness :
  (fetchCount [EvFetch firstUrl "token"] < Z.to_nat 50)%nat
  /\ exists n p,
       List.length (fetches [EvFetch firstUrl "token"]) = S n
       /\ pageAt Samples.shortServer [EvFetch firstUrl "token"] n = Some p
       /\ (List.length p <> 100%nat
           \/ existsb (isOld Samples.Date_parse_iso midnight) p = true).
Proof.
  assert (Hlt : (fetchCount [EvFetch firstUrl "token"] < Z.to_nat 50)%nat)
    by (vm_compute; lia).
  split; [exact Hlt|].
  destruct (short_walk_is_exhaustive Samples.Date_parse_iso Samples.client
              Samples.shortServer "42" "token" midnight None noon 50)
    as (out & tr & Hr & H).
  rewrite short_walk_run in Hr. injection Hr as <- <-.
  exact (H _ eq_refl Hlt).
Defined.

Lemma run_fails_at_last_request_witness :
  exists tr cause,
    getAllMessagesBetweenDates Samples.Date_parse_iso Samples.client
      (Samples.failingServer 429 (Some "12"%string)) "42" "token" midnight None noon 50 []
    = Some (Throw (ErrorObject "Error" "Failed to fetch messages: Unknown error"), tr)
    /\ ErrorObject "Error" "Failed to fetch messages: Unknown error" = wrapFetchError cause
    /\ FailedLast (Samples.failingServer 429 (Some "12"%string)) cause tr.
Proof.
  destruct (run_fails_at_last_request Samples.Date_parse_iso Samples.client
              (Samples.failingServer 429 (Some "12"%string)) "42" "token"
              midnight None noon 50) as (out & tr & Hr & _ & H).
  assert (E : getAllMessagesBetweenDates Samples.Date_parse_iso Samples.client
                (Samples.failingServer 429 (Some "12"%string)) "42" "token"
                midnight None noon 50 []
              = Some (Throw (ErrorObject "Error" "Failed to fetch messages: Unknown error"),
                      [EvFetch firstUrl "token"])) by (vm_compute; reflexivity).
  rewrite E in Hr. injection Hr as <- <-.
  destruct (H _ eq_refl) as (cause & Hc & Hf).
  eexists. exists cause. split; [exact E|]. split; [exact Hc | exact Hf].
Defined.

Lemma result_is_the_window_of_the_pages_witness :
  pageAt Samples.shortServer [EvFetch firstUrl "token"] 0 = Some [m0; m1; m2]
  /\ existsb (isOld Samples.Date_parse_iso midnight) [m0; m1; m2] = false
  /\ inWindow Samples.Date_parse_iso midnight (effectiveTo None noon) m1 = true
  /\ exists m', In m' [m2; m1; m0] /\ id m' = id m1.
Proof.
  assert (H1 : pageAt Samples.shortServer [EvFetch firstUrl "token"] 0
               = Some [m0; m1; m2]) by reflexivity.
  assert (H2 : existsb (isOld Samples.Date_parse_iso midnight) [m0; m1; m2] = false)
    by (vm_compute; reflexivity).
  assert (H3 : inWindow Samples.Date_parse_iso midnight (effectiveTo None noon) m1 = true)
    by (vm_compute; reflexivity).
  split; [exact H1|]. split; [exact H2|]. split; [exact H3|].
  destruct (result_is_the_window_of_the_pages Samples.Date_parse_iso Samples.client
              Samples.shortServer "42" "token" midnight None noon 50)
    as (out & tr & Hr & H).
  rewrite short_walk_run in Hr. injection Hr as <- <-.
  destruct (H _ eq_refl) as (_ & _ & Hall).
  exact (Hall 0%nat [m0; m1; m2] m1 H1 H2 (or_intror (or_introl eq_refl)) H3).
Defined.

Lemma no_page_allowed_no_request_witness :
  0 <= 0
  /\ getAllMessagesBetweenDates Samples.Date_parse_iso Samples.client Samples.pagingServer
       "42" "token" midnight None noon 0 [] = Some (Normal [], []).
Proof.
  assert (H : 0 <= 0) by lia.
  split; [exact H|].
  exact (no_page_allowed_no_request Samples.Date_parse_iso Samples.client
           Samples.pagingServer "42" "token" midnight None noon 0 H).
Defined.

Lemma invalid_from_date_gives_nothing_witness :
  exists tr,
    getAllMessagesBetweenDates Samples.Date_parse_iso Samples.client Samples.shortServer
      "42" "token" InvalidDate None noon 50 [] = Some (Normal [], tr).
Proof.
  destruct (invalid_from_date_gives_nothing Samples.Date_parse_iso Samples.client
              Samples.shortServer "42" "token" InvalidDate None noon 50 eq_refl)
    as (out & tr & Hr & H).
  assert (E : exists res,
             getAllMessagesBetweenDates Samples.Date_parse_iso Samples.client
               Samples.shortServer "42" "token" InvalidDate None noon 50 []
             = Some (Normal res, [EvFetch firstUrl "token"]))
    by (eexists; vm_compute; reflexivity).
  destruct E as [res E]. rewrite E in Hr. injection Hr as <- <-.
  destruct (H _ eq_refl) as [-> _]. eexists. exact E.
Defined.

End WalkMore.

(** ** The prompt text *)

Module FormatMore.

Import Discord DiscordMore FetcherFacts.

Lemma concat_app (sep : string) (a b : list string) :
  String.concat sep (a ++ b)
  = match a, b with
    | [], _ => String.concat sep b
    | _, [] => String.concat sep a
    | _ :: _, _ :: _ => (String.concat sep a ++ sep ++ String.concat sep b)%string
    end.
Proof.
  induction a as [|x a IH]; [reflexivity|].
  destruct b as [|y b]; [now rewrite app_nil_r|].
  destruct a as [|x' a].
  - simpl. reflexivity.
  - change ((x :: x' :: a) ++ y :: b) with (x :: ((x' :: a) ++ y :: b)).
    change (String.concat sep (x :: (x' :: a) ++ y :: b))
      with (x ++ sep ++ String.concat sep ((x' :: a) ++ y :: b))%string.
    rewrite IH.
    change (String.concat sep (x :: x' :: a))
      with (x ++ sep ++ String.concat sep (x' :: a))%string.
    now rewrite !append_assoc.
Qed.

(** X18. Formatting two sequences of messages one after the other: the
    text of the concatenation is the two texts, joined by one newline when
    both sequences have a message that is kept, and by nothing otherwise. *)
Theorem formatMessagesForPrompt_app (l1 l2 : list Message) :
  formatMessagesForPrompt (l1 ++ l2)
  = (formatMessagesForPrompt l1
     ++ (if existsb keepForPrompt l1 && existsb keepForPrompt l2 then newline else "")
     ++ formatMessagesForPrompt l2)%string.
Proof.
  unfold formatMessagesForPrompt. rewrite filter_app, map_app, concat_app.
  assert (Hex : forall l, existsb keepForPrompt l
                          = match map promptLine (filter keepForPrompt l) with
                            | [] => false
                            | _ :: _ => true
                            end).
  { induction l as [|m l IH]; [reflexivity|]. simpl.
    destruct (keepForPrompt m); [reflexivity | exact IH]. }
  rewrite !Hex.
  destruct (map promptLine (filter keepForPrompt l1)) as [|x a];
    destruct (map promptLine (filter keepForPrompt l2)) as [|y b]; simpl andb; cbv iota.
  - reflexivity.
  - reflexivity.
  - cbn [String.concat]. now rewrite !append_nil_r.
  - reflexivity.
Qed.

Lemma promptLine_not_empty (m : Message) :
  keepForPrompt m = true -> promptLine m <> ""%string.
Proof.
  unfold keepForPrompt, promptLine.
  destruct (author m) as [a|]; [|discriminate].
  destruct (content m) as [c|]; [|discriminate].
  intros _. destruct (username a); discriminate.
Qed.

(** X19. The text is empty exactly when every message is dropped: a
    message that is kept always leaves its "username: " in the text. *)
Theorem formatMessagesForPrompt_empty_iff (l : list Message) :
  formatMessagesForPrompt l = ""%string <-> existsb keepForPrompt l = false.
Proof.
  unfold formatMessagesForPrompt. induction l as [|m l IH]; simpl.
  - tauto.
  - destruct (keepForPrompt m) eqn:E; simpl; [|exact IH].
    split; [|discriminate]. intros H. exfalso.
    apply (promptLine_not_empty m E).
    destruct (map promptLine (filter keepForPrompt l)) as [|y b]; simpl in H.
    + exact H.
    + destruct (promptLine m); [reflexivity | discriminate].
Qed.

End FormatMore.

(** ** The plugin *)

Module PluginFacts.

Import Discord DiscordMore Plugin ContainerFacts WalkFacts RunFacts WindowFacts.

Section WithHost.

Variable Date_parse : string -> option Z.
Variable toLocaleDateString : Date -> string.

Local Abbreviation confirmDates := (confirmDates Date_parse).
Local Abbreviation Date_ofString := (DateUtils.Date_ofString Date_parse).

Lemma truthy_false (s : string) : truthy s = false <-> s = EmptyString.
Proof. destruct s; simpl; split; congruence. Qed.

(** X20. The confirm button hands over only dates picked in both fields,
    and a pair of valid dates only when the end is from 0 to 7 days after
    the start, both bounds included: equal dates pass.  Every such pair is
    handed over.  A date that cannot be read is not caught by the checks
    and is handed over as an invalid date. *)
Theorem confirmed_window_is_at_most_seven_days (startDate endDate : string) :
  (forall start finish,
     confirmDates startDate endDate = ConfirmSelect start finish ->
     startDate <> EmptyString /\ endDate <> EmptyString
     /\ start = Date_ofString startDate /\ finish = Date_ofString endDate
     /\ forall s e, getTime start = Some s -> getTime finish = Some e ->
                    0 <= e - s <= 7 * msPerDay)
  /\ (forall s e,
        startDate <> EmptyString -> endDate <> EmptyString ->
        getTime (Date_ofString startDate) = Some s ->
        getTime (Date_ofString endDate) = Some e ->
        0 <= e - s <= 7 * msPerDay ->
        confirmDates startDate endDate = ConfirmSelect (TimeValue s) (TimeValue e))
  /\ (startDate <> EmptyString -> endDate <> EmptyString ->
      Date_ofString startDate = InvalidDate \/ Date_ofString endDate = InvalidDate ->
      confirmDates startDate endDate
      = ConfirmSelect (Date_ofString startDate) (Date_ofString endDate)).
Proof.
  unfold Plugin.confirmDates, spanMs. split; [|split].
  - intros start finish.
    destruct (truthy startDate) eqn:Es; [|discriminate].
    destruct (truthy endDate) eqn:Ee; [|discriminate]. cbn [negb orb].
    destruct (num_lt _ (Some 0)) eqn:E1; [discriminate|].
    destruct (num_lt (Some (7 * msPerDay)) _) eqn:E2; [discriminate|].
    intros [= <- <-].
    split; [now destruct startDate|]. split; [now destruct endDate|].
    split; [reflexivity|]. split; [reflexivity|].
    intros s e Hs He. rewrite Hs, He in E1, E2. simpl in E1, E2.
    apply Z.ltb_ge in E1, E2. unfold msPerDay in *. lia.
  - intros s e Hs He Hgs Hge Hr.
    destruct startDate; [contradiction|]. destruct endDate; [contradiction|].
    cbn [truthy negb orb]. rewrite Hgs, Hge. cbn [num_lt].
    replace (e - s <? 0) with false by (symmetry; apply Z.ltb_ge; lia).
    replace (7 * msPerDay <? e - s) with false by (symmetry; apply Z.ltb_ge; lia).
    cbv iota.
    destruct (DateUtils.Date_ofString Date_parse (String _ _)) as [|s']; [discriminate|].
    destruct (DateUtils.Date_ofString Date_parse (String _ _)) as [|e']; [discriminate|].
    simpl in Hgs, Hge. congruence.
  - intros Hs He Hinv.
    destruct startDate; [contradiction|]. destruct endDate; [contradiction|].
    cbn [truthy negb orb].
    destruct Hinv as [H|H]; rewrite H; simpl.
    + destruct (getTime _); reflexivity.
    + reflexivity.
Qed.

End WithHost.

Lemma confirmed_window_is_at_most_seven_days_witness :
  confirmDates Samples.Date_parse_iso "2024-03-03T00:00:00.000Z" "2024-03-10T00:00:00.000Z"
  = ConfirmSelect (TimeValue 1709424000000) (TimeValue 1710028800000)
  /\ 0 <= 1710028800000 - 1709424000000 <= 7 * msPerDay
  /\ confirmDates Samples.Date_parse_iso "2024-03-02T00:00:00.000Z" "2024-03-10T00:00:00.000Z"
     = ConfirmNotice "Please select a time span of 7 days or less.".
Proof.
  destruct (confirmed_window_is_at_most_seven_days Samples.Date_parse_iso
              "2024-03-03T00:00:00.000Z" "2024-03-10T00:00:00.000Z") as (Hsel & Hacc & _).
  assert (Hne1 : "2024-03-03T00:00:00.000Z"%string <> EmptyString) by discriminate.
  assert (Hne2 : "2024-03-10T00:00:00.000Z"%string <> EmptyString) by discriminate.
  assert (Hr : 0 <= 1710028800000 - 1709424000000 <= 7 * msPerDay)
    by (unfold msPerDay; lia).
  pose proof (Hacc 1709424000000 1710028800000 Hne1 Hne2 eq_refl eq_refl Hr) as E.
  split; [exact E|].
  split; [exact (proj2 (proj2 (proj2 (proj2 (Hsel _ _ E)))) _ _ eq_refl eq_refl)|].
  reflexivity.
Defined.

Lemma discord_events_only (tr : Trace) :
  existsb isCompletion (map PDiscord tr) = false
  /\ existsb isReplaceSelection (map PDiscord tr) = false
  /\ filter isCompletion (map PDiscord tr) = []
  /\ filter isReplaceSelection (map PDiscord tr) = []
  /\ List.length (filter isDiscordFetch (map PDiscord tr)) = fetchCount tr.
Proof.
  unfold fetchCount. induction tr as [|e tr (H1 & H2 & H3 & H4 & H5)]; simpl.
  - auto.
  - repeat split; auto. destruct (isFetch e); simpl; auto.
Qed.

Section Summary.

Variable Date_parse : string -> option Z.
Variable toLocaleDateString : Date -> string.
Variable settings : Settings.
Variable server : Server.
Variable api : ChatApi.
Variable now : Z.
Variables startDate endDate : Date.

Local Abbreviation client :=
  {| apiBase := discordApiBase settings;
     rateLimitDelay := discordRateLimitDelay settings |}.
Local Abbreviation fetched :=
  (getAllMessagesBetweenDates Date_parse client server
     (discordChannelId settings) (discordToken settings)
     startDate (Some endDate) now 50 []).
Local Abbreviation callback :=
  (onDatesSelected Date_parse toLocaleDateString settings server api now
     startDate endDate).
Local Abbreviation notice :=
  (PNotice ("Fetching messages from " ++ toLocaleDateString startDate
            ++ " to " ++ toLocaleDateString endDate)).
Local Abbreviation requestFor :=
  (fun res => chatRequestOf (createPrompt (formatMessagesForPrompt res))
                            (openAIKey settings) defaultModel).

(** The callback, by the outcome of the walk. *)
Lemma callback_eq :
  callback
  = match fetched with
    | None => None
    | Some (Throw e, tr) => Some (Throw e, notice :: map PDiscord tr)
    | Some (Normal [], tr) => Some (Normal tt, notice :: map PDiscord tr)
    | Some (Normal res, tr) =>
        match api (requestFor res) with
        | Throw e =>
            Some (Throw e, notice :: map PDiscord tr ++ [PCompletion (requestFor res)])
        | Normal choices =>
            if truthyResult (firstContent choices)
            then Some (Normal tt,
                       notice :: map PDiscord tr
                       ++ [PCompletion (requestFor res)]
                       ++ match firstContent choices with
                          | Some text => [PReplaceSelection text]
                          | None => []
                          end)
            else Some (Normal tt,
                       notice :: map PDiscord tr ++ [PCompletion (requestFor res)])
        end
    end.
Proof.
  unfold onDatesSelected. destruct fetched as [[[res|e] tr]|]; try reflexivity.
  destruct res as [|m res]; [reflexivity|].
  cbn [List.length Nat.ltb Nat.leb]. unfold getCompletion.
  destruct (api _) as [choices|e]; cbn [bind try_catch]; [|reflexivity].
  destruct (firstContent choices) as [text|]; cbn [truthyResult]; [|reflexivity].
  destruct (truthy text); [|reflexivity].
  cbn [app]. now rewrite <- !app_assoc.
Qed.

(** The walk of the callback: it ends, after at most 50 requests, and what
    it returns lies in the window. *)
Lemma fetched_cases :
  exists dout tr,
    fetched = Some (dout, tr)
    /\ (fetchCount tr <= 50)%nat
    /\ (forall res m, dout = Normal res -> In m res ->
          InWindow Date_parse startDate endDate m)
    /\ ((forall k u t, exists p,
            pageOf (server k u t) = Some p
            /\ forall m, In m p -> inWindow Date_parse startDate endDate m = false) ->
        dout = Normal [])
    /\ ((forall k u t, pageOf (server k u t) = None) ->
        exists cause, dout = Throw (wrapFetchError cause) /\ fetchCount tr = 1%nat).
Proof.
  destruct (WalkMore.run_shape_cases Date_parse client server (discordChannelId settings)
              (discordToken settings) startDate (Some endDate) now 50)
    as (sf & He & [(st & tr & Hr & HS & Hc)|(e & tr & Hr & HF)]).
  - destruct HS as (HI & _ & _ & _ & Hstop & Hhit).
    eexists _, tr. split; [exact Hr|]. split; [apply HI|]. split; [|split].
    + intros res m [= <-] Hin.
      destruct (result_In Date_parse server startDate (Some endDate) now 50 st tr m HI Hin)
        as (k & p & _ & _ & Hw). exact Hw.
    + intros Hsrv. f_equal.
      match goal with |- ?l = [] => destruct l as [|m r] eqn:Es end; [reflexivity|].
      exfalso.
      assert (Hin : In m (Map_values (allMessages st))).
      { apply (Array_sort_In (compareByTimestamp Date_parse)). rewrite Es. now left. }
      destruct (Inv_values Date_parse server startDate (Some endDate) now 50 st tr m HI Hin)
        as (k & p & Hk & Hp & Hwin).
      apply pageAt_server in Hk as (u & t & Hk).
      destruct (Hsrv k u t) as (p' & Hp' & Hnone).
      rewrite Hk in Hp'. injection Hp' as <-.
      simpl in Hwin. rewrite (Hnone m Hp) in Hwin. discriminate.
    + intros Hsrv. exfalso.
      destruct HI as (_ & _ & _ & Hdel & Hpc & _ & Hmore).
      destruct (fetches tr) as [|q r] eqn:Ef.
      * destruct (hasMore st) eqn:Hm.
        -- specialize (Hmore eq_refl). rewrite fetchCount_fetches, Ef in Hmore.
           unfold walkCond in Hc. rewrite Hm in Hc. simpl in Hc, Hmore.
           apply andb_false_iff in Hc as [Hc|Hc].
           ++ apply Z.ltb_ge in Hc. lia.
           ++ apply negb_false_iff in Hc. specialize (Hhit Hc). discriminate.
        -- destruct (Hstop Hm) as (n & p & Hlen & _). rewrite Ef in Hlen.
           discriminate.
      * apply (Hdel 0%nat); [simpl; lia|].
        unfold pageAt. rewrite Ef. simpl. destruct q as [u t]. apply Hsrv.
  - eexists _, tr. split; [exact Hr|].
    destruct HF as (_ & _ & (n & u & t & Hlen & Hn & Hout & Hdel) & Hcnt).
    split; [exact Hcnt|]. split; [intros res m [=]|]. split.
    + intros Hsrv. exfalso.
      destruct (Hsrv n u t) as (p & Hp & _).
      apply pageOutcome_Normal in Hp. congruence.
    + intros Hsrv. exists e. split; [reflexivity|].
      rewrite fetchCount_fetches, Hlen. f_equal.
      destruct n as [|n]; [reflexivity|]. exfalso.
      apply (Hdel 0%nat); [lia|]. unfold pageAt.
      destruct (nth_error (fetches tr) 0) as [[u0 t0]|]; [apply Hsrv | reflexivity].
Qed.

Lemma In_discord_events (tr : Trace) (text : string) :
  ~ In (PReplaceSelection text) (map PDiscord tr).
Proof. intros H. apply in_map_iff in H as (e & He & _). discriminate. Qed.

(** X21. When no delivered message lies in the window the callback returns
    without asking for a completion and without touching the editor.  When
    every request fails it throws the wrapped error of the first request,
    having made that one request, and again neither asks for a completion
    nor touches the editor. *)
Theorem no_completion_without_messages :
  exists out events,
    onDatesSelected Date_parse toLocaleDateString settings server api now
      startDate endDate = Some (out, events)
    /\ ((forall k u t, exists p,
            pageOf (server k u t) = Some p
            /\ forall m, In m p -> inWindow Date_parse startDate endDate m = false) ->
        out = Normal tt
        /\ existsb isCompletion events = false
        /\ existsb isReplaceSelection events = false)
    /\ ((forall k u t, pageOf (server k u t) = None) ->
        exists cause,
          out = Throw (wrapFetchError cause)
          /\ existsb isCompletion events = false
          /\ existsb isReplaceSelection events = false
          /\ List.length (filter isDiscordFetch events) = 1%nat).
Proof.
  destruct fetched_cases as (dout & tr & Hf & _ & _ & Hempty & Hfail).
  destruct (discord_events_only tr) as (H1 & H2 & _ & _ & H5).
  rewrite callback_eq, Hf.
  destruct dout as [[|m res]|e].
  - eexists _, _. split; [reflexivity|]. split.
    + intros _. simpl. auto.
    + intros Hsrv. destruct (Hfail Hsrv) as (cause & [=] & _).
  - destruct (api (requestFor (m :: res))) as [choices|e];
      [destruct (truthyResult (firstContent choices))|];
      (eexists _, _; split; [reflexivity|]; split;
       [intros Hsrv; discriminate (Hempty Hsrv)
       |intros Hsrv; destruct (Hfail Hsrv) as (cause & [=] & _)]).
  - eexists _, _. split; [reflexivity|]. split.
    + intros Hsrv. discriminate (Hempty Hsrv).
    + intros Hsrv. destruct (Hfail Hsrv) as (cause & [= ->] & Hone).
      exists cause. simpl. rewrite H5. auto.
Qed.


(** X23. What one summary can cost: at most 50 page requests to Discord,
    at most one request for a completion and at most one write to the
    editor. *)
Theorem summary_costs :
  exists out events,
    onDatesSelected Date_parse toLocaleDateString settings server api now
      startDate endDate = Some (out, events)
    /\ (List.length (filter isDiscordFetch events) <= 50)%nat
    /\ (List.length (filter isCompletion events) <= 1)%nat
    /\ (List.length (filter isReplaceSelection events) <= 1)%nat.
Proof.
  destruct fetched_cases as (dout & tr & Hf & Hcnt & _).
  destruct (discord_events_only tr) as (_ & _ & H3 & H4 & H5).
  rewrite callback_eq, Hf.
  destruct dout as [[|m res]|e];
    [|destruct (api (requestFor (m :: res))) as [choices|e];
      [destruct (firstContent choices) as [text|]; cbn [truthyResult];
       [destruct (truthy text)|]|]|];
    (eexists _, _; split; [reflexivity|]);
    cbn [filter isDiscordFetch isCompletion isReplaceSelection];
    rewrite ?filter_app, ?H3, ?H4; rewrite ?length_app, ?H5; simpl; lia.
Qed.

End Summary.


(** A token that Discord refuses: one request, no completion. *)
Lemma no_completion_without_messages_witness :
  (forall k u t, pageOf (Samples.failingServer 401 None k u t) = None)
  /\ exists cause events,
       onDatesSelected Samples.Date_parse_iso PluginSamples.showDate PluginSamples.settings
         (Samples.failingServer 401 None) PluginSamples.echoApi 1710072000000
         (Samples.dateOf "2024-03-10T00:00:00.000Z")
         (Samples.dateOf "2024-03-10T12:00:00.000Z")
       = Some (Throw (wrapFetchError cause), events)
       /\ existsb isCompletion events = false
       /\ List.length (filter isDiscordFetch events) = 1%nat.
Proof.
  assert (Hsrv : forall k u t, pageOf (Samples.failingServer 401 None k u t) = None)
    by (intros; reflexivity).
  split; [exact Hsrv|].
  destruct (no_completion_without_messages Samples.Date_parse_iso PluginSamples.showDate
              PluginSamples.settings (Samples.failingServer 401 None) PluginSamples.echoApi
              1710072000000 (Samples.dateOf "2024-03-10T00:00:00.000Z")
              (Samples.dateOf "2024-03-10T12:00:00.000Z"))
    as (out & events & Hr & _ & Hfail).
  destruct (Hfail Hsrv) as (cause & -> & Hc & _ & Hone).
  exists cause, events. auto.
Defined.

End PluginFacts.
